(** * A shallow embedding of the slide-deck generator

    The Python sources [generate_ppt.py], [design_extractor.py],
    [ingestion_chroma.py], [app.py] and [azure_blob_utils.py] are rendered as
    Rocq functions.  Pure helpers become plain functions; code that touches
    the file system, the blob store, the vector collection or a hosted model
    threads an explicit state and returns either a value or a raised
    exception.  Everything outside the repository (hosted models, the
    presentation library, [utils], [search_utils]) is an oracle held in an
    environment record. *)

From Stdlib Require Import Ascii String List ZArith NArith QArith Lia Bool.
From Stdlib Require Import DecimalString.
From stdpp Require Import base option list gmap strings.

Set Warnings "-register-all".
Local Open Scope Z_scope.

(** ** Python [str]

    A [str] is a sequence of code points.  The development covers the
    strings whose code points lie below 256 (ASCII and the Latin-1
    supplement): a character of a Rocq [string] stands for the code point
    with its number.  On these strings the helpers below are the Python
    operations, with the two exceptions noted at [capitalize] and [int].
    Text with code points from 256 on is outside the development. *)
Module Str.

Definition code (c : ascii) : nat := nat_of_ascii c.

(** The code points below 256 that [lower] changes: A-Z, and the capital
    letters 192..222 of the Latin-1 supplement except the multiplication
    sign 215.  Each maps to the code point 32 above it. *)
Definition isupper (c : ascii) : bool :=
  (Nat.leb 65 (code c) && Nat.leb (code c) 90
   || Nat.leb 192 (code c) && Nat.leb (code c) 222 && negb (Nat.eqb (code c) 215))%bool.

(** The code points below 256 whose capital is the code point 32 below
    them: a-z, and 224..254 except the division sign 247. *)
Definition islower (c : ascii) : bool :=
  (Nat.leb 97 (code c) && Nat.leb (code c) 122
   || Nat.leb 224 (code c) && Nat.leb (code c) 254 && negb (Nat.eqb (code c) 247))%bool.

(** [\d] of the [re] module on a [str] pattern: the decimal digits of
    Unicode (category Nd).  Below 256 these are 0-9 and no others; the
    superscripts 178, 179 and 185 are not decimal digits. *)
Definition isdigit (c : ascii) : bool :=
  (Nat.leb 48 (code c) && Nat.leb (code c) 57)%bool.

(** [\s] of the [re] module on a [str] pattern, and what [str.strip]
    removes: the white space of Unicode.  Below 256 these are tab, line
    feed, vertical tab, form feed, carriage return, the four separators
    28..31, space, next line (133) and the no-break space (160). *)
Definition isspace (c : ascii) : bool :=
  (Nat.leb 9 (code c) && Nat.leb (code c) 13
   || Nat.leb 28 (code c) && Nat.leb (code c) 32
   || Nat.eqb (code c) 133
   || Nat.eqb (code c) 160)%bool.

Definition lower_char (c : ascii) : ascii :=
  if isupper c then ascii_of_nat (code c + 32) else c.

Definition upper_char (c : ascii) : ascii :=
  if islower c then ascii_of_nat (code c - 32) else c.

(** [s.lower()] *)
Fixpoint lower (s : string) : string :=
  match s with
  | EmptyString => EmptyString
  | String c s' => String (lower_char c) (lower s')
  end.

(** [s.capitalize()]: first character upper-cased, the rest lower-cased.
    The capitals of the micro sign (181), of the sharp s (223) and of the y
    with diaeresis (255) lie outside the code points below 256 and are not
    rendered; the sources capitalise the words of an ASCII vocabulary
    only. *)
Definition capitalize (s : string) : string :=
  match s with
  | EmptyString => EmptyString
  | String c s' => String (upper_char c) (lower s')
  end.

(** [s.startswith(p)] *)
Fixpoint startswith (p s : string) : bool :=
  match p with
  | EmptyString => true
  | String a p' =>
      match s with
      | EmptyString => false
      | String b s' => if Ascii.eqb a b then startswith p' s' else false
      end
  end.

(** [s.endswith(p)] *)
Definition endswith (p s : string) : bool :=
  startswith (String.rev p) (String.rev s).

(** [needle in hay] *)
Fixpoint contains (needle hay : string) : bool :=
  if startswith needle hay then true
  else match hay with
       | EmptyString => false
       | String _ hay' => contains needle hay'
       end.

(** [s[:n]] for a non-negative [n]. *)
Fixpoint take (n : nat) (s : string) : string :=
  match n, s with
  | S n', String c s' => String c (take n' s')
  | _, _ => EmptyString
  end.

(** [s[n:]] for a non-negative [n]. *)
Fixpoint drop (n : nat) (s : string) : string :=
  match n, s with
  | S n', String _ s' => drop n' s'
  | _, _ => s
  end.

(** [s.strip()] *)
Fixpoint lstrip (s : string) : string :=
  match s with
  | String c s' => if isspace c then lstrip s' else s
  | EmptyString => EmptyString
  end.

Definition strip (s : string) : string :=
  String.rev (lstrip (String.rev (lstrip s))).

(** [sep.join(parts)] *)
Fixpoint join (sep : string) (parts : list string) : string :=
  match parts with
  | [] => ""
  | [p] => p
  | p :: rest => p +:+ sep +:+ join sep rest
  end.

(** [s.split(sep, 1)[0]] for a one-character separator: the text before
    the first [sep], or all of [s] when there is none. *)
Fixpoint split_first (sep : ascii) (s : string) : string :=
  match s with
  | EmptyString => EmptyString
  | String c s' => if Ascii.eqb c sep then "" else String c (split_first sep s')
  end.

(** [s.replace(a, b)] for one-character [a] and [b]. *)
Fixpoint replace_char (a b : ascii) (s : string) : string :=
  match s with
  | EmptyString => EmptyString
  | String c s' => String (if Ascii.eqb c a then b else c) (replace_char a b s')
  end.

(** [str(n)] for an [int]. *)
Definition of_Z (n : Z) : string := NilZero.string_of_int (Z.to_int n).

Definition of_nat (n : nat) : string := of_Z (Z.of_nat n).

(** [int(s)] for a string of decimal digits: its value.  CPython from
    3.11 on refuses to convert more than [int_max_str_digits] digits and
    raises [ValueError] instead, unless the cap is lifted; below the cap
    [int] is the conversion, and the statements about a converted number
    carry the cap as a hypothesis. *)
Definition int_max_str_digits : nat := 4300.

Fixpoint int_acc (acc : Z) (s : string) : Z :=
  match s with
  | EmptyString => acc
  | String c s' => int_acc (10 * acc + (Z.of_nat (code c) - 48)) s'
  end.

Definition int (s : string) : Z := int_acc 0 s.

Fixpoint all (p : ascii -> bool) (s : string) : bool :=
  match s with
  | EmptyString => true
  | String c s' => p c && all p s'
  end.

End Str.

(** ** The fragment of [re] used by the pipeline

    A backtracking matcher in continuation style, as [re] runs it: greedy
    repetition that gives characters back one at a time, and a leftmost
    search over the start positions. *)
Module Re.

Inductive regex : Type :=
| Lit (c : ascii)                  (* a literal character *)
| Plus (p : ascii -> bool)         (* [p+], greedy *)
| Opt (r : regex)                  (* [r?], greedy *)
| Seq (r1 r2 : regex)
| Group (r : regex).               (* capture group 1 *)

(** What the caller reads off a match object: [group(1)] and the text
    left after the match. *)
Record match_obj : Type := { group1 : option string; rest : string }.

(** After one [p]-character has been taken: take more while possible and,
    when the continuation fails, give them back one by one. *)
Fixpoint plus_more {A} (p : ascii -> bool) (s : string)
         (k : string -> option A) : option A :=
  match s with
  | String c s' =>
      if p c then
        match plus_more p s' k with
        | Some m => Some m
        | None => k s
        end
      else k s
  | EmptyString => k s
  end.

Fixpoint rmatch {A} (r : regex) (s : string) (g : option string)
         (k : string -> option string -> option A) : option A :=
  match r with
  | Lit c =>
      match s with
      | String d s' => if Ascii.eqb c d then k s' g else None
      | EmptyString => None
      end
  | Plus p =>
      match s with
      | String c s' => if p c then plus_more p s' (fun t => k t g) else None
      | EmptyString => None
      end
  | Opt r' =>
      match rmatch r' s g k with
      | Some m => Some m
      | None => k s g
      end
  | Seq r1 r2 => rmatch r1 s g (fun t g' => rmatch r2 t g' k)
  | Group r' =>
      rmatch r' s g
        (fun t _ => k t (Some (Str.take (String.length s - String.length t) s)))
  end.

(** [pattern.match(s)]: a match anchored at the start of [s]. *)
Definition match_here (r : regex) (s : string) : option match_obj :=
  rmatch r s None (fun t g => Some {| group1 := g; rest := t |}).

(** [re.search(pattern, s)]: the match at the leftmost start position. *)
Fixpoint search (r : regex) (s : string) : option match_obj :=
  match match_here r s with
  | Some m => Some m
  | None =>
      match s with
      | EmptyString => None
      | String _ s' => search r s'
      end
  end.

(** The literal characters of [s], then [r]. *)
Fixpoint lits (s : string) (r : regex) : regex :=
  match s with
  | EmptyString => r
  | String c s' => Seq (Lit c) (lits s' r)
  end.

End Re.

(** ** Truthiness and [or] *)
Class Truthy (A : Type) := truthy : A -> bool.

#[global] Instance Z_truthy : Truthy Z := fun n => negb (n =? 0).
#[global] Instance nat_truthy : Truthy nat := fun n => negb (Nat.eqb n 0).
#[global] Instance string_truthy : Truthy string :=
  fun s => match s with EmptyString => false | _ => true end.
#[global] Instance list_truthy {A} : Truthy (list A) :=
  fun l => match l with [] => false | _ => true end.
(** [None] is falsy; any other object answers for itself. *)
#[global] Instance option_truthy {A} `{Truthy A} : Truthy (option A) :=
  fun o => match o with None => false | Some a => truthy a end.

(** [a or b] *)
Definition py_or {A} `{Truthy A} (a b : A) : A := if truthy a then a else b.

(** ** Python objects, exceptions and the world *)

(** Objects as [json] produces them. *)
Inductive value : Type :=
| VNone
| VBool (b : bool)
| VInt (n : Z)
| VFloat (q : Q)
| VStr (s : string)
| VList (l : list value)
| VDict (d : list (string * value)).

#[global] Instance value_truthy : Truthy value := fun v =>
  match v with
  | VNone => false
  | VBool b => b
  | VInt n => truthy n
  | VFloat q => negb (Qeq_bool q 0)
  | VStr s => truthy s
  | VList l => truthy l
  | VDict d => truthy d
  end.

(** An exception: its class and its message. *)
Record exn : Type := Exn { exn_class : string; exn_msg : string }.

Inductive result (A : Type) : Type :=
| Ok (a : A)
| Raise (e : exn).
Arguments Ok {A} a.
Arguments Raise {A} e.

(** Contents of a local file or of a stored blob.  A well-formed JSON text is
    kept as the object it parses to, a saved deck as the deck. *)
Record paragraph : Type := { p_text : string; p_size : option Z }.

Record picture : Type :=
  { pic_file : string; pic_left : Z; pic_top : Z; pic_width : Z }.

Record doc_slide : Type :=
  { sl_layout : nat;
    sl_title : option string;
    sl_body : list paragraph;
    sl_pictures : list picture }.

(** What the design extractor and the ingestion read from a source deck. *)
Inductive MSO_SHAPE_TYPE : Type :=
| AUTO_SHAPE | CHART | PICTURE | TABLE | OTHER_SHAPE.

(** The outcome of probing an optional attribute chain of a shape. *)
Inductive probe (A : Type) : Type :=
| Missing              (* the guard is false: nothing to record *)
| Found (a : A)        (* the attribute is there *)
| Broken.              (* reading it raises *)
Arguments Missing {A}.
Arguments Found {A} a.
Arguments Broken {A}.

Record shape : Type :=
  { shape_type : result MSO_SHAPE_TYPE;   (* the property raises for a shape
                                             the library does not recognise *)
    name : string;
    chart_type : option string;       (* [None]: reading it raises *)
    auto_shape_type : string;
    fill_rgb : probe string;
    line_rgb : probe string;
    run_fonts : probe (list (option string));
    text : option string }.           (* [None]: no [text] attribute *)

Record src_slide : Type :=
  { layout_name : option string;
    background_rgb : probe string;
    shapes : list shape }.

Record src_deck : Type :=
  { theme_rgbs : probe (list string);
    slides : list src_slide }.

Inductive file : Type :=
| PptxFile (d : list doc_slide)     (* a deck written by [build_ppt] *)
| DeckFile (d : src_deck)           (* a source deck of the dataset *)
| JsonFile (v : value)              (* JSON text *)
| RawFile (b : string).             (* any other bytes *)

(** One record of the [ppt_slides] collection. *)
Record entry : Type :=
  { e_id : string; e_document : string; e_embedding : list Q; e_metadata : value }.

Inductive level : Type := DEBUG | INFO | WARNING | ERROR | EXCEPTION.

Inductive event : Type :=
| EvLog (l : level) (msg : string)
| EvDownload (blob : string)
| EvExtract (path : string)
| EvChat (system user : string)
| EvImage (prompt : value)
| EvEmbed (texts : list string)
| EvCollectionAdd (documents : list string) (embeddings : list (list Q))
                  (metadatas : list value) (ids : list string)
| EvUpload (blob : string)
| EvStatus (text : string)
| EvProgress (percent : nat)
| EvDownloadButton (file_name : string) (data : file)
| EvSubheader (text : string)
| EvPreview (caption : string)
| EvError (text : string).

(** The mutable world: a clock that numbers the consultations of the
    outside, the local file system, the generated-output container, the
    vector collection, and what has happened so far (latest first). *)
Record world : Type :=
  { clock : nat;
    fs : gmap string file;
    generated : gmap string file;
    collection : list entry;
    trace : list event }.

(** Everything the repository does not contain.  An oracle takes the clock
    value at which it is consulted, so two calls may answer differently. *)
Record env : Type :=
  { CHAT_MODEL : string;
    IMAGE_MODEL : string;
    EMBEDDING_MODEL : string;
    GENERATED_CONTAINER : string;
    gettempdir : string;
    now_ts : nat -> string;
    urandom16 : nat -> N;
    mktemp : nat -> string -> string;
    disk_ok : nat -> string -> bool;
    py_str : value -> string;
    json_dumps : value -> string;
    safe_json_load : option string -> result value;
    semantic_search :
      nat -> string -> nat -> option (list string) -> result (option (list value));
    chat_create :
      nat -> string -> list (string * string) -> nat -> Z -> result (option string);
    images_generate : nat -> string -> value -> string -> result string;
    requests_get : nat -> string -> nat -> result string;
    image_ok : nat -> string -> bool;
    list_blobs : nat -> result (list string);
    download_blob : nat -> string -> result file;
    upload_ok : nat -> string -> bool;
    embeddings_create : nat -> string -> list string -> result (list (list Q)) }.

(** Code that may change the world and may raise.  What was done before an
    exception stays done. *)
Definition M (A : Type) : Type := world -> result A * world.

Definition ret {A} (a : A) : M A := fun w => (Ok a, w).

Definition raise {A} (e : exn) : M A := fun w => (Raise e, w).

Definition bind {A B} (m : M A) (f : A -> M B) : M B := fun w =>
  match m w with
  | (Ok a, w') => f a w'
  | (Raise e, w') => (Raise e, w')
  end.

(** [try: m  except Exception as e: h e] *)
Definition try_except {A} (m : M A) (h : exn -> M A) : M A := fun w =>
  match m w with
  | (Ok a, w') => (Ok a, w')
  | (Raise e, w') => h e w'
  end.

Definition lift {A} (r : result A) : M A := fun w => (r, w).

Notation "x <- m ;; k" := (bind m (fun x => k))
  (at level 100, m at next level, right associativity).
Notation "m ;;; k" := (bind m (fun _ => k))
  (at level 100, right associativity).

Definition set_clock (n : nat) (w : world) : world :=
  {| clock := n; fs := fs w; generated := generated w;
     collection := collection w; trace := trace w |}.
Definition set_fs (f : gmap string file) (w : world) : world :=
  {| clock := clock w; fs := f; generated := generated w;
     collection := collection w; trace := trace w |}.
Definition set_generated (g : gmap string file) (w : world) : world :=
  {| clock := clock w; fs := fs w; generated := g;
     collection := collection w; trace := trace w |}.
Definition set_collection (c : list entry) (w : world) : world :=
  {| clock := clock w; fs := fs w; generated := generated w;
     collection := c; trace := trace w |}.
Definition set_trace (t : list event) (w : world) : world :=
  {| clock := clock w; fs := fs w; generated := generated w;
     collection := collection w; trace := t |}.

(** Consult the outside once: hand out the clock value and advance it. *)
Definition tick : M nat := fun w => (Ok (clock w), set_clock (S (clock w)) w).

Definition emit (ev : event) : M unit := fun w =>
  (Ok tt, set_trace (ev :: trace w) w).

Definition log (l : level) (msg : string) : M unit := emit (EvLog l msg).

Definition read_file (path : string) : M file := fun w =>
  match fs w !! path with
  | Some f => (Ok f, w)
  | None => (Raise (Exn "FileNotFoundError" path), w)
  end.

Definition exists_file (path : string) : M bool := fun w =>
  (Ok (bool_decide (is_Some (fs w !! path))), w).

(** [open(path, "w")] followed by the write: the disk oracle decides. *)
Definition write_file (e : env) (path : string) (f : file) : M unit :=
  t <- tick ;;
  if disk_ok e t path
  then fun w => (Ok tt, set_fs (<[path := f]> (fs w)) w)
  else raise (Exn "OSError" path).

Fixpoint mapM {A B} (f : A -> M B) (l : list A) : M (list B) :=
  match l with
  | [] => ret []
  | a :: l' => b <- f a ;; bs <- mapM f l' ;; ret (b :: bs)
  end.

Fixpoint forM_ {A} (l : list A) (f : A -> M unit) : M unit :=
  match l with
  | [] => ret tt
  | a :: l' => f a ;;; forM_ l' f
  end.

(** ** [uuid] and [os.path] *)
Module Uuid.
Local Open Scope N_scope.

Definition hex_digit (n : N) : ascii :=
  match String.get (N.to_nat n) "0123456789abcdef" with
  | Some c => c
  | None => "0"%char
  end.

(** ['%0kx' % n]: the [k] low hexadecimal digits, most significant first. *)
Fixpoint hex (k : nat) (n : N) : string :=
  match k with
  | O => ""
  | S k' => String (hex_digit (N.shiftr n (4 * N.of_nat k') mod 16)) (hex k' n)
  end.

(** [uuid.uuid4().int]: sixteen random bytes, then the variant and the
    version bits are forced. *)
Definition uuid4_int (random : N) : N :=
  let i := random mod 2 ^ 128 in
  let i := N.lor (N.ldiff i (N.shiftl 0xc000 48)) (N.shiftl 0x8000 48) in
  let i := N.lor (N.ldiff i (N.shiftl 0xf000 64)) (N.shiftl 4 76) in
  i.

(** [u.hex] *)
Definition hex32 (u : N) : string := hex 32 u.

(** [str(u)] *)
Definition to_str (u : N) : string :=
  let h := hex32 u in
  Str.take 8 h +:+ "-" +:+ Str.take 4 (Str.drop 8 h) +:+ "-"
    +:+ Str.take 4 (Str.drop 12 h) +:+ "-" +:+ Str.take 4 (Str.drop 16 h)
    +:+ "-" +:+ Str.drop 20 h.

Definition uuid4 (e : env) : M N :=
  t <- tick ;; ret (uuid4_int (urandom16 e t)).
End Uuid.

Module Path.

(** [os.path.join(a, b)] *)
Definition join (a b : string) : string :=
  if Str.startswith "/" b then b
  else if (negb (truthy a) || Str.endswith "/" a)%bool then a +:+ b
  else a +:+ "/" +:+ b.

(** [os.path.basename(p)]: what follows the last slash. *)
Fixpoint basename (p : string) : string :=
  match p with
  | EmptyString => EmptyString
  | String _ p' => if Str.contains "/" p then basename p' else p
  end.

(** [p.rfind(c)], with [-1] for no occurrence. *)
Fixpoint rfind_from (c : ascii) (p : string) (i last : Z) : Z :=
  match p with
  | EmptyString => last
  | String d p' => rfind_from c p' (i + 1) (if Ascii.eqb d c then i else last)
  end.

Definition rfind (c : ascii) (p : string) : Z := rfind_from c p 0 (-1).

(** [os.path.splitext(p)[0]]: the extension starts at the last dot after
    the last slash, unless only dots precede it in the file name. *)
Definition splitext_root (p : string) : string :=
  let sepIndex := rfind "/" p in
  let dotIndex := rfind "." p in
  if dotIndex >? sepIndex then
    let filenameIndex := Z.to_nat (sepIndex + 1) in
    let lead := Str.take (Z.to_nat dotIndex - filenameIndex) (Str.drop filenameIndex p) in
    if Str.all (Ascii.eqb ".") lead then p
    else Str.take (Z.to_nat dotIndex) p
  else p.

End Path.

(** ** [azure_blob_utils.py] *)
Module AzureBlobUtils.

(** [container_client.upload_blob(name=..., data=..., overwrite=True)];
    a failed [create_container] before it is swallowed. *)
Definition upload_blob (e : env) (blob_name : string) (data : file) : M unit :=
  t <- tick ;;
  emit (EvUpload blob_name) ;;;
  if upload_ok e t blob_name
  then fun w => (Ok tt, set_generated (<[blob_name := data]> (generated w)) w)
  else raise (Exn "AzureError" blob_name).

Definition upload_ppt_to_blob (e : env) (file_path file_name : string) : M string :=
  data <- read_file file_path ;;
  upload_blob e file_name data ;;;
  log INFO ("Uploaded generated PPT to Azure Blob: "
            +:+ GENERATED_CONTAINER e +:+ "/" +:+ file_name) ;;;
  ret (GENERATED_CONTAINER e +:+ "/" +:+ file_name).

Definition upload_json_to_blob (e : env) (json_bytes : file) (blob_name : string)
  : M string :=
  upload_blob e blob_name json_bytes ;;;
  log INFO ("Uploaded log to Azure Blob: "
            +:+ GENERATED_CONTAINER e +:+ "/" +:+ blob_name) ;;;
  ret (GENERATED_CONTAINER e +:+ "/" +:+ blob_name).

End AzureBlobUtils.

(** ** Dictionaries and iteration over objects *)

Fixpoint dict_get (key : string) (d : list (string * value)) : option value :=
  match d with
  | [] => None
  | (k, v) :: d' => if String.eqb k key then Some v else dict_get key d'
  end.

(** [obj.get(key, default)]: only a [dict] has the method. *)
Definition py_get (obj : value) (key : string) (dflt : value) : result value :=
  match obj with
  | VDict d => Ok (default dflt (dict_get key d))
  | _ => Raise (Exn "AttributeError" "get")
  end.

Fixpoint chars (s : string) : list value :=
  match s with
  | EmptyString => []
  | String c s' => VStr (String c "") :: chars s'
  end.

(** [for x in obj] *)
Definition py_iter (obj : value) : result (list value) :=
  match obj with
  | VList l => Ok l
  | VStr s => Ok (chars s)
  | VDict d => Ok (map (fun kv => VStr (fst kv)) d)
  | _ => Raise (Exn "TypeError" "object is not iterable")
  end.

(** [obj[:n]] *)
Definition py_slice_to (n : nat) (obj : value) : result value :=
  match obj with
  | VStr s => Ok (VStr (Str.take n s))
  | VList l => Ok (VList (take n l))
  | _ => Raise (Exn "TypeError" "object is not subscriptable")
  end.

(** [f"{obj}"] *)
Definition fmt (e : env) (obj : value) : string :=
  match obj with
  | VStr s => s
  | _ => py_str e obj
  end.

Definition opt_value {A} (f : A -> value) (o : option A) : value :=
  match o with
  | Some a => f a
  | None => VNone
  end.

(** ** [generate_ppt.py] *)
Module GeneratePpt.

Definition nl : string := String (ascii_of_nat 10) "".
Definition dq : string := String (ascii_of_nat 34) "".

(** [r"(\d+)\s+slides?"] *)
Definition slides_re : Re.regex :=
  Re.Seq (Re.Group (Re.Plus Str.isdigit))
    (Re.Seq (Re.Plus Str.isspace) (Re.lits "slide" (Re.Opt (Re.Lit "s")))).

Definition theme_words : list string :=
  ["corporate"; "modern"; "minimal"; "professional";
   "dark"; "light"; "colorful"; "gradient"; "flat"].

(** The [for t in theme_words] loop with its [break]. *)
Fixpoint detect_theme (words : list string) (lowered : string) : option string :=
  match words with
  | [] => None
  | t :: words' =>
      if Str.contains t lowered then Some (Str.capitalize t)
      else detect_theme words' lowered
  end.

Definition parse_user_intent (prompt : string) : option Z * option string :=
  let num_slides :=
    match Re.search slides_re (Str.lower prompt) with
    | Some m => Some (Str.int (default "" (Re.group1 m)))
    | None => None
    end in
  let theme := detect_theme theme_words (Str.lower prompt) in
  (num_slides, theme).

Definition fallback_plan : value :=
  VList [VDict [("title", VStr "Intro");
                ("bullets", VList [VStr "Overview"]);
                ("visual_required", VBool false)]].

Definition sys_prompt_head : string :=
  "You are an expert presentation designer." +:+ nl
  +:+ "Create a structured slide plan." +:+ nl
  +:+ "Return strictly JSON: a list of slides:" +:+ nl
  +:+ "[ {" +:+ dq +:+ "title" +:+ dq +:+ ": str, "
  +:+ dq +:+ "bullets" +:+ dq +:+ ": [str], "
  +:+ dq +:+ "visual_required" +:+ dq +:+ ": bool, "
  +:+ dq +:+ "visual_prompt" +:+ dq +:+ ": str } ]" +:+ nl +:+ nl
  +:+ "Use the design JSONs for style cues and reference snippets for content."
  +:+ nl
  +:+ "If both match well, enable visuals. Otherwise, decide independently."
  +:+ nl
  +:+ "If slide count or theme is detected from user text, follow it." +:+ nl.

(** The system message assembled before the [try]. *)
Definition system_prompt (e : env) (design_context references_text : list value)
           (theme : option string) : string :=
  let sys_prompt := sys_prompt_head in
  let sys_prompt :=
    if truthy theme
    then sys_prompt +:+ nl +:+ "Theme preference: " +:+ default "" theme +:+ nl
    else sys_prompt in
  let sys_prompt :=
    sys_prompt +:+ nl +:+ "Design Context (truncated): "
    +:+ Str.take 4000 (json_dumps e (VList design_context)) in
  sys_prompt +:+ nl +:+ "Reference Snippets: "
    +:+ Str.take 2000 (json_dumps e (VList references_text)) +:+ nl.

(** The user message. *)
Definition user_prompt (prompt style : string) (num_slides : option Z) : string :=
  let user_prompt :=
    "Create a PowerPoint plan for: " +:+ prompt +:+ ". Style: " +:+ style +:+ "." in
  if truthy num_slides
  then user_prompt +:+ " Produce exactly "
       +:+ Str.of_Z (default 0 num_slides) +:+ " slides."
  else user_prompt.

(** The chat call and the tolerant parse of its answer, at clock [t]. *)
Definition plan_attempt (e : env) (t : nat) (messages : list (string * string))
  : result value :=
  match chat_create e t (CHAT_MODEL e) messages 1500%nat 1 with
  | Ok raw => safe_json_load e raw
  | Raise ex => Raise ex
  end.

Definition call_llm_plan (e : env) (prompt style : string)
           (design_context references_text : list value)
           (num_slides : option Z) (theme : option string) : M value :=
  let sys_prompt := system_prompt e design_context references_text theme in
  let user_prompt := user_prompt prompt style num_slides in
  try_except
    (t <- tick ;;
     emit (EvChat sys_prompt user_prompt) ;;;
     plan <- lift (plan_attempt e t [("system", sys_prompt); ("user", user_prompt)]) ;;
     if negb (truthy plan)
     then log WARNING "Invalid plan JSON received from GPT." ;;;
          ret fallback_plan
     else ret plan)
    (fun ex =>
       log EXCEPTION ("Plan generation failed: " +:+ exn_msg ex) ;;;
       ret fallback_plan).

Definition generate_visual_image (e : env) (prompt : value) : M (option string) :=
  try_except
    (t <- tick ;;
     emit (EvImage prompt) ;;;
     url <- lift (images_generate e t (IMAGE_MODEL e) prompt "1024x1024") ;;
     t' <- tick ;;
     img_bytes <- lift (requests_get e t' url 20%nat) ;;
     t'' <- tick ;;
     let tmp := mktemp e t'' ".png" in
     write_file e tmp (RawFile "") ;;;
     write_file e tmp (RawFile img_bytes) ;;;
     ret (Some tmp))
    (fun ex =>
       log WARNING ("Image generation failed for '" +:+ fmt e prompt +:+ "': "
                    +:+ exn_msg ex) ;;;
       ret None).

(** The [slide] dictionary assembled per plan entry. *)
Record gen_slide : Type :=
  { title : value; bullets : value; image_path : option string }.

(** [Inches(q)] and [Pt(n)] in English Metric Units. *)
Definition Inches (q : Q) : Z :=
  Z.quot (Qnum (q * 914400)) (Z.pos (Qden (q * 914400))).
Definition Pt (n : Z) : Z := n * 12700.

Definition empty_paragraph : paragraph := {| p_text := ""; p_size := None |}.

(** The bullet loop: a paragraph is added before its text is set, so an
    entry that is not a [str] leaves an empty paragraph and ends the loop. *)
Fixpoint add_bullets (bs : list value) (body : list paragraph) : list paragraph :=
  match bs with
  | [] => body
  | VStr b :: bs' =>
      add_bullets bs' (body ++ [{| p_text := b; p_size := Some (Pt 18) |}])
  | _ :: _ => body ++ [empty_paragraph]
  end.

Definition build_slide (e : env) (s : gen_slide) : M doc_slide :=
  let layout := 1%nat in
  let title_text :=
    match title s with
    | VStr t => Some t
    | _ => None
    end in
  let body :=
    match py_iter (bullets s) with
    | Ok bs => add_bullets bs [empty_paragraph]
    | Raise _ => [empty_paragraph]
    end in
  pics <-
    (if truthy (image_path s) then
       t <- tick ;;
       if image_ok e t (default "" (image_path s))
       then ret [{| pic_file := default "" (image_path s);
                    pic_left := Inches 0.5; pic_top := Inches 3.0;
                    pic_width := Inches 8 |}]
       else log DEBUG "Failed to add image" ;;; ret []
     else ret []) ;;
  ret {| sl_layout := layout; sl_title := title_text;
         sl_body := body; sl_pictures := pics |}.

Definition build_ppt (e : env) (slides : list gen_slide) : M string :=
  prs <- mapM (build_slide e) slides ;;
  u <- Uuid.uuid4 e ;;
  let out := Path.join (gettempdir e)
               ("generated_presentation_" +:+ Str.take 8 (Uuid.hex32 u) +:+ ".pptx") in
  write_file e out (PptxFile prs) ;;;
  ret out.

(** One round of the [for r in refs] loop. *)
Definition gather_ref (r : value) (acc : list value * list value)
  : M (list value * list value) :=
  let '(design_context, reference_text) := acc in
  ppt_name <- lift (py_get r "ppt_name" VNone) ;;
  text <- lift (py_get r "text" VNone) ;;
  text_snip <- lift (py_slice_to 500 (py_or text (VStr ""))) ;;
  let reference_text :=
    if truthy text_snip then reference_text ++ [text_snip] else reference_text in
  base <- match ppt_name with
          | VStr p => ret (Path.basename p)
          | _ => raise (Exn "TypeError" "expected str, bytes or os.PathLike object")
          end ;;
  let json_path := Path.join "design_jsons" (base +:+ ".json") in
  present <- exists_file json_path ;;
  if present : bool then
    try_except
      (f <- read_file json_path ;;
       match f with
       | JsonFile v => ret (design_context ++ [v], reference_text)
       | _ => raise (Exn "JSONDecodeError" json_path)
       end)
      (fun _ => ret (design_context, reference_text))
  else ret (design_context, reference_text).

Fixpoint gather (refs : list value) (acc : list value * list value)
  : M (list value * list value) :=
  match refs with
  | [] => ret acc
  | r :: refs' => acc' <- gather_ref r acc ;; gather refs' acc'
  end.

(** The body of the [for sp in plan] loop. *)
Definition make_slide (e : env) (sp : value) : M gen_slide :=
  t <- lift (py_get sp "title" (VStr "Untitled")) ;;
  b <- lift (py_get sp "bullets" (VList [])) ;;
  vr <- lift (py_get sp "visual_required" VNone) ;;
  if truthy vr then
    img_prompt <- lift (py_get sp "visual_prompt"
                          (VStr ("Professional visual for " +:+ fmt e t))) ;;
    img <- generate_visual_image e img_prompt ;;
    ret {| title := t; bullets := b; image_path := img |}
  else ret {| title := t; bullets := b; image_path := None |}.

(** The first three statements of [generate_presentation]. *)
Definition resolve_intent (prompt : string) (requested_num_slides : option Z)
           (theme : option string) : option Z * option string :=
  let '(detected_slides, detected_theme) := parse_user_intent prompt in
  let requested_num_slides := py_or requested_num_slides detected_slides in
  let theme := py_or theme detected_theme in
  (requested_num_slides, theme).

Definition generate_presentation (e : env) (prompt style : string)
           (requested_num_slides : option Z) (theme : option string)
           (tag_filters : option (list string)) : M (string * value) :=
  let '(requested_num_slides, theme) :=
    resolve_intent prompt requested_num_slides theme in
  t <- tick ;;
  found <- lift (semantic_search e t prompt 10%nat tag_filters) ;;
  let refs := default [] (py_or found (Some [])) in
  gathered <- gather refs ([], []) ;;
  let '(design_context, reference_text) := gathered in
  log INFO ("Loaded " +:+ Str.of_nat (length design_context)
            +:+ " design JSONs and " +:+ Str.of_nat (length reference_text)
            +:+ " text snippets.") ;;;
  plan <- call_llm_plan e prompt style design_context reference_text
            requested_num_slides theme ;;
  entries <- lift (py_iter plan) ;;
  slides <- mapM (make_slide e) entries ;;
  out_path <- build_ppt e slides ;;
  u <- Uuid.uuid4 e ;;
  let fname := "generated_" +:+ Str.take 8 (Uuid.hex32 u) +:+ ".pptx" in
  AzureBlobUtils.upload_ppt_to_blob e out_path fname ;;;
  ts <- tick ;;
  let log :=
    VDict [("timestamp", VStr (now_ts e ts));
           ("prompt", VStr prompt);
           ("style", VStr style);
           ("theme", opt_value VStr theme);
           ("requested_num_slides", opt_value VInt requested_num_slides);
           ("references_used", VInt (Z.of_nat (length reference_text)));
           ("design_jsons_used", VInt (Z.of_nat (length design_context)));
           ("slides_generated", VInt (Z.of_nat (length slides)));
           ("ppt_file", VStr fname)] in
  AzureBlobUtils.upload_json_to_blob e (JsonFile log) ("logs/" +:+ fname +:+ ".json") ;;;
  ret (out_path, log).

End GeneratePpt.

(** ** [design_extractor.py] *)
Module DesignExtractor.

Definition OUTPUT_DIR : string := "design_jsons".

Definition ppt_already_processed (ppt_name : string) : M bool :=
  let json_path := Path.join OUTPUT_DIR (Path.basename ppt_name +:+ ".json") in
  exists_file json_path.

(** [list(set(l))]; the order Python gives is unspecified. *)
Definition list_set (l : list string) : list string := remove_dups l.

(** The slide dictionary of [extract_slide_elements]. *)
Record slide_data : Type :=
  { layout : option string;
    background_color : option string;
    images : list string;
    shapes_ : list string;
    charts : list string;
    tables : list string;
    icons : list string;
    text_fonts : list string;
    accent_colors : list string }.

Definition add_image (x : string) (d : slide_data) : slide_data :=
  {| layout := layout d; background_color := background_color d;
     images := images d ++ [x]; shapes_ := shapes_ d; charts := charts d;
     tables := tables d; icons := icons d; text_fonts := text_fonts d;
     accent_colors := accent_colors d |}.
Definition add_shape (x : string) (d : slide_data) : slide_data :=
  {| layout := layout d; background_color := background_color d;
     images := images d; shapes_ := shapes_ d ++ [x]; charts := charts d;
     tables := tables d; icons := icons d; text_fonts := text_fonts d;
     accent_colors := accent_colors d |}.
Definition add_chart (x : string) (d : slide_data) : slide_data :=
  {| layout := layout d; background_color := background_color d;
     images := images d; shapes_ := shapes_ d; charts := charts d ++ [x];
     tables := tables d; icons := icons d; text_fonts := text_fonts d;
     accent_colors := accent_colors d |}.
Definition add_table (x : string) (d : slide_data) : slide_data :=
  {| layout := layout d; background_color := background_color d;
     images := images d; shapes_ := shapes_ d; charts := charts d;
     tables := tables d ++ [x]; icons := icons d; text_fonts := text_fonts d;
     accent_colors := accent_colors d |}.
Definition add_icon (x : string) (d : slide_data) : slide_data :=
  {| layout := layout d; background_color := background_color d;
     images := images d; shapes_ := shapes_ d; charts := charts d;
     tables := tables d; icons := icons d ++ [x]; text_fonts := text_fonts d;
     accent_colors := accent_colors d |}.
Definition add_fonts (xs : list string) (d : slide_data) : slide_data :=
  {| layout := layout d; background_color := background_color d;
     images := images d; shapes_ := shapes_ d; charts := charts d;
     tables := tables d; icons := icons d; text_fonts := text_fonts d ++ xs;
     accent_colors := accent_colors d |}.
Definition add_accent (x : string) (d : slide_data) : slide_data :=
  {| layout := layout d; background_color := background_color d;
     images := images d; shapes_ := shapes_ d; charts := charts d;
     tables := tables d; icons := icons d; text_fonts := text_fonts d;
     accent_colors := accent_colors d ++ [x] |}.
Definition dedup (d : slide_data) : slide_data :=
  {| layout := layout d; background_color := background_color d;
     images := images d; shapes_ := shapes_ d; charts := charts d;
     tables := tables d; icons := icons d; text_fonts := list_set (text_fonts d);
     accent_colors := list_set (accent_colors d) |}.

(** The [if / elif] chain on the shape type. *)
Definition classify (stype : MSO_SHAPE_TYPE) (sh : shape) (d : slide_data)
  : slide_data :=
  match stype with
  | PICTURE => add_image (name sh) d
  | TABLE => add_table (name sh) d
  | CHART =>
      match chart_type sh with
      | Some ct => add_chart ct d
      | None => add_chart "Chart" d
      end
  | AUTO_SHAPE => add_shape (auto_shape_type sh) d
  | OTHER_SHAPE =>
      if Str.contains "icon" (Str.lower (name sh))
      then add_icon (name sh) d
      else d
  end.

(** The names of the fonts that are set, run by run. *)
Definition set_fonts (runs : list (option string)) : list string :=
  omap (fun f => match f with
                 | Some n => if truthy n then Some n else None
                 | None => None
                 end) runs.

(** The body of [try] for one shape, whose type [stype] was read before
    the [try].  [false] as second component: an exception left the block,
    and the data stands as it was at that point. *)
Definition extract_shape (stype : MSO_SHAPE_TYPE) (sh : shape) (d : slide_data)
  : slide_data * bool :=
  let d := classify stype sh d in
  match fill_rgb sh with
  | Broken => (d, false)
  | fill =>
      let d := match fill with Found c => add_accent ("#" +:+ c) d | _ => d end in
      match line_rgb sh with
      | Broken => (d, false)
      | line =>
          let d := match line with Found c => add_accent ("#" +:+ c) d | _ => d end in
          match run_fonts sh with
          | Broken => (d, false)
          | Found runs => (add_fonts (set_fonts runs) d, true)
          | Missing => (d, true)
          end
      end
  end.

Fixpoint extract_shapes (shs : list shape) (d : slide_data) : M slide_data :=
  match shs with
  | [] => ret d
  | sh :: shs' =>
      stype <- lift (shape_type sh) ;;
      let '(d', fine) := extract_shape stype sh d in
      (if fine : bool then ret tt
       else log DEBUG "Skipped shape on slide due to parsing issue.") ;;;
      extract_shapes shs' d'
  end.

Definition extract_slide_elements (slide : src_slide) : M slide_data :=
  let d := {| layout := None; background_color := None; images := [];
              shapes_ := []; charts := []; tables := []; icons := [];
              text_fonts := []; accent_colors := [] |} in
  let d := {| layout := match layout_name slide with
                        | Some n => if truthy n then Some n else None
                        | None => None
                        end;
              background_color := match background_rgb slide with
                                  | Found c => Some ("#" +:+ c)
                                  | _ => None
                                  end;
              images := images d; shapes_ := shapes_ d; charts := charts d;
              tables := tables d; icons := icons d; text_fonts := text_fonts d;
              accent_colors := accent_colors d |} in
  d <- extract_shapes (shapes slide) d ;;
  ret (dedup d).

Definition extract_theme_colors (prs : src_deck) : list string :=
  match theme_rgbs prs with
  | Found cs => list_set (map (fun c => "#" +:+ c) cs)
  | _ => list_set []
  end.

(** The two nested loops under one [try]: a shape whose runs cannot be
    read ends them with what was gathered so far. *)
Fixpoint fonts_of_shapes (shs : list shape) (fonts : list string)
  : list string * bool :=
  match shs with
  | [] => (fonts, true)
  | sh :: shs' =>
      match run_fonts sh with
      | Broken => (fonts, false)
      | Found runs => fonts_of_shapes shs' (fonts ++ set_fonts runs)
      | Missing => fonts_of_shapes shs' fonts
      end
  end.

Fixpoint fonts_and_layouts (sls : list src_slide) (fonts layouts : list string)
  : list string * list string :=
  match sls with
  | [] => (fonts, layouts)
  | sl :: sls' =>
      let layouts := match layout_name sl with
                     | Some n => if truthy n then layouts ++ [n] else layouts
                     | None => layouts
                     end in
      match fonts_of_shapes (shapes sl) fonts with
      | (fonts, true) => fonts_and_layouts sls' fonts layouts
      | (fonts, false) => (fonts, layouts)
      end
  end.

Definition extract_fonts_and_layouts (prs : src_deck) : list string * list string :=
  let '(fonts, layouts) := fonts_and_layouts (slides prs) [] [] in
  (list_set fonts, list_set layouts).

Definition strs (l : list string) : value := VList (map VStr l).

Definition slide_value (d : slide_data) (i : nat) : value :=
  VDict [("layout", opt_value VStr (layout d));
         ("background_color", opt_value VStr (background_color d));
         ("images", strs (images d));
         ("shapes", strs (shapes_ d));
         ("charts", strs (charts d));
         ("tables", strs (tables d));
         ("icons", strs (icons d));
         ("text_fonts", strs (text_fonts d));
         ("accent_colors", strs (accent_colors d));
         ("index", VInt (Z.of_nat i));
         ("slide_number", VInt (Z.of_nat i + 1))].

Fixpoint extract_slides_from (i : nat) (sls : list src_slide) : M (list value) :=
  match sls with
  | [] => ret []
  | sl :: sls' =>
      d <- extract_slide_elements sl ;;
      rest <- extract_slides_from (S i) sls' ;;
      ret (slide_value d i :: rest)
  end.

Definition extract_design_elements (e : env) (local_path : string) : M value :=
  emit (EvExtract local_path) ;;;
  f <- read_file local_path ;;
  prs <- match f with
         | DeckFile d => ret d
         | _ => raise (Exn "PackageNotFoundError" local_path)
         end ;;
  let theme_colors := extract_theme_colors prs in
  let '(fonts, layouts) := extract_fonts_and_layouts prs in
  ts <- tick ;;
  sls <- extract_slides_from 0 (slides prs) ;;
  ret (VDict [("ppt_name", VStr (Path.basename local_path));
              ("extracted_on", VStr (now_ts e ts));
              ("theme_colors", strs theme_colors);
              ("font_families", strs fonts);
              ("slide_layouts", strs layouts);
              ("slides", VList sls)]).

(** [with open(path, "wb") as fp: download_blob(name).readinto(fp)] *)
Definition download_to (e : env) (blob_name path : string) : M unit :=
  write_file e path (RawFile "") ;;;
  t <- tick ;;
  emit (EvDownload blob_name) ;;;
  data <- lift (download_blob e t blob_name) ;;
  write_file e path data.

Definition process_blob (e : env) (blob_name : string) : M unit :=
  let json_path := Path.join OUTPUT_DIR (Path.basename blob_name +:+ ".json") in
  done <- ppt_already_processed blob_name ;;
  if done : bool then
    log INFO ("Skipping " +:+ blob_name +:+ " — design JSON already exists.")
  else
    log INFO ("Processing design extraction for: " +:+ blob_name) ;;;
    let tmp_path := Path.join (gettempdir e) (Str.replace_char "/" "_" blob_name) in
    fetched <- try_except
                 (download_to e blob_name tmp_path ;;; ret true)
                 (fun ex =>
                    log ERROR ("Failed to download " +:+ blob_name
                               +:+ " from blob: " +:+ exn_msg ex) ;;;
                    ret false) ;;
    if fetched : bool then
      try_except
        (design_data <- extract_design_elements e tmp_path ;;
         write_file e json_path (RawFile "") ;;;
         write_file e json_path (JsonFile design_data) ;;;
         log INFO ("✅ Saved design JSON: " +:+ json_path))
        (fun ex =>
           log EXCEPTION ("Design extraction failed for " +:+ blob_name
                          +:+ ": " +:+ exn_msg ex))
    else ret tt.

Definition main (e : env) : M unit :=
  log INFO "Starting design extraction from Azure Blob..." ;;;
  try_except
    (t <- tick ;;
     blobs <- lift (list_blobs e t) ;;
     forM_ blobs (fun b =>
       if (Str.endswith ".pptx" b || Str.endswith ".ppt" b)%bool
       then process_blob e b
       else ret tt))
    (fun ex =>
       log EXCEPTION ("Error listing blobs or processing files: " +:+ exn_msg ex)) ;;;
  log INFO "Design extraction complete.".

(** The names bound at the top level of the module, in binding order. *)
Definition module_names : list string :=
  ["os"; "json"; "tempfile"; "Presentation"; "MSO_SHAPE_TYPE";
   "BlobServiceClient"; "get_env"; "logger"; "now_ts";
   "BLOB_CONN"; "BLOB_CONTAINER"; "blob_service"; "container_client";
   "OUTPUT_DIR"; "ppt_already_processed"; "extract_theme_colors";
   "extract_fonts_and_layouts"; "extract_slide_elements";
   "extract_design_elements"; "process_blob"; "main"].

End DesignExtractor.

(** ** [ingestion_chroma.py] *)
Module IngestionChroma.

(** *** Loading the module

    [from m import n] runs the body of [m] and then looks [n] up among the
    names [m] has bound; a plain module has no submodule to fall back on. *)
Definition from_import (body : result unit) (bound : list string)
           (module name : string) : result unit :=
  match body with
  | Raise ex => Raise ex
  | Ok _ =>
      if bool_decide (name ∈ bound) then Ok tt
      else Raise (Exn "ImportError"
                    ("cannot import name '" +:+ name +:+ "' from '" +:+ module +:+ "'"))
  end.

Definition then_ (a b : result unit) : result unit :=
  match a with
  | Ok _ => b
  | Raise ex => Raise ex
  end.

(** The module body: the imports of lines 1 to 8, the import of line 9,
    and the construction of the clients and of the collection after it.
    How the first and the last part fare, and how the body of
    [design_extractor] fares, depends on the installation and on the
    environment variables. *)
Definition load_module (lines_1_8 design_extractor_body lines_11_31 : result unit)
  : result unit :=
  then_ lines_1_8
    (then_ (from_import design_extractor_body DesignExtractor.module_names
              "design_extractor" "extract_design_json")
       lines_11_31).

(** *** The functions *)

Definition azure_embed_func (e : env) (texts : list string) : M (list (list Q)) :=
  try_except
    (t <- tick ;;
     emit (EvEmbed texts) ;;;
     lift (embeddings_create e t (EMBEDDING_MODEL e) texts))
    (fun ex =>
       log EXCEPTION ("Embedding failed: " +:+ exn_msg ex) ;;;
       ret []).

Record slide_text : Type := { index : nat; text_ : string }.

(** The texts of the shapes that have a non-blank [text], stripped. *)
Definition shape_texts (shs : list shape) : list string :=
  omap (fun sh => match text sh with
                  | Some t => if truthy (Str.strip t) then Some (Str.strip t) else None
                  | None => None
                  end) shs.

Fixpoint slides_from (i : nat) (sls : list src_slide) : list slide_text :=
  match sls with
  | [] => []
  | s :: sls' =>
      {| index := i; text_ := Str.join GeneratePpt.nl (shape_texts (shapes s)) |}
      :: slides_from (S i) sls'
  end.

Definition extract_slides (local_path : string) : M (list slide_text) :=
  f <- read_file local_path ;;
  match f with
  | DeckFile prs => ret (slides_from 0 (slides prs))
  | _ => raise (Exn "PackageNotFoundError" local_path)
  end.

Definition meta_of (blob_name ppt_base : string) (s : slide_text) : value :=
  let sid := ppt_base +:+ "_Slide_" +:+ Str.of_nat (index s) in
  VDict [("ppt_name", VStr blob_name);
         ("slide_id", VStr sid);
         ("slide_index", VInt (Z.of_nat (index s)));
         ("title", VStr (if truthy (text_ s)
                         then Str.split_first (ascii_of_nat 10) (text_ s)
                         else ""))].

(** The four parallel lists built by the [for s in slides] loop. *)
Record batch : Type :=
  { docs : list string; metas : list value; ids : list string;
    alltexts : list string }.

Fixpoint build_batch (e : env) (blob_name ppt_base : string)
         (sls : list slide_text) (b : batch) : M batch :=
  match sls with
  | [] => ret b
  | s :: sls' =>
      u <- Uuid.uuid4 e ;;
      build_batch e blob_name ppt_base sls'
        {| ids := ids b ++ [Uuid.to_str u];
           docs := docs b ++ [text_ s];
           metas := metas b ++ [meta_of blob_name ppt_base s];
           alltexts := alltexts b ++ [text_ s] |}
  end.

Fixpoint zip_entries (ds : list string) (es : list (list Q))
         (ms : list value) (is_ : list string) : list entry :=
  match ds, es, ms, is_ with
  | d :: ds', v :: es', m :: ms', i :: is' =>
      {| e_id := i; e_document := d; e_embedding := v; e_metadata := m |}
      :: zip_entries ds' es' ms' is'
  | _, _, _, _ => []
  end.

(** [collection.add(documents=, embeddings=, metadatas=, ids=)]: the
    lists must be as long as [ids]; the records are then stored together.
    Identifiers are taken as given. *)
Definition collection_add (documents : list string) (embeddings : list (list Q))
           (metadatas : list value) (ids : list string) : M unit :=
  emit (EvCollectionAdd documents embeddings metadatas ids) ;;;
  if (Nat.eqb (length documents) (length ids)
      && Nat.eqb (length embeddings) (length ids)
      && Nat.eqb (length metadatas) (length ids))%bool
  then fun w =>
         (Ok tt,
          set_collection
            (collection w ++ zip_entries documents embeddings metadatas ids) w)
  else raise (Exn "ValueError" "number of items must match number of ids").

Definition process_blob (e : env) (blob_name : string) : M unit :=
  log INFO ("Processing blob: " +:+ blob_name) ;;;
  let tmp := Path.join (gettempdir e) (Str.replace_char "/" "_" blob_name) in
  DesignExtractor.download_to e blob_name tmp ;;;
  slides <- extract_slides tmp ;;
  if negb (truthy slides) then ret tt
  else
    let ppt_base := Path.splitext_root (Path.basename blob_name) in
    b <- build_batch e blob_name ppt_base slides
           {| docs := []; metas := []; ids := []; alltexts := [] |} ;;
    embeddings <- azure_embed_func e (alltexts b) ;;
    if negb (truthy embeddings) then ret tt
    else
      collection_add (docs b) embeddings (metas b) (ids b) ;;;
      log INFO ("Indexed " +:+ Str.of_nat (length slides) +:+ " slides from "
                +:+ blob_name).

End IngestionChroma.

(** ** [app.py] *)
Module App.

(** The options of the phase selector. *)
Inductive phase : Type := Any | Plan | Design | Build | Test | Support.

Definition label (p : phase) : string :=
  match p with
  | Any => "Any"
  | Plan => "Plan"
  | Design => "Design"
  | Build => "Build"
  | Test => "Test"
  | Support => "Support"
  end.

Definition options : list string := map label [Any; Plan; Design; Build; Test; Support].

Definition tags_of (ph : string) : list string :=
  let tags := [] in
  if (truthy ph && negb (String.eqb ph "Any"))%bool then tags ++ [ph] else tags.

(** [prs.slides[:n]].  The slide collection of the presentation library
    takes an index, not a slice: handed a slice, its [__getitem__] picks a
    list of slide identifiers and asks that list for [rId], which raises,
    whatever the deck holds. *)
Definition slides_slice (n : nat) (prs : list doc_slide) : result (list doc_slide) :=
  Raise (Exn "AttributeError" "'list' object has no attribute 'rId'").

(** The body of the preview loop: the caption carries the text of the
    title placeholder, which every slide of layout 1 has. *)
Fixpoint previews (i : nat) (sls : list doc_slide) : M unit :=
  match sls with
  | [] => ret tt
  | sl :: sls' =>
      let title := default "" (sl_title sl) in
      emit (EvPreview ("Slide " +:+ Str.of_nat (i + 1) +:+ ": " +:+ title)) ;;;
      previews (S i) sls'
  end.

(** The [if submit:] block. *)
Definition on_submit (e : env) (prompt : string) (ph : phase) : M unit :=
  let phase := label ph in
  let tags := tags_of phase in
  emit (EvProgress 0) ;;;
  try_except
    (emit (EvStatus "Generating presentation...") ;;;
     emit (EvProgress 20) ;;;
     res <- GeneratePpt.generate_presentation e prompt phase None None (Some tags) ;;
     let '(out_path, _) := res in
     emit (EvProgress 90) ;;;
     emit (EvStatus "Done. Preparing preview...") ;;;
     f <- read_file out_path ;;
     emit (EvDownloadButton (Path.basename out_path) f) ;;;
     emit (EvProgress 100) ;;;
     emit (EvStatus "Presentation generated successfully.") ;;;
     emit (EvSubheader "Slide previews") ;;;
     prs <- match f with
            | PptxFile d => ret d
            | _ => raise (Exn "PackageNotFoundError" out_path)
            end ;;
     sls <- lift (slides_slice 5 prs) ;;
     previews 0 sls)
    (fun ex =>
       log EXCEPTION "Generation failed" ;;;
       emit (EvError ("Error: " +:+ exn_msg ex))).

End App.

(** * Vocabulary of the statements *)

(** [t] occurs in [s] as a substring. *)
Definition occurs (t s : string) : Prop := exists pre post, s = pre +:+ t +:+ post.

(** The no-break space, U+00A0. *)
Definition nbsp : string := String (ascii_of_nat 160) "".

(** [s] begins with a slide count [ds]: a run of digits, at least one
    whitespace character, then the word [slide]. *)
Definition slide_count_at (s ds : string) : Prop :=
  exists ws post,
    ds <> "" /\ Str.all Str.isdigit ds = true /\
    ws <> "" /\ Str.all Str.isspace ws = true /\
    s = ds +:+ ws +:+ "slide" +:+ post.

(** The longest prefix of [p]-characters, and what follows it. *)
Fixpoint take_while (p : ascii -> bool) (s : string) : string :=
  match s with
  | String c s' => if p c then String c (take_while p s') else ""
  | EmptyString => ""
  end.

Fixpoint drop_while (p : ascii -> bool) (s : string) : string :=
  match s with
  | String c s' => if p c then drop_while p s' else s
  | EmptyString => ""
  end.

(** What follows a match of the slide-count pattern in [u], a text that
    begins with [slide]: the text after the word and an optional [s]. *)
Definition after_word (u : string) : string :=
  match Str.drop 5 u with
  | String c r => if Ascii.eqb "s" c then r else String c r
  | EmptyString => ""
  end.

(** No slide count begins at a position inside [pre], when [s] follows. *)
Fixpoint no_count_inside (pre s : string) : bool :=
  match pre with
  | EmptyString => true
  | String _ pre' =>
      match Re.match_here GeneratePpt.slides_re (pre +:+ s) with
      | Some _ => false
      | None => no_count_inside pre' s
      end
  end.

(** [m], run from [w], ends in a result and a world that satisfy [Q]. *)
Definition wp {A} (m : M A) (w : world) (Q : result A -> world -> Prop) : Prop :=
  Q (fst (m w)) (snd (m w)).

(** The plan step comes back with nothing usable: the chat call or the
    parse raised, or the parsed object is falsy. *)
Definition unusable (r : result value) : Prop :=
  match r with
  | Ok plan => truthy plan = false
  | Raise _ => True
  end.

(** From [w] to [w'] only the clock and the trace moved. *)
Definition quiet (w w' : world) : Prop :=
  fs w' = fs w /\ generated w' = generated w /\ collection w' = collection w
  /\ (clock w <= clock w')%nat.

(** From [w] to [w'] the container and the collection stayed as they were. *)
Definition local_only (w w' : world) : Prop :=
  generated w' = generated w /\ collection w' = collection w
  /\ (clock w <= clock w')%nat.

(** From [w] to [w'] the local files and the collection stayed as they were. *)
Definition remote_only (w w' : world) : Prop :=
  fs w' = fs w /\ collection w' = collection w /\ (clock w <= clock w')%nat.

(** The value a dictionary holds under [key], if any. *)
Definition field (key : string) (obj : value) : option value :=
  match obj with
  | VDict d => dict_get key d
  | _ => None
  end.

(** The eight hexadecimal characters of the identifier drawn at clock [t]. *)
Definition hex8 (e : env) (t : nat) : string :=
  Str.take 8 (Uuid.hex32 (Uuid.uuid4_int (urandom16 e t))).

Definition ishex (c : ascii) : bool :=
  (Str.isdigit c || Nat.leb 97 (Str.code c) && Nat.leb (Str.code c) 102)%bool.

(** What a run of [generate_presentation] may have done to the container:
    nothing, the deck alone, or the deck and a log that records [style]. *)
Definition container_step (style : string) (g g' : gmap string file) : Prop :=
  g' = g
  \/ (exists fname prs, g' = <[fname := PptxFile prs]> g)
  \/ (exists fname prs key log,
        g' = <[key := JsonFile log]> (<[fname := PptxFile prs]> g)
        /\ field "style" log = Some (VStr style)).

(** A run of [generate_presentation] from [w] that returned [(path, log)]
    in world [w']: the names it drew, the deck it built, and the steps that
    produced them. *)
Definition published (e : env) (prompt style : string)
           (requested : option Z) (theme : option string)
           (w w' : world) (path : string) (log : value) : Prop :=
  exists (t1 t2 ts : nat) (prs : list doc_slide) (slides : list GeneratePpt.gen_slide)
         (plan : value) (entries dc rt : list value) (wa wb wc wd : world),
    let n := fst (GeneratePpt.resolve_intent prompt requested theme) in
    let th := snd (GeneratePpt.resolve_intent prompt requested theme) in
    let local_name := "generated_presentation_" +:+ hex8 e t1 +:+ ".pptx" in
    let fname := "generated_" +:+ hex8 e t2 +:+ ".pptx" in
    (t1 < t2)%nat
    /\ GeneratePpt.call_llm_plan e prompt style dc rt n th wa = (Ok plan, wb)
    /\ py_iter plan = Ok entries
    /\ mapM (GeneratePpt.make_slide e) entries wb = (Ok slides, wc)
    /\ mapM (GeneratePpt.build_slide e) slides wc = (Ok prs, wd)
    /\ path = Path.join (gettempdir e) local_name
    /\ fs w' !! path = Some (PptxFile prs)
    /\ generated w'
       = <["logs/" +:+ fname +:+ ".json" := JsonFile log]>
           (<[fname := PptxFile prs]> (generated w))
    /\ log = VDict [("timestamp", VStr (now_ts e ts));
                    ("prompt", VStr prompt);
                    ("style", VStr style);
                    ("theme", opt_value VStr th);
                    ("requested_num_slides", opt_value VInt n);
                    ("references_used", VInt (Z.of_nat (length rt)));
                    ("design_jsons_used", VInt (Z.of_nat (length dc)));
                    ("slides_generated", VInt (Z.of_nat (length slides)));
                    ("ppt_file", VStr fname)].

(** The deck slide built from the entry of the fallback plan. *)
Definition intro_slide : doc_slide :=
  {| sl_layout := 1;
     sl_title := Some "Intro";
     sl_body := [GeneratePpt.empty_paragraph;
                 {| p_text := "Overview"; p_size := Some (GeneratePpt.Pt 18) |}];
     sl_pictures := [] |}.

(** A small concrete setting to run the pipeline in: the chat model answers
    in prose, which the tolerant parser turns into [None]; the search finds
    nothing; disk and uploads work. *)
Definition sample_env : env :=
  {| CHAT_MODEL := "chat";
     IMAGE_MODEL := "image";
     EMBEDDING_MODEL := "text-embedding-3-large";
     GENERATED_CONTAINER := "generated-presentations";
     gettempdir := "/tmp";
     now_ts := fun _ => "2025-01-01T00:00:00";
     urandom16 := fun t => (N.of_nat (S t) * 210306068529402873165736369884012333109)%N;
     mktemp := fun t suffix => "/tmp/tmp" +:+ Str.of_nat t +:+ suffix;
     disk_ok := fun _ _ => true;
     py_str := fun _ => "";
     json_dumps := fun _ => "[]";
     safe_json_load := fun _ => Ok VNone;
     semantic_search := fun _ _ _ _ => Ok (Some []);
     chat_create := fun _ _ _ _ _ => Ok (Some "Here is your plan.");
     images_generate := fun _ _ _ _ => Raise (Exn "APIError" "no image");
     requests_get := fun _ _ _ => Raise (Exn "ConnectionError" "offline");
     image_ok := fun _ _ => true;
     list_blobs := fun _ => Ok [];
     download_blob := fun _ name => Raise (Exn "ResourceNotFoundError" name);
     upload_ok := fun _ _ => true;
     embeddings_create := fun _ _ texts => Ok (map (fun _ => [1 # 2; 1 # 3]) texts) |}.

Definition empty_world : world :=
  {| clock := 0; fs := ∅; generated := ∅; collection := []; trace := [] |}.

(** A shape that lands in the icons bucket: its type is none of picture,
    table, chart and auto-shape, and its lower-cased name has [icon] in it. *)
Definition is_icon (sh : shape) : bool :=
  match shape_type sh with
  | Ok OTHER_SHAPE => Str.contains "icon" (Str.lower (name sh))
  | _ => false
  end.

(** The shape type of [sh] can be read; of every shape of a deck. *)
Definition typed (sh : shape) : bool :=
  match shape_type sh with
  | Ok _ => true
  | Raise _ => false
  end.

Definition readable (deck : src_deck) : bool :=
  forallb (fun sl => forallb typed (shapes sl)) (slides deck).

Definition plain_shape (ty : MSO_SHAPE_TYPE) (nm : string) : shape :=
  {| shape_type := Ok ty; name := nm; chart_type := None; auto_shape_type := "RECTANGLE";
     fill_rgb := Missing; line_rgb := Missing; run_fonts := Missing; text := None |}.

(** A shape the presentation library does not recognise. *)
Definition unknown_shape (nm : string) : shape :=
  {| shape_type := Raise (Exn "NotImplementedError"
                            "Shape instance of unrecognized shape type");
     name := nm; chart_type := None; auto_shape_type := "";
     fill_rgb := Missing; line_rgb := Missing; run_fonts := Missing; text := None |}.

(** A shape of type [ty] whose fill cannot be read. *)
Definition broken_fill_shape (ty : MSO_SHAPE_TYPE) (nm : string) : shape :=
  {| shape_type := Ok ty; name := nm; chart_type := None;
     auto_shape_type := "RECTANGLE";
     fill_rgb := Broken; line_rgb := Missing; run_fonts := Missing; text := None |}.

(** A rectangle with the given fill and outline. *)
Definition coloured_shape (fill line : probe string) : shape :=
  {| shape_type := Ok AUTO_SHAPE; name := "Rectangle 1"; chart_type := None;
     auto_shape_type := "RECTANGLE";
     fill_rgb := fill; line_rgb := line; run_fonts := Missing; text := None |}.

Definition slide_of (shs : list shape) : src_slide :=
  {| layout_name := Some "Title and Content"; background_rgb := Missing; shapes := shs |}.

(** The number of [collection.add] calls recorded in a trace. *)
Fixpoint adds (tr : list event) : nat :=
  match tr with
  | [] => 0
  | EvCollectionAdd _ _ _ _ :: tr' => S (adds tr')
  | _ :: tr' => adds tr'
  end.

(** The number of blob downloads and of extractions recorded in a trace. *)
Fixpoint fetches (tr : list event) : nat :=
  match tr with
  | [] => 0
  | EvDownload _ :: tr' => S (fetches tr')
  | EvExtract _ :: tr' => S (fetches tr')
  | _ :: tr' => fetches tr'
  end.

(** The texts the ingestion indexes for a deck, slide by slide. *)
Definition deck_texts (deck : src_deck) : list string :=
  map IngestionChroma.text_ (IngestionChroma.slides_from 0 (slides deck)).

(** The identifiers drawn for [n] slides from clock [t] on. *)
Definition fresh_ids (e : env) (t n : nat) : list string :=
  map (fun k => Uuid.to_str (Uuid.uuid4_int (urandom16 e k))) (seq t n).

(** [sample_env] with a dataset that holds [deck] under every name and an
    embedding service that answers [answer]. *)
Definition ingest_env (deck : src_deck)
           (answer : list string -> result (list (list Q))) : env :=
  {| CHAT_MODEL := CHAT_MODEL sample_env;
     IMAGE_MODEL := IMAGE_MODEL sample_env;
     EMBEDDING_MODEL := EMBEDDING_MODEL sample_env;
     GENERATED_CONTAINER := GENERATED_CONTAINER sample_env;
     gettempdir := gettempdir sample_env;
     now_ts := now_ts sample_env;
     urandom16 := urandom16 sample_env;
     mktemp := mktemp sample_env;
     disk_ok := disk_ok sample_env;
     py_str := py_str sample_env;
     json_dumps := json_dumps sample_env;
     safe_json_load := safe_json_load sample_env;
     semantic_search := semantic_search sample_env;
     chat_create := chat_create sample_env;
     images_generate := images_generate sample_env;
     requests_get := requests_get sample_env;
     image_ok := image_ok sample_env;
     list_blobs := list_blobs sample_env;
     download_blob := fun _ _ => Ok (DeckFile deck);
     upload_ok := upload_ok sample_env;
     embeddings_create := fun _ _ texts => answer texts |}.

Definition text_shape (t : string) : shape :=
  {| shape_type := Ok OTHER_SHAPE; name := "TextBox"; chart_type := None;
     auto_shape_type := ""; fill_rgb := Missing; line_rgb := Missing;
     run_fonts := Missing; text := Some t |}.

Definition two_slide_deck : src_deck :=
  {| theme_rgbs := Missing;
     slides := [slide_of [text_shape " Welcome "; text_shape "Agenda"];
                slide_of [plain_shape PICTURE "Picture 1"]] |}.

Definition empty_deck : src_deck := {| theme_rgbs := Missing; slides := [] |}.

(** A deck whose second slide has a shape the library does not recognise. *)
Definition unreadable_deck : src_deck :=
  {| theme_rgbs := Missing;
     slides := [slide_of [text_shape "Agenda"];
                slide_of [plain_shape PICTURE "Picture 1"; unknown_shape "Ink 3"]] |}.

(** * Vocabulary of the further properties *)

(** [list_generated_presentations] of [azure_blob_utils.py].  The two
    statements before the [try] build the service client from the
    connection string and the container client from it: [client] is their
    outcome, an exception for a malformed connection string.  Inside the
    [try] the names of the objects in the output container are listed;
    [list_ok] tells at which clock values the store answers. *)
Definition list_generated_presentations (client : result unit)
           (list_ok : nat -> bool) : M (list string) :=
  lift client ;;;
  try_except
    (t <- tick ;;
     if list_ok t
     then fun w => (Ok (map fst (map_to_list (generated w))), w)
     else raise (Exn "AzureError" "list_blobs"))
    (fun ex =>
       log WARNING ("Failed to list generated PPTs: " +:+ exn_msg ex) ;;;
       ret []).

(** [e] with a chat model whose answer always parses to [plan]. *)
Definition with_plan (plan : value) (e : env) : env :=
  {| CHAT_MODEL := CHAT_MODEL e;
     IMAGE_MODEL := IMAGE_MODEL e;
     EMBEDDING_MODEL := EMBEDDING_MODEL e;
     GENERATED_CONTAINER := GENERATED_CONTAINER e;
     gettempdir := gettempdir e;
     now_ts := now_ts e;
     urandom16 := urandom16 e;
     mktemp := mktemp e;
     disk_ok := disk_ok e;
     py_str := py_str e;
     json_dumps := json_dumps e;
     safe_json_load := fun _ => Ok plan;
     semantic_search := semantic_search e;
     chat_create := chat_create e;
     images_generate := images_generate e;
     requests_get := requests_get e;
     image_ok := image_ok e;
     list_blobs := list_blobs e;
     download_blob := download_blob e;
     upload_ok := upload_ok e;
     embeddings_create := embeddings_create e |}.

(** What is well-formed about a slide of a built deck. *)
Definition built_slide (d : doc_slide) : Prop :=
  sl_layout d = 1%nat
  /\ (length (sl_pictures d) <= 1)%nat
  /\ hd_error (sl_body d) = Some GeneratePpt.empty_paragraph.

(** The shapes of one type, in shape order. *)
Definition has_type (ty : MSO_SHAPE_TYPE) (sh : shape) : bool :=
  match ty, shape_type sh with
  | AUTO_SHAPE, Ok AUTO_SHAPE | CHART, Ok CHART | PICTURE, Ok PICTURE
  | TABLE, Ok TABLE | OTHER_SHAPE, Ok OTHER_SHAPE => true
  | _, _ => false
  end.

Definition of_type (ty : MSO_SHAPE_TYPE) (shs : list shape) : list shape :=
  List.filter (has_type ty) shs.

(** What a chart contributes to the charts bucket. *)
Definition chart_label (sh : shape) : string := default "Chart" (chart_type sh).

(** The colours one shape contributes: its fill, then its outline; nothing
    at all when reading the fill raises, the fill alone when reading the
    outline raises. *)
Definition accents_of (sh : shape) : list string :=
  let outline := match line_rgb sh with Found c => ["#" +:+ c] | _ => [] end in
  match fill_rgb sh with
  | Broken => []
  | Found c => ("#" +:+ c) :: outline
  | Missing => outline
  end.

(** The fonts one shape contributes: those of its runs, unless reading its
    fill, its outline or its runs raises. *)
Definition fonts_of (sh : shape) : list string :=
  match fill_rgb sh, line_rgb sh, run_fonts sh with
  | Broken, _, _ | _, Broken, _ => []
  | _, _, Found runs => DesignExtractor.set_fonts runs
  | _, _, _ => []
  end.

(** [e] with a dataset container that lists [names]. *)
Definition with_listing (names : list string) (e : env) : env :=
  {| CHAT_MODEL := CHAT_MODEL e;
     IMAGE_MODEL := IMAGE_MODEL e;
     EMBEDDING_MODEL := EMBEDDING_MODEL e;
     GENERATED_CONTAINER := GENERATED_CONTAINER e;
     gettempdir := gettempdir e;
     now_ts := now_ts e;
     urandom16 := urandom16 e;
     mktemp := mktemp e;
     disk_ok := disk_ok e;
     py_str := py_str e;
     json_dumps := json_dumps e;
     safe_json_load := safe_json_load e;
     semantic_search := semantic_search e;
     chat_create := chat_create e;
     images_generate := images_generate e;
     requests_get := requests_get e;
     image_ok := image_ok e;
     list_blobs := fun _ => Ok names;
     download_blob := download_blob e;
     upload_ok := upload_ok e;
     embeddings_create := embeddings_create e |}.

(** * Properties *)

(** ** Strings *)
Section StringFacts.

Lemma app_nil_l_s (s : string) : "" +:+ s = s.
Proof. reflexivity. Qed.

Lemma app_cons_s (c : ascii) (a b : string) : String c a +:+ b = String c (a +:+ b).
Proof. reflexivity. Qed.

Lemma app_nil_r_s (s : string) : s +:+ "" = s.
Proof.
  induction s as [|c s IH]; [reflexivity |].
  now rewrite app_cons_s, IH.
Qed.

Lemma app_assoc_s (a b c : string) : (a +:+ b) +:+ c = a +:+ (b +:+ c).
Proof.
  induction a as [|x a IH]; [reflexivity |].
  now rewrite !app_cons_s, IH.
Qed.

Lemma length_app_s (a b : string) :
  String.length (a +:+ b) = (String.length a + String.length b)%nat.
Proof.
  induction a as [|x a IH]; [reflexivity |].
  rewrite app_cons_s. cbn. now rewrite IH.
Qed.

Lemma startswith_app (p t : string) : Str.startswith p (p +:+ t) = true.
Proof.
  induction p as [|c p IH]; [reflexivity |].
  rewrite app_cons_s. cbn. now rewrite Ascii.eqb_refl.
Qed.

Lemma startswith_inv (p s : string) :
  Str.startswith p s = true -> exists t, s = p +:+ t.
Proof.
  revert s; induction p as [|c p IH]; intros s H.
  - now exists s.
  - destruct s as [|d s]; cbn in H; [discriminate |].
    destruct (Ascii.eqb_spec c d) as [->|]; [| discriminate].
    destruct (IH _ H) as [t ->]. now exists t.
Qed.

Lemma take_length_app (a b : string) :
  Str.take (String.length (a +:+ b) - String.length b) (a +:+ b) = a.
Proof.
  rewrite length_app_s.
  replace (String.length a + String.length b - String.length b)%nat
    with (String.length a) by lia.
  induction a as [|x a IH].
  - now destruct b.
  - rewrite app_cons_s. cbn. now rewrite IH.
Qed.

Lemma length_take (n : nat) (s : string) :
  String.length (Str.take n s) = Nat.min n (String.length s).
Proof.
  revert s; induction n as [|n IH]; intros [|c s]; cbn; try reflexivity.
  now rewrite IH.
Qed.

End StringFacts.

Lemma contains_occurs (t s : string) : Str.contains t s = true <-> occurs t s.
Proof.
  split.
  - induction s as [|c s IH]; cbn.
    + destruct (Str.startswith t "") eqn:E; [| discriminate].
      intros _. destruct (startswith_inv _ _ E) as [post ->]. now exists "", post.
    + destruct (Str.startswith t (String c s)) eqn:E.
      * intros _. destruct (startswith_inv _ _ E) as [post ->]. now exists "", post.
      * intros H. destruct (IH H) as (pre & post & ->). now exists (String c pre), post.
  - intros (pre & post & ->). induction pre as [|c pre IH].
    + rewrite app_nil_l_s.
      destruct (t +:+ post) as [|d r] eqn:E; cbn [Str.contains];
        rewrite <- E, startswith_app; reflexivity.
    + rewrite app_cons_s. cbn [Str.contains]. rewrite IH.
      now destruct (Str.startswith t _).
Qed.

Lemma contains_not_occurs (t s : string) : Str.contains t s = false <-> ~ occurs t s.
Proof.
  rewrite <- contains_occurs. destruct (Str.contains t s); split; intros; congruence.
Qed.

(** ** The slide-count pattern *)
Section SlidesPattern.
Import GeneratePpt.

Lemma digit_not_space (c : ascii) : Str.isdigit c = true -> Str.isspace c = false.
Proof. destruct c as [[] [] [] [] [] [] [] []]; vm_compute; congruence. Qed.

Lemma space_not_s (c : ascii) : Str.isspace c = true -> Ascii.eqb "s" c = false.
Proof. destruct c as [[] [] [] [] [] [] [] []]; vm_compute; congruence. Qed.

Lemma span_eq (p : ascii -> bool) (s : string) :
  s = take_while p s +:+ drop_while p s.
Proof.
  induction s as [|c s IH]; [reflexivity |].
  cbn. destruct (p c); [| reflexivity].
  now rewrite app_cons_s, <- IH.
Qed.

Lemma take_while_all (p : ascii -> bool) (s : string) :
  Str.all p (take_while p s) = true.
Proof.
  induction s as [|c s IH]; [reflexivity |].
  cbn. destruct (p c) eqn:E; [| reflexivity]. cbn. now rewrite E.
Qed.

Lemma drop_while_head (p : ascii -> bool) (s : string) (c : ascii) (t : string) :
  drop_while p s = String c t -> p c = false.
Proof.
  induction s as [|d s IH]; cbn; [discriminate |].
  destruct (p d) eqn:E; [exact IH |]. intros [= <- _]. exact E.
Qed.

Lemma take_while_app (p : ascii -> bool) (run rest : string) :
  Str.all p run = true ->
  (forall c t, rest = String c t -> p c = false) ->
  take_while p (run +:+ rest) = run /\ drop_while p (run +:+ rest) = rest.
Proof.
  intros Hrun Hrest. induction run as [|x run IH].
  - rewrite app_nil_l_s. destruct rest as [|c t]; [now split |].
    cbn. now rewrite (Hrest c t eq_refl).
  - cbn in Hrun. apply andb_prop in Hrun as [Hx Hrun].
    rewrite app_cons_s. cbn. rewrite Hx.
    destruct (IH Hrun) as [-> ->]. now split.
Qed.

(** Greedy repetition followed by something that cannot start with a
    repeated character: nothing is given back. *)
Lemma plus_more_run {A} (p : ascii -> bool) (s : string) (k : string -> option A) :
  (forall c t, p c = true -> k (String c t) = None) ->
  Re.plus_more p s k = k (drop_while p s).
Proof.
  intros Hk. induction s as [|c s IH]; [reflexivity |].
  cbn. destruct (p c) eqn:E; [| reflexivity].
  rewrite IH. destruct (k (drop_while p s)) eqn:K; [reflexivity |].
  now apply Hk.
Qed.

Lemma rmatch_lits {A} (p : string) (r : Re.regex) (s : string) (g : option string)
      (k : string -> option string -> option A) :
  Re.rmatch (Re.lits p r) s g k =
  (if Str.startswith p s then Re.rmatch r (Str.drop (String.length p) s) g k else None).
Proof.
  revert s; induction p as [|c p IH]; intros s.
  - cbn. now destruct s.
  - cbn. destruct s as [|d s]; [reflexivity |].
    destruct (Ascii.eqb c d); [apply IH | reflexivity].
Qed.

(** The anchored match, by spans. *)
Lemma match_here_eq (s : string) :
  Re.match_here slides_re s =
  match s with
  | String c s' =>
      if Str.isdigit c then
        match drop_while Str.isdigit s' with
        | String c2 r2 =>
            if Str.isspace c2 then
              if Str.startswith "slide" (drop_while Str.isspace r2)
              then Some {| Re.group1 :=
                             Some (Str.take (String.length s
                                             - String.length (drop_while Str.isdigit s')) s);
                           Re.rest := after_word (drop_while Str.isspace r2) |}
              else None
            else None
        | EmptyString => None
        end
      else None
  | EmptyString => None
  end.
Proof.
  unfold Re.match_here, slides_re.
  destruct s as [|c s']; [reflexivity |].
  cbn [Re.rmatch]. destruct (Str.isdigit c) eqn:Hc; [| reflexivity].
  rewrite plus_more_run.
  2:{ intros d t Hd. cbn [Re.rmatch]. now rewrite (digit_not_space d Hd). }
  destruct (drop_while Str.isdigit s') as [|c2 r2] eqn:Hd; [reflexivity |].
  cbn [Re.rmatch]. destruct (Str.isspace c2) eqn:Hc2; [| reflexivity].
  rewrite plus_more_run.
  2:{ intros d t Hd'. rewrite rmatch_lits. cbn [Str.startswith].
      now rewrite (space_not_s d Hd'). }
  rewrite rmatch_lits.
  destruct (Str.startswith "slide" (drop_while Str.isspace r2)) eqn:Hw; [| reflexivity].
  unfold after_word. cbn [String.length].
  destruct (Str.drop 5 (drop_while Str.isspace r2)) as [|x r]; [reflexivity |].
  cbn [Re.rmatch]. now destruct (Ascii.eqb "s" x).
Qed.

Lemma match_here_count (s ds : string) :
  slide_count_at s ds ->
  exists m, Re.match_here slides_re s = Some m /\ Re.group1 m = Some ds.
Proof.
  intros (ws & post & Hds & Dds & Hws & Dws & ->).
  destruct ds as [|c run]; [congruence |].
  destruct ws as [|c2 wrun]; [congruence |].
  cbn in Dds, Dws.
  apply andb_prop in Dds as [Dc Drun]. apply andb_prop in Dws as [Dc2 Dwrun].
  assert (Hc2 : Str.isdigit c2 = false).
  { destruct (Str.isdigit c2) eqn:E; [| reflexivity].
    apply digit_not_space in E. congruence. }
  rewrite match_here_eq, (app_cons_s c run), (app_cons_s c2 wrun), Dc.
  destruct (take_while_app Str.isdigit run (String c2 (wrun +:+ "slide" +:+ post)) Drun)
    as [_ ->]; [now intros ? ? [= <- _] |].
  rewrite Dc2.
  destruct (take_while_app Str.isspace wrun ("slide" +:+ post) Dwrun) as [_ ->].
  { intros d t E. change ("slide" +:+ post) with (String "s" ("lide" +:+ post)) in E.
    injection E as <- _. reflexivity. }
  rewrite startswith_app. eexists; split; [reflexivity |]. cbn [Re.group1].
  f_equal.
  change (String c (run +:+ String c2 (wrun +:+ "slide" +:+ post)))
    with (String c run +:+ String c2 (wrun +:+ "slide" +:+ post)).
  apply take_length_app.
Qed.

Lemma match_here_inv (s : string) (m : Re.match_obj) :
  Re.match_here slides_re s = Some m ->
  exists ds, Re.group1 m = Some ds /\ slide_count_at s ds.
Proof.
  rewrite match_here_eq.
  destruct s as [|c s']; [discriminate |].
  destruct (Str.isdigit c) eqn:Hc; [| discriminate].
  destruct (drop_while Str.isdigit s') as [|c2 r2] eqn:Hd; [discriminate |].
  destruct (Str.isspace c2) eqn:Hc2; [| discriminate].
  destruct (Str.startswith "slide" (drop_while Str.isspace r2)) eqn:Hw; [| discriminate].
  intros [= <-]. cbn [Re.group1].
  apply startswith_inv in Hw as [post Hpost].
  exists (String c (take_while Str.isdigit s')). split.
  - f_equal.
    assert (E1 : String c s' = String c (take_while Str.isdigit s') +:+ String c2 r2).
    { rewrite (app_cons_s c), <- Hd, <- span_eq. reflexivity. }
    change (String.length s' - String.length r2)%nat
      with (String.length (String c s') - String.length (String c2 r2))%nat.
    rewrite E1. apply take_length_app.
  - exists (String c2 (take_while Str.isspace r2)), post.
    repeat split; try discriminate.
    + cbn. now rewrite Hc, take_while_all.
    + cbn. now rewrite Hc2, take_while_all.
    + rewrite (app_cons_s c), (app_cons_s c2), <- Hpost, <- (span_eq Str.isspace r2),
        <- Hd, <- span_eq.
      reflexivity.
Qed.

Lemma search_first (pre s : string) (m : Re.match_obj) :
  Re.match_here slides_re s = Some m ->
  no_count_inside pre s = true ->
  Re.search slides_re (pre +:+ s) = Some m.
Proof.
  intros Hm. induction pre as [|c pre IH]; intros Hn.
  - rewrite app_nil_l_s. destruct s; cbn [Re.search]; now rewrite Hm.
  - cbn [no_count_inside] in Hn.
    destruct (Re.match_here slides_re (String c pre +:+ s)) eqn:E; [discriminate |].
    rewrite app_cons_s in *. cbn [Re.search]. rewrite E. now apply IH.
Qed.

Lemma search_none (str : string) :
  (forall pre s, str = pre +:+ s -> Re.match_here slides_re s = None) ->
  Re.search slides_re str = None.
Proof.
  induction str as [|c str IH]; intros H.
  - cbn [Re.search]. now rewrite (H "" "" eq_refl).
  - cbn [Re.search]. rewrite (H "" (String c str) eq_refl).
    apply IH. intros pre s ->. apply (H (String c pre) s). reflexivity.
Qed.

Lemma no_count_inside_intro (pre s : string) :
  (forall a b ds, pre = a +:+ b -> b <> "" -> ~ slide_count_at (b +:+ s) ds) ->
  no_count_inside pre s = true.
Proof.
  induction pre as [|c pre IH]; intros H; [reflexivity |].
  cbn [no_count_inside].
  destruct (Re.match_here slides_re (String c pre +:+ s)) eqn:E.
  - apply match_here_inv in E as (ds & _ & Hc).
    now destruct (H "" (String c pre) ds eq_refl ltac:(discriminate)).
  - apply IH. intros a b ds -> Hb. apply (H (String c a) b ds); [reflexivity | exact Hb].
Qed.

Lemma no_count_inside_elim (pre s : string) :
  no_count_inside pre s = true ->
  forall a b ds, pre = a +:+ b -> b <> "" -> ~ slide_count_at (b +:+ s) ds.
Proof.
  induction pre as [|c pre IH]; intros Hn a b ds Hab Hb Hc.
  - destruct a, b; try discriminate. congruence.
  - cbn [no_count_inside] in Hn.
    destruct (Re.match_here slides_re (String c pre +:+ s)) eqn:E; [discriminate |].
    destruct a as [|x a].
    + rewrite app_nil_l_s in Hab. subst b.
      apply match_here_count in Hc as (m & Hm & _). congruence.
    + rewrite app_cons_s in Hab. injection Hab as _ ->.
      exact (IH Hn a b ds eq_refl Hb Hc).
Qed.

End SlidesPattern.

(** ** Intent detection *)


(** C1, at the prompt of the claim: the hyphen between the number and the
    word keeps the pattern from matching, so no slide count is detected. *)
Lemma slide_count_hyphen_counterexample :
  GeneratePpt.parse_user_intent
    "Create a 5-slide modern presentation about healthcare design."
  <> (Some 5, Some "Modern").
Proof. vm_compute. discriminate. Qed.

(** C1 (amended): the detected slide count is the number of the leftmost
    place in the lower-cased prompt where a run of decimal digits is followed
    by one or more whitespace characters and then [slide]; the number is
    converted when the run is within the interpreter's cap on digits.
    Without such a place no count is detected.  White space is that of
    Unicode: a no-break space between the number and the word counts.  With
    a space instead of the hyphen the prompt of the claim gives 5 and
    "Modern"; with the hyphen the detected theme is "Modern". *)
Theorem slide_count_detection :
  (forall prompt pre s ds,
      Str.lower prompt = pre +:+ s ->
      slide_count_at s ds ->
      (forall a b ds', pre = a +:+ b -> b <> "" -> ~ slide_count_at (b +:+ s) ds') ->
      (String.length ds <= Str.int_max_str_digits)%nat ->
      fst (GeneratePpt.parse_user_intent prompt) = Some (Str.int ds))
  /\ (forall prompt,
         (forall pre s ds, Str.lower prompt = pre +:+ s -> ~ slide_count_at s ds) ->
         fst (GeneratePpt.parse_user_intent prompt) = None)
  /\ GeneratePpt.parse_user_intent
       "Create a 5 slide modern presentation about healthcare design."
     = (Some 5, Some "Modern")
  /\ snd (GeneratePpt.parse_user_intent
            "Create a 5-slide modern presentation about healthcare design.")
     = Some "Modern"
  /\ fst (GeneratePpt.parse_user_intent
            ("Create 3" +:+ nbsp +:+ "slides and then 5 slides"))
     = Some 3.
Proof.
  repeat split.
  - intros prompt pre s ds Hlow Hcount Hfirst _.
    unfold GeneratePpt.parse_user_intent. cbn [fst]. rewrite Hlow.
    destruct (match_here_count s ds Hcount) as (m & Hm & Hg).
    rewrite (search_first pre s m Hm (no_count_inside_intro pre s Hfirst)).
    now rewrite Hg.
  - intros prompt Hnone.
    unfold GeneratePpt.parse_user_intent. cbn [fst].
    rewrite search_none; [reflexivity |].
    intros pre s Hlow.
    destruct (Re.match_here GeneratePpt.slides_re s) as [m|] eqn:E; [| reflexivity].
    apply match_here_inv in E as (ds & _ & Hc).
    now destruct (Hnone pre s ds Hlow).
Qed.

Lemma slide_count_detection_witness :
  Str.lower "Make 12   SLIDES on 2 topics" = "make " +:+ "12   slides on 2 topics"
  /\ slide_count_at "12   slides on 2 topics" "12"
  /\ fst (GeneratePpt.parse_user_intent "Make 12   SLIDES on 2 topics") = Some 12.
Proof.
  assert (Hc : slide_count_at "12   slides on 2 topics" "12").
  { exists "   ", "s on 2 topics". repeat split; discriminate || reflexivity. }
  split; [reflexivity |]. split; [exact Hc |].
  apply (proj1 slide_count_detection
           "Make 12   SLIDES on 2 topics" "make " "12   slides on 2 topics" "12").
  - reflexivity.
  - exact Hc.
  - apply no_count_inside_elim. vm_compute. reflexivity.
  - apply Nat.leb_le. reflexivity.
Defined.



(** C3, at a supplied count of 0: the detected count is used instead. *)
Lemma caller_zero_counterexample :
  fst (GeneratePpt.resolve_intent "Make 5 slides" (Some 0) None) <> Some 0.
Proof. vm_compute. discriminate. Qed.

(** C3 (amended): a supplied slide count other than 0 and a supplied theme
    other than the empty string are the resolved values; the detected values
    are used when the caller supplies none, and also in place of a supplied 0
    or empty theme. *)
Theorem caller_values_take_precedence :
  forall prompt (n : Z) (th : string) requested theme,
    (n <> 0 ->
     fst (GeneratePpt.resolve_intent prompt (Some n) theme) = Some n)
    /\ (th <> "" ->
        snd (GeneratePpt.resolve_intent prompt requested (Some th)) = Some th)
    /\ fst (GeneratePpt.resolve_intent prompt None theme)
       = fst (GeneratePpt.parse_user_intent prompt)
    /\ snd (GeneratePpt.resolve_intent prompt requested None)
       = snd (GeneratePpt.parse_user_intent prompt)
    /\ fst (GeneratePpt.resolve_intent prompt (Some 0) theme)
       = fst (GeneratePpt.parse_user_intent prompt)
    /\ snd (GeneratePpt.resolve_intent prompt requested (Some ""))
       = snd (GeneratePpt.parse_user_intent prompt).
Proof.
  intros prompt n th requested theme. unfold GeneratePpt.resolve_intent.
  destruct (GeneratePpt.parse_user_intent prompt) as [ds dt]. cbn [fst snd].
  repeat split.
  - intros Hn. unfold py_or, truthy, option_truthy, truthy, Z_truthy.
    destruct (Z.eqb_spec n 0); [contradiction | reflexivity].
  - intros Hth. now destruct th.
Qed.

Lemma caller_values_take_precedence_witness :
  (3 <> 0 /\ "Dark" <> "")
  /\ GeneratePpt.resolve_intent "Make 5 modern slides" (Some 3) (Some "Dark")
     = (Some 3, Some "Dark").
Proof.
  split; [split; discriminate |].
  pose proof (caller_values_take_precedence
                "Make 5 modern slides" 3 "Dark" (Some 3) (Some "Dark")) as (H1 & H2 & _).
  specialize (H1 ltac:(discriminate)). specialize (H2 ltac:(discriminate)).
  destruct (GeneratePpt.resolve_intent "Make 5 modern slides" (Some 3) (Some "Dark"))
    as [a b].
  cbn [fst snd] in H1, H2. now rewrite H1, H2.
Defined.

(** ** Running effectful code *)
Section Running.

Lemma wp_run {A} (m : M A) (w : world) (Q : result A -> world -> Prop) :
  (forall r w', m w = (r, w') -> Q r w') -> wp m w Q.
Proof. intros H. unfold wp. apply H. now destruct (m w). Qed.

Lemma wp_elim {A} (m : M A) (w : world) (Q : result A -> world -> Prop) r w' :
  wp m w Q -> m w = (r, w') -> Q r w'.
Proof. unfold wp. intros H E. now rewrite E in H. Qed.

Lemma wp_conseq {A} (m : M A) (w : world) (Q Q' : result A -> world -> Prop) :
  wp m w Q -> (forall r w', m w = (r, w') -> Q r w' -> Q' r w') -> wp m w Q'.
Proof. unfold wp. intros H HQ. apply HQ; [now destruct (m w) | exact H]. Qed.

Lemma wp_bind {A B} (m : M A) (f : A -> M B) (w : world)
      (Q : result B -> world -> Prop) :
  wp m w (fun r w1 => match r with
                      | Ok a => wp (f a) w1 Q
                      | Raise ex => Q (Raise ex) w1
                      end) ->
  wp (bind m f) w Q.
Proof. unfold wp, bind. now destruct (m w) as [[a|ex] w1]. Qed.

Lemma wp_try {A} (m : M A) (h : exn -> M A) (w : world)
      (Q : result A -> world -> Prop) :
  wp m w (fun r w1 => match r with
                      | Ok a => Q (Ok a) w1
                      | Raise ex => wp (h ex) w1 Q
                      end) ->
  wp (try_except m h) w Q.
Proof. unfold wp, try_except. now destruct (m w) as [[a|ex] w1]. Qed.

Lemma wp_ret {A} (a : A) (w : world) (Q : result A -> world -> Prop) :
  Q (Ok a) w -> wp (ret a) w Q.
Proof. exact (fun H => H). Qed.

Lemma wp_raise {A} (ex : exn) (w : world) (Q : result A -> world -> Prop) :
  Q (Raise ex) w -> wp (raise ex) w Q.
Proof. exact (fun H => H). Qed.

Lemma wp_lift {A} (r : result A) (w : world) (Q : result A -> world -> Prop) :
  Q r w -> wp (lift r) w Q.
Proof. exact (fun H => H). Qed.

Lemma wp_tick (w : world) (Q : result nat -> world -> Prop) :
  Q (Ok (clock w)) (set_clock (S (clock w)) w) -> wp tick w Q.
Proof. exact (fun H => H). Qed.

Lemma wp_emit (ev : event) (w : world) (Q : result unit -> world -> Prop) :
  Q (Ok tt) (set_trace (ev :: trace w) w) -> wp (emit ev) w Q.
Proof. exact (fun H => H). Qed.

Lemma wp_log (l : level) (msg : string) (w : world) (Q : result unit -> world -> Prop) :
  Q (Ok tt) (set_trace (EvLog l msg :: trace w) w) -> wp (log l msg) w Q.
Proof. exact (fun H => H). Qed.

Lemma wp_read_file (path : string) (w : world) (Q : result file -> world -> Prop) :
  (forall f, fs w !! path = Some f -> Q (Ok f) w) ->
  (fs w !! path = None -> Q (Raise (Exn "FileNotFoundError" path)) w) ->
  wp (read_file path) w Q.
Proof.
  intros H1 H2. unfold wp, read_file.
  destruct (fs w !! path) as [f|] eqn:E; cbn; auto.
Qed.

Lemma wp_exists_file (path : string) (w : world) (Q : result bool -> world -> Prop) :
  Q (Ok (bool_decide (is_Some (fs w !! path)))) w -> wp (exists_file path) w Q.
Proof. exact (fun H => H). Qed.

Lemma wp_write_file (e : env) (path : string) (f : file) (w : world)
      (Q : result unit -> world -> Prop) :
  (disk_ok e (clock w) path = true ->
   Q (Ok tt) (set_fs (<[path := f]> (fs w)) (set_clock (S (clock w)) w))) ->
  (disk_ok e (clock w) path = false ->
   Q (Raise (Exn "OSError" path)) (set_clock (S (clock w)) w)) ->
  wp (write_file e path f) w Q.
Proof.
  intros H1 H2. unfold write_file. apply wp_bind, wp_tick.
  destruct (disk_ok e (clock w) path) eqn:E; [apply H1 | apply H2]; reflexivity.
Qed.

Lemma wp_uuid4 (e : env) (w : world) (Q : result N -> world -> Prop) :
  Q (Ok (Uuid.uuid4_int (urandom16 e (clock w)))) (set_clock (S (clock w)) w) ->
  wp (Uuid.uuid4 e) w Q.
Proof. intros H. unfold Uuid.uuid4. apply wp_bind, wp_tick, wp_ret, H. Qed.

End Running.

(** One step of a run: split a [bind], use what is known of its first part,
    and go on in the world it leaves. *)
Ltac wp_step :=
  lazymatch goal with
  | |- wp (bind tick _) _ _ => apply wp_bind, wp_tick
  | |- wp (bind (emit _) _) _ _ => apply wp_bind, wp_emit
  | |- wp (bind (log _ _) _) _ _ => apply wp_bind, wp_log
  | |- wp (bind (ret _) _) _ _ => apply wp_bind, wp_ret
  | |- wp (bind (Uuid.uuid4 _) _) _ _ => apply wp_bind, wp_uuid4
  | |- wp (bind (exists_file _) _) _ _ => apply wp_bind, wp_exists_file
  | |- wp (bind (lift _) _) _ _ => apply wp_bind, wp_lift
  | |- wp (ret _) _ _ => apply wp_ret
  | |- wp (raise _) _ _ => apply wp_raise
  | |- wp (log _ _) _ _ => apply wp_log
  | |- wp (emit _) _ _ => apply wp_emit
  | |- wp (lift _) _ _ => apply wp_lift
  | |- wp tick _ _ => apply wp_tick
  end.

(** ** What the steps of the pipeline leave alone *)

Ltac frame :=
  unfold quiet, local_only, remote_only in *; cbn in *;
  repeat match goal with H : _ /\ _ |- _ => destruct H end;
  repeat split; (congruence || lia).

#[global] Instance quiet_preorder : PreOrder quiet.
Proof. split; [intros w | intros a b c ? ?]; frame. Qed.

#[global] Instance local_only_preorder : PreOrder local_only.
Proof. split; [intros w | intros a b c ? ?]; frame. Qed.

#[global] Instance remote_only_preorder : PreOrder remote_only.
Proof. split; [intros w | intros a b c ? ?]; frame. Qed.

Lemma quiet_local (w w' : world) : quiet w w' -> local_only w w'.
Proof. intros; frame. Qed.

Lemma quiet_remote (w w' : world) : quiet w w' -> remote_only w w'.
Proof. intros; frame. Qed.

Section PipelineSteps.
Variable e : env.
Import GeneratePpt.

Lemma gather_ref_spec (r : value) (acc : list value * list value) (w : world) :
  wp (gather_ref r acc) w (fun _ w' => w' = w).
Proof.
  unfold gather_ref. destruct acc as [dc rt].
  wp_step. destruct (py_get r "ppt_name" VNone) as [ppt_name|]; [| reflexivity].
  wp_step. destruct (py_get r "text" VNone) as [txt|]; [| reflexivity].
  wp_step. destruct (py_slice_to 500 (py_or txt (VStr ""))) as [snip|]; [| reflexivity].
  apply wp_bind.
  destruct ppt_name; try (apply wp_raise; reflexivity).
  apply wp_ret. wp_step.
  destruct (bool_decide _); [| wp_step; reflexivity].
  apply wp_try, wp_bind, wp_read_file.
  - intros f _. destruct f; try (apply wp_raise, wp_ret; reflexivity).
    apply wp_ret. reflexivity.
  - intros _. apply wp_ret. reflexivity.
Qed.

Lemma gather_spec (refs : list value) (acc : list value * list value) (w : world) :
  wp (gather refs acc) w (fun _ w' => w' = w).
Proof.
  revert acc; induction refs as [|r refs IH]; intros acc; cbn [gather].
  - now apply wp_ret.
  - apply wp_bind. eapply wp_conseq; [apply gather_ref_spec |].
    intros [acc'|ex] w' _ ->; [apply IH | reflexivity].
Qed.

Lemma call_llm_plan_spec (prompt style : string) (dc rt : list value)
      (n : option Z) (th : option string) (w : world) :
  wp (call_llm_plan e prompt style dc rt n th) w
     (fun r w' =>
        quiet w w' /\
        exists plan,
          r = Ok plan /\
          let attempt :=
            plan_attempt e (clock w)
              [("system", system_prompt e dc rt th);
               ("user", user_prompt prompt style n)] in
          (unusable attempt -> plan = fallback_plan) /\
          (forall v, attempt = Ok v -> truthy v = true -> plan = v)).
Proof.
  unfold call_llm_plan. apply wp_try. do 2 wp_step. cbn [clock set_trace set_clock].
  wp_step.
  destruct (plan_attempt e (clock w) _) as [plan|ex] eqn:E.
  - destruct (truthy plan) eqn:T; cbn [negb].
    + wp_step. split; [frame |]. exists plan. split; [reflexivity |].
      cbn. split; [congruence |]. now intros v [= <-] _.
    + do 2 wp_step. split; [frame |]. exists fallback_plan. split; [reflexivity |].
      cbn. split; [reflexivity |]. intros v [= <-] ?. congruence.
  - do 2 wp_step. split; [frame |]. exists fallback_plan. split; [reflexivity |].
    cbn. split; [reflexivity |]. intros v [=].
Qed.

Lemma generate_visual_image_spec (prompt : value) (w : world) :
  wp (generate_visual_image e prompt) w
     (fun r w' => local_only w w' /\ exists o, r = Ok o).
Proof.
  unfold generate_visual_image. apply wp_try. do 2 wp_step.
  wp_step. destruct (images_generate e _ _ _ _) as [url|ex];
    [| do 2 wp_step; split; [frame | eauto]].
  wp_step. wp_step. destruct (requests_get e _ _ _) as [img|ex];
    [| do 2 wp_step; split; [frame | eauto]].
  wp_step. apply wp_bind, wp_write_file; intros _;
    [| do 2 wp_step; split; [frame | eauto]].
  apply wp_bind, wp_write_file; intros _;
    [| do 2 wp_step; split; [frame | eauto]].
  wp_step. split; [frame | eauto].
Qed.

Lemma make_slide_spec (sp : value) (w : world) :
  wp (make_slide e sp) w (fun _ w' => local_only w w').
Proof.
  unfold make_slide.
  wp_step. destruct (py_get sp "title" _) as [t|]; [| reflexivity].
  wp_step. destruct (py_get sp "bullets" _) as [b|]; [| reflexivity].
  wp_step. destruct (py_get sp "visual_required" _) as [vr|]; [| reflexivity].
  destruct (truthy vr); [| wp_step; reflexivity].
  wp_step. destruct (py_get sp "visual_prompt" _) as [ip|]; [| reflexivity].
  apply wp_bind. eapply wp_conseq; [apply generate_visual_image_spec |].
  intros r w' _ [Hf [o ->]]. wp_step. exact Hf.
Qed.

Lemma build_slide_spec (s : gen_slide) (w : world) :
  wp (build_slide e s) w (fun r w' => quiet w w' /\ exists d, r = Ok d).
Proof.
  unfold build_slide. apply wp_bind.
  destruct (truthy (image_path s)).
  - wp_step. destruct (image_ok e _ _).
    + do 2 wp_step. split; [frame | eauto].
    + do 3 wp_step. split; [frame | eauto].
  - do 2 wp_step. split; [frame | eauto].
Qed.

End PipelineSteps.

Lemma mapM_spec {A B} (f : A -> M B) (R : world -> world -> Prop) `{!PreOrder R}
      (l : list A) (w : world) :
  (forall a w0, wp (f a) w0 (fun _ w' => R w0 w')) ->
  wp (mapM f l) w
     (fun r w' => R w w' /\ forall bs, r = Ok bs -> length bs = length l).
Proof.
  intros Hf. revert w; induction l as [|a l IH]; intros w; cbn [mapM].
  - apply wp_ret. split; [reflexivity |]. now intros bs [= <-].
  - apply wp_bind. eapply wp_conseq; [apply Hf |].
    intros [b|ex] w1 _ H1; [| split; [exact H1 | discriminate]].
    apply wp_bind. eapply wp_conseq; [apply IH |].
    intros [bs|ex] w2 _ [H2 Hlen]; [| split; [now transitivity w1 | discriminate]].
    apply wp_ret. split; [now transitivity w1 |].
    intros ? [= <-]. cbn. now rewrite (Hlen bs eq_refl).
Qed.

(** ** Building and publishing *)
Section Publishing.
Variable e : env.
Import GeneratePpt AzureBlobUtils.

Lemma build_ppt_spec (slides : list gen_slide) (w : world) :
  wp (build_ppt e slides) w
     (fun r w' =>
        local_only w w' /\
        match r with
        | Ok out =>
            exists t1 prs wm,
              mapM (build_slide e) slides w = (Ok prs, wm)
              /\ (clock w <= t1 < clock w')%nat
              /\ out = Path.join (gettempdir e)
                         ("generated_presentation_" +:+ hex8 e t1 +:+ ".pptx")
              /\ fs w' !! out = Some (PptxFile prs)
        | Raise _ => True
        end).
Proof.
  unfold build_ppt. apply wp_bind.
  eapply wp_conseq.
  { apply (mapM_spec (build_slide e) quiet). intros a w0.
    eapply wp_conseq; [apply build_slide_spec | now intros ? ? _ [? _]]. }
  intros [prs|ex] w1 Hrun [Hq _]; [| split; [frame | exact I]].
  wp_step. apply wp_bind, wp_write_file; intros _; [| split; [frame | exact I]].
  wp_step. split; [frame |].
  exists (clock w1), prs, w1. split; [exact Hrun |]. split; [frame |].
  split; [reflexivity |]. cbn. apply lookup_insert_eq.
Qed.

Lemma upload_blob_spec (blob_name : string) (data : file) (w : world) :
  wp (upload_blob e blob_name data) w
     (fun r w' =>
        remote_only w w' /\
        match r with
        | Ok _ => generated w' = <[blob_name := data]> (generated w)
        | Raise _ => generated w' = generated w
        end).
Proof.
  unfold upload_blob. do 2 wp_step. cbn [clock set_clock set_trace].
  destruct (upload_ok e (clock w) blob_name).
  - split; [frame | reflexivity].
  - split; [frame | reflexivity].
Qed.

Lemma upload_ppt_to_blob_spec (file_path file_name : string) (w : world) :
  wp (upload_ppt_to_blob e file_path file_name) w
     (fun r w' =>
        remote_only w w' /\
        match r with
        | Ok _ => exists data, fs w !! file_path = Some data
                               /\ generated w' = <[file_name := data]> (generated w)
        | Raise _ => generated w' = generated w
        end).
Proof.
  unfold upload_ppt_to_blob. apply wp_bind, wp_read_file.
  - intros data Hdata. apply wp_bind.
    eapply wp_conseq; [apply upload_blob_spec |].
    intros [[]|ex] w1 _ [Hr Hg]; [| split; [exact Hr | exact Hg]].
    do 2 wp_step. split; [frame |]. exists data. split; [exact Hdata | exact Hg].
  - intros _. split; [reflexivity | reflexivity].
Qed.

Lemma upload_json_to_blob_spec (data : file) (blob_name : string) (w : world) :
  wp (upload_json_to_blob e data blob_name) w
     (fun r w' =>
        remote_only w w' /\
        match r with
        | Ok _ => generated w' = <[blob_name := data]> (generated w)
        | Raise _ => generated w' = generated w
        end).
Proof.
  unfold upload_json_to_blob. apply wp_bind.
  eapply wp_conseq; [apply upload_blob_spec |].
  intros [[]|ex] w1 _ [Hr Hg]; [| split; [exact Hr | exact Hg]].
  do 2 wp_step. split; [frame | exact Hg].
Qed.

Lemma generate_presentation_spec (prompt style : string)
      (requested : option Z) (theme : option string)
      (tags : option (list string)) (w : world) :
  wp (generate_presentation e prompt style requested theme tags) w
     (fun r w' =>
        container_step style (generated w) (generated w') /\
        match r with
        | Ok (path, log) => published e prompt style requested theme w w' path log
        | Raise _ => True
        end).
Proof.
  unfold generate_presentation.
  destruct (resolve_intent prompt requested theme) as [n th] eqn:Hres.
  wp_step. wp_step.
  destruct (semantic_search e (clock w) prompt 10 tags) as [found|ex];
    [| split; [now left | exact I]].
  apply wp_bind. eapply wp_conseq; [apply gather_spec |].
  intros [[dc rt]|ex] w1 _ ->; [| split; [now left | exact I]].
  wp_step.
  apply wp_bind. eapply wp_conseq; [apply call_llm_plan_spec |].
  intros r w2 Hplan [Hq2 (plan & -> & _)].
  wp_step. destruct (py_iter plan) as [entries|ex] eqn:Hiter;
    [| split; [left; frame | exact I]].
  apply wp_bind. eapply wp_conseq.
  { apply (mapM_spec (make_slide e) local_only). intros a w0.
    apply make_slide_spec. }
  intros [slides|ex] w3 Hslides [Hl3 _]; [| split; [left; frame | exact I]].
  apply wp_bind. eapply wp_conseq; [apply build_ppt_spec |].
  intros [out|ex] w4 Hbuild [Hl4 Hout]; [| split; [left; frame | exact I]].
  destruct Hout as (t1 & prs & wm & Hdoc & Ht1 & -> & Hfile).
  wp_step.
  apply wp_bind. eapply wp_conseq; [apply upload_ppt_to_blob_spec |].
  intros [remote|ex] w5 _ [Hr5 Hup]; [| split; [left; frame | exact I]].
  destruct Hup as (data & Hdata & Hup). cbn [fs set_clock] in Hdata.
  rewrite Hfile in Hdata. injection Hdata as <-.
  wp_step.
  apply wp_bind. eapply wp_conseq; [apply upload_json_to_blob_spec |].
  intros [remote'|ex] w6 _ [Hr6 Hup'].
  - wp_step. cbn [generated set_clock] in Hup, Hup'.
    assert (Hg : generated w4 = generated w) by frame.
    split.
    + right; right. eexists _, prs, _, _.
      split; [rewrite Hup', Hup, Hg; reflexivity | reflexivity].
    + exists t1, (clock w4), (clock w5), prs, slides, plan, entries, dc, rt.
      eexists _, w2, w3, wm. rewrite Hres. cbn [fst snd].
      split; [lia |]. split; [exact Hplan |]. split; [exact Hiter |].
      split; [exact Hslides |]. split; [exact Hdoc |]. split; [reflexivity |].
      split; [| split; [| reflexivity]].
      * assert (Hfs : fs w6 = fs w4) by frame. rewrite Hfs. exact Hfile.
      * rewrite Hup', Hup, Hg. reflexivity.
  - split; [| exact I]. right; left. eexists _, prs.
    cbn [generated set_clock] in Hup, Hup'. rewrite Hup', Hup. f_equal. frame.
Qed.

End Publishing.

(** ** Names of the local and of the published file *)
Section Names.

Lemma hex_digit_ishex (n : N) : ishex (Uuid.hex_digit (n mod 16)) = true.
Proof.
  assert (H : (n mod 16 < 16)%N) by (apply N.mod_lt; discriminate).
  destruct (n mod 16)%N as [|p]; [reflexivity |].
  do 4 (destruct p as [p|p|]; try reflexivity); exfalso; lia.
Qed.

Lemma hex_length (k : nat) (n : N) : String.length (Uuid.hex k n) = k.
Proof. induction k as [|k IH]; cbn [Uuid.hex String.length]; congruence. Qed.

Lemma hex_all_ishex (k : nat) (n : N) : Str.all ishex (Uuid.hex k n) = true.
Proof.
  induction k as [|k IH]; cbn [Uuid.hex Str.all]; [reflexivity |].
  now rewrite hex_digit_ishex, IH.
Qed.

Lemma all_take (p : ascii -> bool) (n : nat) (s : string) :
  Str.all p s = true -> Str.all p (Str.take n s) = true.
Proof.
  revert s; induction n as [|n IH]; intros [|c s]; cbn; try reflexivity.
  intros H. apply andb_prop in H as [-> H]. now apply IH.
Qed.

Lemma hex8_length (e : env) (t : nat) : String.length (hex8 e t) = 8%nat.
Proof. unfold hex8, Uuid.hex32. now rewrite length_take, hex_length. Qed.

Lemma hex8_ishex (e : env) (t : nat) : Str.all ishex (hex8 e t) = true.
Proof. unfold hex8, Uuid.hex32. apply all_take, hex_all_ishex. Qed.

Lemma app_tail_eq (a b x y : string) :
  a +:+ x = b +:+ y -> String.length x = String.length y -> x = y.
Proof.
  revert b; induction a as [|c a IH]; intros b H L.
  - rewrite app_nil_l_s in H. subst x. rewrite length_app_s in L.
    destruct b; [reflexivity | cbn in L; lia].
  - destruct b as [|d b].
    + rewrite app_nil_l_s in H. subst y. rewrite app_cons_s in L.
      cbn in L. rewrite length_app_s in L. lia.
    + rewrite !app_cons_s in H. injection H as _ H. now apply (IH b).
Qed.

Lemma join_suffix (a b : string) : exists p, Path.join a b = p +:+ b.
Proof.
  unfold Path.join. destruct (Str.startswith "/" b); [now exists "" |].
  destruct (_ || _)%bool; [now exists a |].
  exists (a +:+ "/"). now rewrite app_assoc_s.
Qed.

(** The local path is never the name the deck has in the container. *)
Lemma local_path_not_remote (tmp container h1 h2 : string) :
  String.length h1 = 8%nat -> String.length h2 = 8%nat ->
  Path.join tmp ("generated_presentation_" +:+ h1 +:+ ".pptx")
  <> container +:+ "/" +:+ "generated_" +:+ h2 +:+ ".pptx".
Proof.
  intros L1 L2 H.
  destruct (join_suffix tmp ("generated_presentation_" +:+ h1 +:+ ".pptx")) as [p Hp].
  rewrite Hp in H.
  change ("generated_presentation_" +:+ h1 +:+ ".pptx")
    with ("generated_pre" +:+ ("sentation_" +:+ h1 +:+ ".pptx")) in H.
  rewrite <- (app_assoc_s p), <- (app_assoc_s container) in H.
  apply app_tail_eq in H.
  - change ("sentation_" +:+ h1 +:+ ".pptx")
      with (String "s" ("entation_" +:+ h1 +:+ ".pptx")) in H.
    change ("generated_" +:+ h2 +:+ ".pptx")
      with (String "g" ("enerated_" +:+ h2 +:+ ".pptx")) in H.
    discriminate.
  - rewrite !length_app_s, L1, L2. reflexivity.
Qed.

Lemma log_key_not_deck (x y : string) :
  "logs/" +:+ x <> "generated_" +:+ y.
Proof.
  change ("logs/" +:+ x) with (String "l" ("ogs/" +:+ x)).
  change ("generated_" +:+ y) with (String "g" ("enerated_" +:+ y)).
  discriminate.
Qed.

End Names.

(** ** The fallback plan *)

(** C4: [call_llm_plan] always returns a plan; when the chat call raises,
    or the tolerant parse raises or gives a falsy object, that plan is the
    single-entry fallback; and a run of [generate_presentation] in which the
    plan step fails this way builds the one-slide deck "Intro" / "Overview"
    and logs [slides_generated = 1]. *)
Theorem plan_failure_gives_fallback :
  forall e : env,
    (forall prompt style dc rt n th w,
        exists plan w',
          GeneratePpt.call_llm_plan e prompt style dc rt n th w = (Ok plan, w'))
    /\ (forall prompt style dc rt n th w,
           unusable (GeneratePpt.plan_attempt e (clock w)
                       [("system", GeneratePpt.system_prompt e dc rt th);
                        ("user", GeneratePpt.user_prompt prompt style n)]) ->
           fst (GeneratePpt.call_llm_plan e prompt style dc rt n th w)
           = Ok GeneratePpt.fallback_plan)
    /\ (forall prompt style requested theme tags w path log w',
           (forall t messages, unusable (GeneratePpt.plan_attempt e t messages)) ->
           GeneratePpt.generate_presentation e prompt style requested theme tags w
           = (Ok (path, log), w') ->
           fs w' !! path = Some (PptxFile [intro_slide])
           /\ field "slides_generated" log = Some (VInt 1)).
Proof.
  intros e. repeat split.
  - intros prompt style dc rt n th w.
    pose proof (call_llm_plan_spec e prompt style dc rt n th w) as H.
    unfold wp in H. destruct H as [_ (plan & Hr & _)].
    exists plan, (snd (GeneratePpt.call_llm_plan e prompt style dc rt n th w)).
    rewrite <- Hr. apply surjective_pairing.
  - intros prompt style dc rt n th w Hbad.
    pose proof (call_llm_plan_spec e prompt style dc rt n th w) as H.
    unfold wp in H. destruct H as [_ (plan & Hr & Hfb & _)].
    now rewrite Hr, (Hfb Hbad).
  - pose proof (generate_presentation_spec e prompt style requested theme tags w) as S.
    apply (wp_elim _ _ _ _ _ S) in H0 as [_ P].
    destruct P as (t1 & t2 & ts & prs & slides & plan & entries & dc & rt
                   & wa & wb & wc & wd & _ & Hplan & Hiter & Hslides & Hdoc
                   & _ & Hfile & _ & _).
    pose proof (call_llm_plan_spec e prompt style dc rt
                  (fst (GeneratePpt.resolve_intent prompt requested theme))
                  (snd (GeneratePpt.resolve_intent prompt requested theme)) wa) as C.
    apply (wp_elim _ _ _ _ _ C) in Hplan as [_ (plan' & [= <-] & Hfb & _)].
    rewrite (Hfb (H _ _)) in Hiter. injection Hiter as <-.
    cbv in Hslides. injection Hslides as <- <-.
    cbv in Hdoc. injection Hdoc as <- _. exact Hfile.
  - pose proof (generate_presentation_spec e prompt style requested theme tags w) as S.
    apply (wp_elim _ _ _ _ _ S) in H0 as [_ P].
    destruct P as (t1 & t2 & ts & prs & slides & plan & entries & dc & rt
                   & wa & wb & wc & wd & _ & Hplan & Hiter & Hslides & _
                   & _ & _ & _ & ->).
    pose proof (call_llm_plan_spec e prompt style dc rt
                  (fst (GeneratePpt.resolve_intent prompt requested theme))
                  (snd (GeneratePpt.resolve_intent prompt requested theme)) wa) as C.
    apply (wp_elim _ _ _ _ _ C) in Hplan as [_ (plan' & [= <-] & Hfb & _)].
    rewrite (Hfb (H _ _)) in Hiter. injection Hiter as <-.
    cbv in Hslides. injection Hslides as <- <-. reflexivity.
Qed.

Lemma plan_failure_gives_fallback_witness :
  (forall t messages, unusable (GeneratePpt.plan_attempt sample_env t messages))
  /\ exists path log,
       fst (GeneratePpt.generate_presentation sample_env
              "Create a 5 slide modern deck" "Any" None None (Some []) empty_world)
       = Ok (path, log)
       /\ field "slides_generated" log = Some (VInt 1).
Proof.
  assert (Hbad : forall t messages,
             unusable (GeneratePpt.plan_attempt sample_env t messages)).
  { intros t messages. reflexivity. }
  split; [exact Hbad |].
  eexists _, _. split; [vm_compute; reflexivity |].
  eapply (proj2 (proj2 (plan_failure_gives_fallback sample_env))
            "Create a 5 slide modern deck" "Any" None None (Some []) empty_world).
  - exact Hbad.
  - rewrite (surjective_pairing (GeneratePpt.generate_presentation _ _ _ _ _ _ _)).
    f_equal; vm_compute; reflexivity.
Defined.

(** ** The returned path and the published names *)

(** C9: a run that succeeds returns the path of the local file
    [generated_presentation_<8 hex>.pptx] in the temporary directory, which
    holds the deck; the same deck is in the container under
    [generated_<8 hex>.pptx], a name made from a later draw; the log names
    that file in [ppt_file] and is in the container under
    [logs/<name>.json]; and the returned path is not the path of the
    published deck. *)
Theorem returns_local_path :
  forall (e : env) prompt style requested theme tags w path log w',
    GeneratePpt.generate_presentation e prompt style requested theme tags w
    = (Ok (path, log), w') ->
    exists (t1 t2 : nat) (prs : list doc_slide),
      let local_name := "generated_presentation_" +:+ hex8 e t1 +:+ ".pptx" in
      let fname := "generated_" +:+ hex8 e t2 +:+ ".pptx" in
      (t1 < t2)%nat
      /\ String.length (hex8 e t1) = 8%nat /\ Str.all ishex (hex8 e t1) = true
      /\ String.length (hex8 e t2) = 8%nat /\ Str.all ishex (hex8 e t2) = true
      /\ path = Path.join (gettempdir e) local_name
      /\ fs w' !! path = Some (PptxFile prs)
      /\ generated w' !! fname = Some (PptxFile prs)
      /\ field "ppt_file" log = Some (VStr fname)
      /\ generated w' !! ("logs/" +:+ fname +:+ ".json") = Some (JsonFile log)
      /\ path <> GENERATED_CONTAINER e +:+ "/" +:+ fname.
Proof.
  intros e prompt style requested theme tags w path log w' Hrun.
  pose proof (generate_presentation_spec e prompt style requested theme tags w) as S.
  apply (wp_elim _ _ _ _ _ S) in Hrun as [_ P].
  destruct P as (t1 & t2 & ts & prs & slides & plan & entries & dc & rt
                 & wa & wb & wc & wd & Hlt & _ & _ & _ & _
                 & Hpath & Hfile & Hgen & Hlog).
  exists t1, t2, prs. cbv zeta.
  split; [exact Hlt |].
  split; [apply hex8_length |]. split; [apply hex8_ishex |].
  split; [apply hex8_length |]. split; [apply hex8_ishex |].
  split; [exact Hpath |]. split; [exact Hfile |].
  split.
  { rewrite Hgen, lookup_insert_ne by apply log_key_not_deck. apply lookup_insert_eq. }
  split; [now rewrite Hlog |].
  split; [rewrite Hgen; apply lookup_insert_eq |].
  rewrite Hpath. apply local_path_not_remote; apply hex8_length.
Qed.

Lemma returns_local_path_witness :
  exists path log w',
    GeneratePpt.generate_presentation sample_env
      "Create a 5 slide modern deck" "Any" None None (Some []) empty_world
    = (Ok (path, log), w')
    /\ exists (t1 t2 : nat) (prs : list doc_slide),
         (t1 < t2)%nat
         /\ path = Path.join "/tmp"
                     ("generated_presentation_" +:+ hex8 sample_env t1 +:+ ".pptx")
         /\ fs w' !! path = Some (PptxFile prs)
         /\ generated w' !! ("generated_" +:+ hex8 sample_env t2 +:+ ".pptx")
            = Some (PptxFile prs)
         /\ path <> "generated-presentations" +:+ "/"
                     +:+ "generated_" +:+ hex8 sample_env t2 +:+ ".pptx".
Proof.
  destruct (GeneratePpt.generate_presentation sample_env
              "Create a 5 slide modern deck" "Any" None None (Some []) empty_world)
    as [[[path log]|ex] w'] eqn:Hrun.
  - exists path, log, w'. split; [reflexivity |].
    destruct (returns_local_path _ _ _ _ _ _ _ _ _ _ Hrun)
      as (t1 & t2 & prs & Hlt & _ & _ & _ & _ & Hpath & Hfile & Hgen & _ & _ & Hne).
    exists t1, t2, prs. repeat split; assumption.
  - exfalso. vm_compute in Hrun. discriminate.
Defined.

(** ** The front end *)
Section FrontEnd.
Variable e : env.
Import App.

Lemma container_step_quiet (style : string) (w w1 w2 w3 : world) :
  generated w1 = generated w ->
  container_step style (generated w1) (generated w2) ->
  generated w3 = generated w2 ->
  container_step style (generated w) (generated w3).
Proof. intros <- H ->. exact H. Qed.

Lemma on_submit_spec (prompt : string) (ph : phase) (w : world) :
  wp (on_submit e prompt ph) w
     (fun _ w' => container_step (label ph) (generated w) (generated w')).
Proof.
  unfold on_submit. wp_step. apply wp_try. do 2 wp_step.
  apply wp_bind. eapply wp_conseq; [apply generate_presentation_spec |].
  intros [[out_path log]|ex] w1 _ [Hstep _].
  - do 2 wp_step. apply wp_bind, wp_read_file.
    + intros f _. do 4 wp_step. apply wp_bind.
      destruct f as [prs| | |].
      1:{ apply wp_ret. wp_step. unfold slides_slice. do 2 wp_step.
          eapply container_step_quiet; [| exact Hstep |]; reflexivity. }
      all: apply wp_raise; do 2 wp_step;
        eapply container_step_quiet; [| exact Hstep |]; reflexivity.
    + intros _. do 2 wp_step.
      eapply container_step_quiet; [| exact Hstep |]; reflexivity.
  - do 2 wp_step.
    eapply container_step_quiet; [| exact Hstep |]; reflexivity.
Qed.

End FrontEnd.

Lemma container_step_logs (style : string) (g g' : gmap string file)
      (key : string) (v : value) :
  container_step style g g' ->
  g' !! key = Some (JsonFile v) ->
  g !! key = Some (JsonFile v) \/ field "style" v = Some (VStr style).
Proof.
  intros [-> | [(fname & prs & ->) | (fname & prs & k & log & -> & Hstyle)]] H.
  - now left.
  - destruct (decide (fname = key)) as [->|Hne].
    + rewrite lookup_insert_eq in H. discriminate.
    + rewrite lookup_insert_ne in H by exact Hne. now left.
  - destruct (decide (k = key)) as [->|Hk].
    + rewrite lookup_insert_eq in H. injection H as <-. now right.
    + rewrite lookup_insert_ne in H by exact Hk.
      destruct (decide (fname = key)) as [->|Hne].
      * rewrite lookup_insert_eq in H. discriminate.
      * rewrite lookup_insert_ne in H by exact Hne. now left.
Qed.

(** C10: the submit handler passes the label of the selected phase as
    [style]: the label is one of the six options and never "Auto"; the log
    of a request made with that style records the label; and any JSON
    document found in the container after a submission was there before or
    records the label in its [style] field. *)
Theorem submissions_use_phase_label :
  forall (e : env) (prompt : string) (ph : App.phase) (w : world),
    In (App.label ph) App.options
    /\ App.label ph <> "Auto"
    /\ (forall key v,
           generated (snd (App.on_submit e prompt ph w)) !! key = Some (JsonFile v) ->
           generated w !! key = Some (JsonFile v)
           \/ field "style" v = Some (VStr (App.label ph)))
    /\ (forall requested theme tags w0 path log w1,
           GeneratePpt.generate_presentation e prompt (App.label ph)
             requested theme tags w0 = (Ok (path, log), w1) ->
           field "style" log = Some (VStr (App.label ph))).
Proof.
  intros e prompt ph w. repeat split.
  - destruct ph; cbn; tauto.
  - destruct ph; discriminate.
  - intros key v H.
    pose proof (on_submit_spec e prompt ph w) as S. unfold wp in S.
    exact (container_step_logs _ _ _ _ _ S H).
  - intros requested theme tags w0 path log w1 Hrun.
    pose proof (generate_presentation_spec e prompt (App.label ph)
                  requested theme tags w0) as S.
    apply (wp_elim _ _ _ _ _ S) in Hrun as [_ P].
    destruct P as (t1 & t2 & ts & prs & slides & plan & entries & dc & rt
                   & wa & wb & wc & wd & _ & _ & _ & _ & _ & _ & _ & _ & ->).
    reflexivity.
Qed.

Lemma submissions_use_phase_label_witness :
  generated (snd (App.on_submit sample_env "Create a 5 slide modern deck"
                    App.Design empty_world))
  !! "logs/generated_1715609f.pptx.json"
  <> None
  /\ forall v,
      generated (snd (App.on_submit sample_env "Create a 5 slide modern deck"
                        App.Design empty_world))
      !! "logs/generated_1715609f.pptx.json" = Some (JsonFile v) ->
      field "style" v = Some (VStr "Design").
Proof.
  split; [vm_compute; discriminate |].
  intros v H.
  destruct (proj1 (proj2 (proj2 (submissions_use_phase_label
                                   sample_env "Create a 5 slide modern deck"
                                   App.Design empty_world)))
              _ _ H) as [Hold | Hstyle].
  - discriminate Hold.
  - exact Hstyle.
Defined.

(** ** Design extraction *)
Section Extraction.
Import DesignExtractor.

Lemma extract_shape_icons (ty : MSO_SHAPE_TYPE) (sh : shape) (d : slide_data) :
  shape_type sh = Ok ty ->
  icons (fst (extract_shape ty sh d)) =
  icons d ++ (if is_icon sh then [name sh] else []).
Proof.
  intros Hty.
  assert (Hc : icons (classify ty sh d)
               = icons d ++ (if is_icon sh then [name sh] else [])).
  { unfold classify, is_icon. rewrite Hty.
    destruct ty, (chart_type sh), (Str.contains "icon" (Str.lower (name sh)));
      cbn; rewrite ?app_nil_r; reflexivity. }
  unfold extract_shape.
  destruct (fill_rgb sh), (line_rgb sh), (run_fonts sh); cbn; exact Hc.
Qed.

(** The loop over the shapes stops, with the exception, at the first shape
    whose type cannot be read. *)
Lemma extract_shapes_icons (shs : list shape) (d : slide_data) (w : world) :
  wp (extract_shapes shs d) w
     (fun r w' =>
        quiet w w' /\
        if forallb typed shs
        then exists d', r = Ok d'
                        /\ icons d' = icons d ++ map name (List.filter is_icon shs)
                        /\ images d ⊆ images d'
        else exists ex, r = Raise ex).
Proof.
  revert d w; induction shs as [|sh shs IH]; intros d w; cbn [extract_shapes forallb].
  - wp_step. split; [reflexivity |]. exists d. now rewrite app_nil_r.
  - wp_step.
    destruct (shape_type sh) as [ty|ex] eqn:Hty.
    2:{ assert (typed sh = false) as -> by (unfold typed; now rewrite Hty).
        split; [reflexivity | cbn; eauto]. }
    assert (typed sh = true) as -> by (unfold typed; now rewrite Hty).
    cbn [andb].
    pose proof (extract_shape_icons ty sh d Hty) as Hi.
    assert (Him : images d ⊆ images (fst (extract_shape ty sh d))).
    { unfold extract_shape, classify.
      destruct ty, (chart_type sh), (fill_rgb sh), (line_rgb sh),
        (run_fonts sh), (Str.contains "icon" (Str.lower (name sh))); cbn;
        set_solver. }
    destruct (extract_shape ty sh d) as [d1 fine]. cbn [fst] in Hi, Him.
    apply wp_bind.
    assert (Hgo : forall w1, quiet w w1 ->
              wp (extract_shapes shs d1) w1
                 (fun r w' =>
                    quiet w w' /\
                    if forallb typed shs
                    then exists d', r = Ok d'
                                    /\ icons d' = icons d
                                         ++ map name (List.filter is_icon (sh :: shs))
                                    /\ images d ⊆ images d'
                    else exists ex, r = Raise ex)).
    { intros w1 Hq. eapply wp_conseq; [apply IH |].
      intros r w' _ [Hq' H]. split; [now transitivity w1 |].
      destruct (forallb typed shs); [| exact H].
      destruct H as (d' & -> & Hd' & Him').
      exists d'. split; [reflexivity |].
      split; [| set_solver].
      rewrite Hd', Hi. cbn [List.filter].
      destruct (is_icon sh); cbn; now rewrite <- ?app_assoc. }
    destruct fine; [wp_step | wp_step]; apply Hgo; frame.
Qed.

Lemma extract_slide_elements_spec (slide : src_slide) (w : world) :
  wp (extract_slide_elements slide) w
     (fun r w' =>
        quiet w w' /\
        if forallb typed (shapes slide)
        then exists d, r = Ok d
                       /\ icons d = map name (List.filter is_icon (shapes slide))
        else exists ex, r = Raise ex).
Proof.
  unfold extract_slide_elements. apply wp_bind.
  eapply wp_conseq; [apply extract_shapes_icons |].
  intros r w' _ [Hq H].
  destruct (forallb typed (shapes slide)).
  - destruct H as (d' & -> & Hd' & _). wp_step.
    split; [exact Hq |]. eexists; split; [reflexivity |]. exact Hd'.
  - destruct H as (ex & ->). split; [exact Hq | eauto].
Qed.

Lemma basename_no_slash (p : string) : Str.contains "/" (Path.basename p) = false.
Proof.
  induction p as [|c p IH]; [reflexivity |].
  cbn [Path.basename].
  destruct (Str.contains "/" (String c p)) eqn:E; [exact IH | exact E].
Qed.

Lemma cache_path_eq (ppt_name : string) :
  Path.join OUTPUT_DIR (Path.basename ppt_name +:+ ".json")
  = "design_jsons/" +:+ Path.basename ppt_name +:+ ".json".
Proof.
  pose proof (basename_no_slash ppt_name) as H.
  unfold Path.join, OUTPUT_DIR.
  destruct (Path.basename ppt_name) as [|c b]; [reflexivity |].
  rewrite app_cons_s. cbn [Str.startswith].
  cbn [Str.contains Str.startswith] in H.
  destruct (Ascii.eqb "/" c); [discriminate | reflexivity].
Qed.

End Extraction.

(** C2, at a picture named "icon_home": it is in the images bucket and not
    in the icons bucket. *)
Lemma icon_picture_counterexample :
  exists d,
    fst (DesignExtractor.extract_slide_elements
           (slide_of [plain_shape PICTURE "icon_home"]) empty_world) = Ok d
    /\ Str.contains "icon" (Str.lower "icon_home") = true
    /\ In "icon_home" (DesignExtractor.images d)
    /\ ~ In "icon_home" (DesignExtractor.icons d).
Proof.
  eexists. split; [vm_compute; reflexivity |].
  split; [reflexivity |]. split; [now left | intros []].
Qed.

(** C2 (amended): on a slide whose shapes all have a readable type, the
    icons bucket holds, in shape order, the names of exactly those shapes
    whose type is none of picture, table, chart and auto-shape and whose name
    contains "icon" in any case: a shape classified by its type adds nothing
    to the icons bucket.  On a slide with a shape whose type cannot be read
    the extraction raises and gives no record. *)
Theorem icons_bucket_is_the_fallback :
  forall (slide : src_slide) (w : world),
    (forallb typed (shapes slide) = true ->
     exists d,
       fst (DesignExtractor.extract_slide_elements slide w) = Ok d
       /\ DesignExtractor.icons d = map name (List.filter is_icon (shapes slide))
       /\ forall n,
           In n (DesignExtractor.icons d) <->
           exists sh, In sh (shapes slide)
                      /\ shape_type sh = Ok OTHER_SHAPE
                      /\ occurs "icon" (Str.lower (name sh))
                      /\ name sh = n)
    /\ (forallb typed (shapes slide) = false ->
        exists ex, fst (DesignExtractor.extract_slide_elements slide w) = Raise ex).
Proof.
  intros slide w.
  pose proof (extract_slide_elements_spec slide w) as S. unfold wp in S.
  destruct S as [_ S]. split; intros Hty; rewrite Hty in S; [| exact S].
  destruct S as (d & Hr & Hd). exists d. split; [exact Hr |]. split; [exact Hd |].
  intros n. rewrite Hd, in_map_iff. split.
  - intros (sh & Hn & Hin). apply filter_In in Hin as [Hin Hic].
    exists sh. split; [exact Hin |]. unfold is_icon in Hic.
    destruct (shape_type sh) as [[]|]; try discriminate.
    split; [reflexivity |]. split; [now apply contains_occurs | exact Hn].
  - intros (sh & Hin & Hty' & Hoc & Hn). exists sh. split; [exact Hn |].
    apply filter_In. split; [exact Hin |]. unfold is_icon. rewrite Hty'.
    now apply contains_occurs.
Qed.

Lemma icons_bucket_is_the_fallback_witness :
  (exists d,
      fst (DesignExtractor.extract_slide_elements
             (slide_of [plain_shape PICTURE "icon_home"; plain_shape OTHER_SHAPE "Icon 7";
                        plain_shape OTHER_SHAPE "Title 1"]) empty_world) = Ok d
      /\ DesignExtractor.icons d = ["Icon 7"])
  /\ exists ex,
      fst (DesignExtractor.extract_slide_elements
             (slide_of [plain_shape OTHER_SHAPE "Icon 7"; unknown_shape "icon"])
             empty_world) = Raise ex.
Proof.
  split.
  - destruct (proj1 (icons_bucket_is_the_fallback
                       (slide_of [plain_shape PICTURE "icon_home";
                                  plain_shape OTHER_SHAPE "Icon 7";
                                  plain_shape OTHER_SHAPE "Title 1"]) empty_world)
                eq_refl) as (d & Hr & Hd & _).
    exists d. split; [exact Hr | exact Hd].
  - exact (proj2 (icons_bucket_is_the_fallback
                    (slide_of [plain_shape OTHER_SHAPE "Icon 7"; unknown_shape "icon"])
                    empty_world) eq_refl).
Defined.

(** C8: when the cache file of a deck exists, [process_blob] only logs that
    it skips the deck: it returns at once, the file system (and with it the
    cache file), the container and the collection are as before, and no
    download or extraction takes place. *)
Theorem cached_deck_is_skipped :
  forall (e : env) (blob_name : string) (w : world) (content : file),
    fs w !! ("design_jsons/" +:+ Path.basename blob_name +:+ ".json") = Some content ->
    exists w',
      DesignExtractor.process_blob e blob_name w = (Ok tt, w')
      /\ fs w' = fs w
      /\ fs w' !! ("design_jsons/" +:+ Path.basename blob_name +:+ ".json")
         = Some content
      /\ clock w' = clock w
      /\ generated w' = generated w
      /\ collection w' = collection w
      /\ fetches (trace w') = fetches (trace w)
      /\ exists msg, trace w' = EvLog INFO msg :: trace w.
Proof.
  intros e blob_name w content Hfile.
  eexists. split.
  - unfold DesignExtractor.process_blob, DesignExtractor.ppt_already_processed.
    rewrite cache_path_eq.
    unfold bind at 1. unfold exists_file. rewrite Hfile.
    rewrite bool_decide_eq_true_2 by (now exists content).
    reflexivity.
  - cbn. repeat split; try assumption. eexists; reflexivity.
Qed.

Lemma cached_deck_is_skipped_witness :
  let w := set_fs {[ "design_jsons/deck.pptx.json" := JsonFile (VStr "cached") ]}
             empty_world in
  fs w !! ("design_jsons/" +:+ Path.basename "decks/2024/deck.pptx" +:+ ".json")
  = Some (JsonFile (VStr "cached"))
  /\ exists w',
      DesignExtractor.process_blob sample_env "decks/2024/deck.pptx" w = (Ok tt, w')
      /\ fs w' = fs w
      /\ fetches (trace w') = 0%nat.
Proof.
  intros w.
  assert (H : fs w !! ("design_jsons/" +:+ Path.basename "decks/2024/deck.pptx" +:+ ".json")
              = Some (JsonFile (VStr "cached"))) by (vm_compute; reflexivity).
  split; [exact H |].
  destruct (cached_deck_is_skipped sample_env "decks/2024/deck.pptx" w _ H)
    as (w' & Hrun & Hfs & _ & _ & _ & _ & Hfetch & _).
  exists w'. split; [exact Hrun |]. split; [exact Hfs | exact Hfetch].
Defined.

(** ** Loading the ingestion module *)

(** C5: [design_extractor] binds [extract_design_elements] and no
    [extract_design_json], so the import on line 9 of the ingestion module
    cannot succeed: the module never finishes loading, and whenever the
    imports before it and the body of [design_extractor] run through, the
    failure is the import error for that name. *)
Theorem ingestion_module_cannot_load :
  ("extract_design_json" ∉ DesignExtractor.module_names)
  /\ ("extract_design_elements" ∈ DesignExtractor.module_names)
  /\ forall lines_1_8 design_extractor_body lines_11_31 : result unit,
      IngestionChroma.load_module lines_1_8 design_extractor_body lines_11_31 <> Ok tt
      /\ (lines_1_8 = Ok tt -> design_extractor_body = Ok tt ->
          IngestionChroma.load_module lines_1_8 design_extractor_body lines_11_31
          = Raise (Exn "ImportError"
                     "cannot import name 'extract_design_json' from 'design_extractor'")).
Proof.
  assert (Hno : "extract_design_json" ∉ DesignExtractor.module_names).
  { unfold DesignExtractor.module_names. rewrite !not_elem_of_cons.
    repeat split; try discriminate. apply not_elem_of_nil. }
  split; [exact Hno |]. split.
  { unfold DesignExtractor.module_names. rewrite !elem_of_cons.
    do 18 right. now left. }
  intros pre body post.
  assert (Himp : forall b, IngestionChroma.from_import b DesignExtractor.module_names
                             "design_extractor" "extract_design_json" <> Ok tt).
  { intros [[]|ex]; cbn [IngestionChroma.from_import]; [| discriminate].
    rewrite bool_decide_eq_false_2 by exact Hno. discriminate. }
  split.
  - unfold IngestionChroma.load_module, IngestionChroma.then_.
    destruct pre as [[]|ex]; [| discriminate].
    specialize (Himp body).
    destruct (IngestionChroma.from_import body _ _ _) as [[]|ex]; [congruence | discriminate].
  - intros -> ->. unfold IngestionChroma.load_module, IngestionChroma.then_.
    cbn [IngestionChroma.from_import].
    rewrite bool_decide_eq_false_2 by exact Hno. reflexivity.
Qed.

Lemma ingestion_module_cannot_load_witness :
  IngestionChroma.load_module (Ok tt) (Ok tt) (Ok tt)
  = Raise (Exn "ImportError"
             "cannot import name 'extract_design_json' from 'design_extractor'").
Proof.
  exact (proj2 (proj2 (proj2 ingestion_module_cannot_load) (Ok tt) (Ok tt) (Ok tt))
           eq_refl eq_refl).
Defined.

(** ** Ingestion of one deck *)
Section Ingestion.
Variable e : env.
Import IngestionChroma.

Lemma build_batch_spec (blob_name ppt_base : string) (sls : list slide_text)
      (b : batch) (w : world) :
  wp (build_batch e blob_name ppt_base sls b) w
     (fun r w' =>
        fs w' = fs w /\ generated w' = generated w /\ collection w' = collection w
        /\ trace w' = trace w /\ clock w' = (clock w + length sls)%nat
        /\ exists b',
            r = Ok b'
            /\ docs b' = docs b ++ map text_ sls
            /\ alltexts b' = alltexts b ++ map text_ sls
            /\ metas b' = metas b ++ map (meta_of blob_name ppt_base) sls
            /\ ids b' = ids b ++ fresh_ids e (clock w) (length sls)).
Proof.
  revert b w; induction sls as [|s sls IH]; intros b w; cbn [build_batch].
  - wp_step. do 4 (split; [reflexivity |]). split; [cbn; lia |].
    exists b. unfold fresh_ids. cbn.
    now rewrite !app_nil_r.
  - wp_step. eapply wp_conseq; [apply IH |].
    intros r w' _ (H1 & H2 & H3 & H4 & H5 & b' & -> & Hd & Ha & Hm & Hi).
    cbn in H1, H2, H3, H4, H5. do 4 (split; [assumption |]). split; [cbn; lia |].
    exists b'. split; [reflexivity |].
    cbn [docs alltexts metas ids] in Hd, Ha, Hm, Hi.
    rewrite Hd, Ha, Hm, Hi, <- !app_assoc. unfold fresh_ids. cbn.
    repeat split; reflexivity.
Qed.

Lemma slides_from_length (i : nat) (sls : list src_slide) :
  length (slides_from i sls) = length sls.
Proof. revert i; induction sls as [|s sls IH]; intros i; cbn; congruence. Qed.

Lemma zip_entries_spec (ds : list string) (es : list (list Q)) (ms : list value)
      (is_ : list string) :
  length ds = length is_ -> length es = length is_ -> length ms = length is_ ->
  length (zip_entries ds es ms is_) = length is_
  /\ map e_document (zip_entries ds es ms is_) = ds
  /\ map e_embedding (zip_entries ds es ms is_) = es
  /\ map e_metadata (zip_entries ds es ms is_) = ms
  /\ map e_id (zip_entries ds es ms is_) = is_.
Proof.
  revert es ms is_; induction ds as [|d ds IH]; intros [|v es] [|m ms] [|i is_];
    cbn; try discriminate; try (repeat split; reflexivity).
  intros [= H1] [= H2] [= H3].
  destruct (IH es ms is_ H1 H2 H3) as (-> & -> & -> & -> & ->).
  repeat split; reflexivity.
Qed.

Lemma deck_texts_length (deck : src_deck) :
  length (deck_texts deck) = length (slides deck).
Proof. unfold deck_texts. now rewrite length_map, slides_from_length. Qed.

Lemma fresh_ids_length (t n : nat) : length (fresh_ids e t n) = n.
Proof. unfold fresh_ids. now rewrite length_map, length_seq. Qed.

Lemma slides_from_index (i : nat) (sls : list src_slide) (k : nat) (s : slide_text) :
  slides_from i sls !! k = Some s -> index s = (i + k)%nat.
Proof.
  revert i k; induction sls as [|sl sls IH]; intros i [|k] H; try discriminate.
  - cbn in H. injection H as <-. cbn. lia.
  - cbn [slides_from] in H.
    change (slides_from (S i) sls !! k = Some s) in H.
    rewrite (IH (S i) k H). lia.
Qed.

Lemma zip_entries_lookup (ds : list string) (es : list (list Q)) (ms : list value)
      (is_ : list string) (k : nat) (en : entry) :
  zip_entries ds es ms is_ !! k = Some en ->
  ds !! k = Some (e_document en) /\ es !! k = Some (e_embedding en)
  /\ ms !! k = Some (e_metadata en) /\ is_ !! k = Some (e_id en).
Proof.
  revert es ms is_ k; induction ds as [|d ds IH]; intros [|v es] [|m ms] [|i is_] k H;
    try discriminate.
  destruct k as [|k]; cbn in H.
  - injection H as <-. repeat split.
  - exact (IH es ms is_ k H).
Qed.

(** The metadata of a slide, field by field. *)
Lemma meta_of_fields (blob_name ppt_base : string) (s : slide_text) :
  meta_of blob_name ppt_base s
  = VDict [("ppt_name", VStr blob_name);
           ("slide_id", VStr (ppt_base +:+ "_Slide_" +:+ Str.of_nat (index s)));
           ("slide_index", VInt (Z.of_nat (index s)));
           ("title", VStr (Str.split_first (ascii_of_nat 10) (text_ s)))].
Proof. unfold meta_of. now destruct (text_ s). Qed.

(** The whole run, when the disk works and the deck arrives. *)
Lemma process_blob_spec (blob_name : string) (deck : src_deck) (w : world) :
  (forall t p, disk_ok e t p = true) ->
  (forall t, download_blob e t blob_name = Ok (DeckFile deck)) ->
  wp (process_blob e blob_name) w
     (fun r w' =>
        generated w' = generated w /\
        match slides deck with
        | [] => r = Ok tt /\ collection w' = collection w
                /\ adds (trace w') = adds (trace w)
        | _ :: _ =>
            let n := length (slides deck) in
            let t := (clock w + 3 + n)%nat in
            match embeddings_create e t (EMBEDDING_MODEL e) (deck_texts deck) with
            | Raise _ | Ok [] =>
                r = Ok tt /\ collection w' = collection w
                /\ adds (trace w') = adds (trace w)
            | Ok vs =>
                let ppt_base := Path.splitext_root (Path.basename blob_name) in
                let ms := map (meta_of blob_name ppt_base)
                              (slides_from 0 (slides deck)) in
                let is_ := fresh_ids e (clock w + 3) n in
                adds (trace w') = S (adds (trace w))
                /\ In (EvCollectionAdd (deck_texts deck) vs ms is_) (trace w')
                /\ if Nat.eqb (length vs) n
                   then r = Ok tt
                        /\ collection w'
                           = collection w ++ zip_entries (deck_texts deck) vs ms is_
                   else (exists ex, r = Raise ex) /\ collection w' = collection w
            end
        end).
Proof.
  intros Hdisk Hfetch. unfold process_blob, DesignExtractor.download_to.
  wp_step. apply wp_bind, wp_bind.
  apply wp_write_file; intros Hd; [| rewrite Hdisk in Hd; discriminate].
  do 3 wp_step. cbn [clock set_clock set_trace set_fs]. rewrite Hfetch.
  apply wp_write_file; intros Hd'; [| rewrite Hdisk in Hd'; discriminate].
  unfold extract_slides. apply wp_bind, wp_bind, wp_read_file.
  2:{ cbn. rewrite lookup_insert_eq. discriminate. }
  intros f Hf. cbn in Hf. rewrite lookup_insert_eq in Hf. injection Hf as <-.
  wp_step.
  destruct (slides deck) as [|s0 sls] eqn:Hsl.
  { cbn [slides_from truthy list_truthy negb]. wp_step. cbn. repeat split. }
  rewrite <- Hsl.
  assert (Htr : truthy (slides_from 0 (slides deck)) = true).
  { rewrite Hsl. reflexivity. }
  rewrite Htr. cbn [negb].
  apply wp_bind. eapply wp_conseq; [apply build_batch_spec |].
  intros r w1 _ (F1 & F2 & F3 & F4 & F5 & b & -> & Hd1 & Ha1 & Hm1 & Hi1).
  cbn in F1, F2, F3, F4, F5, Hd1, Ha1, Hm1, Hi1.
  rewrite slides_from_length in F5, Hi1.
  fold (deck_texts deck) in Hd1, Ha1.
  unfold azure_embed_func. apply wp_bind, wp_try.
  assert (Hc : clock w1 = (clock w + 3 + length (slides deck))%nat) by lia.
  do 2 wp_step. cbn [clock set_trace set_clock]. wp_step.
  rewrite Ha1, Hc. cbv zeta.
  destruct (embeddings_create e _ (EMBEDDING_MODEL e) (deck_texts deck))
    as [[|v vs]|ex].
  - cbn [truthy list_truthy negb]. wp_step. cbn. rewrite F2, F3, F4. cbn.
    repeat split.
  - cbn [truthy list_truthy negb]. unfold collection_add.
    apply wp_bind. wp_step.
    rewrite Hd1, Hm1, Hi1.
    replace (S (S (S (clock w)))) with (clock w + 3)%nat by lia.
    rewrite !length_map, slides_from_length, deck_texts_length, fresh_ids_length,
      Nat.eqb_refl.
    cbn [andb].
    destruct (Nat.eqb (length (v :: vs)) (length (slides deck))) eqn:El.
    + cbn [andb]. unfold wp at 1. cbn [fst snd]. wp_step. cbn.
      rewrite F2, F3, F4. cbn.
      split; [reflexivity |]. split; [reflexivity |]. split; [right; now left |].
      split; reflexivity.
    + cbn [andb]. wp_step. cbn. rewrite F2, F3, F4. cbn.
      split; [reflexivity |]. split; [reflexivity |]. split; [now left |].
      split; [eauto | reflexivity].
  - do 2 wp_step. cbn [truthy list_truthy negb]. wp_step. cbn.
    rewrite F2, F3, F4. cbn. repeat split.
Qed.

End Ingestion.

(** C7, at an embedding answer of the wrong length: the deck has two
    slides and the embedding call returns one vector, so none of the
    conditions for abandoning the deck holds; yet nothing is inserted, and
    the function raises. *)
Lemma embedding_count_mismatch_counterexample :
  let e := ingest_env two_slide_deck (fun _ => Ok [[1 # 2]]) in
  let run := IngestionChroma.process_blob e "decks/two.pptx" empty_world in
  length (slides two_slide_deck) = 2%nat
  /\ embeddings_create e 5 (EMBEDDING_MODEL e) (deck_texts two_slide_deck)
     = Ok [[1 # 2]]
  /\ fst run = Raise (Exn "ValueError" "number of items must match number of ids")
  /\ collection (snd run) = [].
Proof. vm_compute. repeat split; reflexivity. Qed.

(** C7 (amended): with the deck downloaded and read, [process_blob] either
    leaves the collection untouched or adds the whole deck.  A deck without
    slides, an embedding call that raises and an embedding call that returns
    no vectors each end the function normally, with no [collection.add] and
    an unchanged collection.  A non-empty answer with one vector per slide
    makes a single [collection.add] store exactly one record per slide: its
    text, its vector, an identifier drawn for it, and a metadata record with
    the blob name, the slide id, the slide index and the first line of the
    text.  A non-empty answer of any other length makes that
    [collection.add] raise: the exception leaves [process_blob] and nothing
    is stored. *)
Theorem ingestion_is_all_or_nothing :
  forall (e : env) (blob_name : string) (deck : src_deck) (w : world),
    (forall t p, disk_ok e t p = true) ->
    (forall t, download_blob e t blob_name = Ok (DeckFile deck)) ->
    let run := IngestionChroma.process_blob e blob_name w in
    let n := length (slides deck) in
    (slides deck = [] ->
     fst run = Ok tt /\ collection (snd run) = collection w
     /\ adds (trace (snd run)) = adds (trace w))
    /\ (forall outcome,
           (forall t, embeddings_create e t (EMBEDDING_MODEL e) (deck_texts deck)
                      = outcome) ->
           outcome = Ok [] \/ (exists ex, outcome = Raise ex) ->
           fst run = Ok tt /\ collection (snd run) = collection w
           /\ adds (trace (snd run)) = adds (trace w))
    /\ (forall vs,
           slides deck <> [] ->
           (forall t, embeddings_create e t (EMBEDDING_MODEL e) (deck_texts deck)
                      = Ok vs) ->
           vs <> [] ->
           adds (trace (snd run)) = S (adds (trace w))
           /\ (length vs = n ->
               fst run = Ok tt
               /\ exists entries,
                   collection (snd run) = collection w ++ entries
                   /\ length entries = n
                   /\ map e_document entries = deck_texts deck
                   /\ map e_embedding entries = vs
                   /\ map e_id entries = fresh_ids e (clock w + 3) n
                   /\ forall k en,
                       entries !! k = Some en ->
                       e_metadata en
                       = VDict [("ppt_name", VStr blob_name);
                                ("slide_id",
                                 VStr (Path.splitext_root (Path.basename blob_name)
                                       +:+ "_Slide_" +:+ Str.of_nat k));
                                ("slide_index", VInt (Z.of_nat k));
                                ("title",
                                 VStr (Str.split_first (ascii_of_nat 10)
                                         (e_document en)))])
           /\ (length vs <> n ->
               (exists ex, fst run = Raise ex)
               /\ collection (snd run) = collection w)).
Proof.
  intros e blob_name deck w Hdisk Hfetch run n.
  pose proof (process_blob_spec e blob_name deck w Hdisk Hfetch) as S.
  unfold wp in S. fold run in S. destruct S as [_ S]. cbv zeta in S.
  split; [| split].
  - intros Hnil. rewrite Hnil in S. exact S.
  - intros outcome Hout Hbad.
    destruct (slides deck) as [|s0 sls]; [exact S |].
    rewrite Hout in S. destruct Hbad as [-> | [ex ->]]; exact S.
  - intros vs Hsl Hout Hvs. subst n.
    destruct (slides deck) as [|s0 sls] eqn:Esl; [congruence |].
    rewrite Hout in S. destruct vs as [|v vs]; [congruence |].
    destruct S as (Hadds & _ & S).
    rewrite <- Esl in *.
    split; [exact Hadds |]. split.
    + intros Hlen. rewrite Hlen, Nat.eqb_refl in S. destruct S as [Hr Hcol].
      split; [exact Hr |].
      eexists. split; [exact Hcol |].
      destruct (zip_entries_spec (deck_texts deck) (v :: vs)
                  (map (IngestionChroma.meta_of blob_name
                          (Path.splitext_root (Path.basename blob_name)))
                       (IngestionChroma.slides_from 0 (slides deck)))
                  (fresh_ids e (clock w + 3) (length (slides deck))))
        as (L & D & E & M & I).
      * now rewrite deck_texts_length, fresh_ids_length.
      * now rewrite fresh_ids_length.
      * now rewrite length_map, slides_from_length, fresh_ids_length.
      * rewrite fresh_ids_length in L.
        split; [exact L |]. split; [exact D |]. split; [exact E |]. split; [exact I |].
        intros k en Hk.
        apply zip_entries_lookup in Hk as (Hd & _ & Hm & _).
        unfold deck_texts in Hd.
        rewrite list_lookup_fmap in Hd. rewrite list_lookup_fmap in Hm.
        destruct (IngestionChroma.slides_from 0 (slides deck) !! k) as [s|] eqn:Es;
          [| discriminate].
        cbn in Hd, Hm. injection Hd as Hd. injection Hm as Hm.
        rewrite <- Hm, meta_of_fields, (slides_from_index _ _ _ _ Es), Hd.
        reflexivity.
    + intros Hlen. apply Nat.eqb_neq in Hlen. rewrite Hlen in S. exact S.
Qed.

Lemma ingestion_is_all_or_nothing_witness :
  (let e := ingest_env empty_deck (fun _ => Ok []) in
   collection (snd (IngestionChroma.process_blob e "decks/empty.pptx" empty_world)) = [])
  /\ (let e := ingest_env two_slide_deck (fun _ => Raise (Exn "APIError" "down")) in
      fst (IngestionChroma.process_blob e "decks/two.pptx" empty_world) = Ok tt
      /\ collection (snd (IngestionChroma.process_blob e "decks/two.pptx" empty_world))
         = [])
  /\ (let e := ingest_env two_slide_deck (fun ts => Ok (map (fun _ => [1 # 2]) ts)) in
      exists entries,
        collection (snd (IngestionChroma.process_blob e "decks/two.pptx" empty_world))
        = entries
        /\ length entries = 2%nat
        /\ map e_document entries = [String.append "Welcome" (String "010" "Agenda"); ""]
        /\ forall en, entries !! 0%nat = Some en ->
             field "slide_id" (e_metadata en) = Some (VStr "two_Slide_0")
             /\ field "title" (e_metadata en) = Some (VStr "Welcome"))
  /\ (let e := ingest_env two_slide_deck (fun _ => Ok [[1 # 2]]) in
      (exists ex, fst (IngestionChroma.process_blob e "decks/two.pptx" empty_world)
                  = Raise ex)
      /\ collection (snd (IngestionChroma.process_blob e "decks/two.pptx" empty_world))
         = []).
Proof.
  split; [| split; [| split]].
  - intros e.
    destruct (proj1 (ingestion_is_all_or_nothing e "decks/empty.pptx" empty_deck
                       empty_world (fun _ _ => eq_refl) (fun _ => eq_refl)) eq_refl)
      as (_ & Hc & _).
    exact Hc.
  - intros e.
    destruct (proj1 (proj2 (ingestion_is_all_or_nothing e "decks/two.pptx" two_slide_deck
                              empty_world (fun _ _ => eq_refl) (fun _ => eq_refl)))
                (Raise (Exn "APIError" "down")) (fun _ => eq_refl)
                (or_intror (ex_intro _ _ eq_refl)))
      as (Hr & Hc & _).
    split; [exact Hr | exact Hc].
  - intros e.
    destruct (proj2 (proj2 (ingestion_is_all_or_nothing e "decks/two.pptx" two_slide_deck
                              empty_world (fun _ _ => eq_refl) (fun _ => eq_refl)))
                [[1 # 2]; [1 # 2]] ltac:(discriminate) (fun _ => eq_refl)
                ltac:(discriminate))
      as (_ & Hgood & _).
    destruct (Hgood eq_refl) as (_ & entries & Hc & Hl & Hd & _ & _ & Hm).
    exists entries. split; [exact Hc |]. split; [exact Hl |]. split; [exact Hd |].
    intros en Hen. rewrite (Hm 0%nat en Hen).
    assert (Hdoc : e_document en = String.append "Welcome" (String "010" "Agenda")).
    { destruct entries as [|en0 rest]; [discriminate |].
      cbn in Hen. injection Hen as ->. cbn in Hd. now injection Hd. }
    rewrite Hdoc. split; reflexivity.
  - intros e.
    destruct (proj2 (proj2 (ingestion_is_all_or_nothing e "decks/two.pptx" two_slide_deck
                              empty_world (fun _ _ => eq_refl) (fun _ => eq_refl)))
                [[1 # 2]] ltac:(discriminate) (fun _ => eq_refl)
                ltac:(discriminate))
      as (_ & _ & Hbad).
    exact (Hbad ltac:(discriminate)).
Defined.

(** * Further properties *)

(** ** Intent detection, the other way round *)

Lemma search_some (r : Re.regex) (str : string) (m : Re.match_obj) :
  Re.search r str = Some m ->
  exists pre s, str = pre +:+ s /\ Re.match_here r s = Some m.
Proof.
  induction str as [|c str IH]; cbn [Re.search].
  - destruct (Re.match_here r "") eqn:E; [| discriminate].
    intros [= <-]. now exists "", "".
  - destruct (Re.match_here r (String c str)) eqn:E.
    + intros [= <-]. now exists "", (String c str).
    + intros H. destruct (IH H) as (pre & s & -> & Hm).
      now exists (String c pre), s.
Qed.

Lemma int_acc_nonneg (ds : string) (acc : Z) :
  Str.all Str.isdigit ds = true -> 0 <= acc -> 0 <= Str.int_acc acc ds.
Proof.
  revert acc; induction ds as [|c ds IH]; intros acc Hd Hacc; cbn; [exact Hacc |].
  cbn in Hd. apply andb_prop in Hd as [Hc Hd]. apply IH; [exact Hd |].
  unfold Str.isdigit in Hc. apply andb_prop in Hc as [Hlo _].
  apply Nat.leb_le in Hlo. lia.
Qed.

(** Whenever a slide count is detected in a prompt short enough for the
    interpreter's cap on digits not to matter, it is not negative and it is
    read off a place of the lower-cased prompt where decimal digits, white
    space and the word [slide] follow one another; a prompt without the word
    [slide] has no slide count. *)
Theorem detected_count_is_sound :
  forall prompt,
    (forall n, (String.length prompt <= Str.int_max_str_digits)%nat ->
               fst (GeneratePpt.parse_user_intent prompt) = Some n ->
               0 <= n
               /\ exists pre s ds,
                   Str.lower prompt = pre +:+ s /\ slide_count_at s ds
                   /\ n = Str.int ds)
    /\ (~ occurs "slide" (Str.lower prompt) ->
        fst (GeneratePpt.parse_user_intent prompt) = None).
Proof.
  intros prompt.
  assert (H1 : forall n, fst (GeneratePpt.parse_user_intent prompt) = Some n ->
               0 <= n
               /\ exists pre s ds,
                   Str.lower prompt = pre +:+ s /\ slide_count_at s ds
                   /\ n = Str.int ds).
  { intros n. unfold GeneratePpt.parse_user_intent. cbn [fst].
    destruct (Re.search GeneratePpt.slides_re (Str.lower prompt)) as [m|] eqn:E;
      [| discriminate].
    intros [= <-]. apply search_some in E as (pre & s & Hlow & Hm).
    apply match_here_inv in Hm as (ds & Hg & Hc). rewrite Hg. cbn [default].
    split.
    - destruct Hc as (ws & post & _ & Hd & _). now apply int_acc_nonneg.
    - now exists pre, s, ds. }
  split; [intros n _; exact (H1 n) |].
  intros Hno.
  destruct (fst (GeneratePpt.parse_user_intent prompt)) as [n|] eqn:E; [| reflexivity].
  exfalso. apply Hno.
  destruct (H1 n eq_refl) as (_ & pre & s & ds & Hlow & (ws & post & _ & _ & _ & _ & ->) & _).
  exists (pre +:+ ds +:+ ws), post. rewrite Hlow, !app_assoc_s. reflexivity.
Qed.

Lemma detected_count_is_sound_witness :
  fst (GeneratePpt.parse_user_intent "Plan 0 slides, then 7 slides") = Some 0
  /\ 0 <= 0
  /\ ~ occurs "slide" (Str.lower "A deck about 5 topics")
  /\ fst (GeneratePpt.parse_user_intent "A deck about 5 topics") = None.
Proof.
  assert (E : fst (GeneratePpt.parse_user_intent "Plan 0 slides, then 7 slides") = Some 0)
    by reflexivity.
  assert (N : ~ occurs "slide" (Str.lower "A deck about 5 topics")).
  { apply contains_not_occurs. reflexivity. }
  split; [exact E |].
  assert (L : (String.length "Plan 0 slides, then 7 slides"
               <= Str.int_max_str_digits)%nat) by (apply Nat.leb_le; reflexivity).
  split; [exact (proj1 (proj1 (detected_count_is_sound _) 0 L E)) |].
  split; [exact N |].
  exact (proj2 (detected_count_is_sound "A deck about 5 topics") N).
Defined.

Lemma detect_theme_sound (words : list string) (s th : string) :
  GeneratePpt.detect_theme words s = Some th ->
  exists t, In t words /\ th = Str.capitalize t /\ occurs t s.
Proof.
  induction words as [|w words IH]; cbn [GeneratePpt.detect_theme]; [discriminate |].
  destruct (Str.contains w s) eqn:E.
  - intros [= <-]. exists w. split; [now left |]. split; [reflexivity |].
    now apply contains_occurs.
  - intros H. destruct (IH H) as (t & Hin & Hth & Ho). exists t.
    split; [now right | now split].
Qed.

Lemma detect_theme_none (words : list string) (s : string) :
  GeneratePpt.detect_theme words s = None <-> forall t, In t words -> ~ occurs t s.
Proof.
  induction words as [|w words IH]; cbn [GeneratePpt.detect_theme].
  - split; [intros _ t [] | reflexivity].
  - destruct (Str.contains w s) eqn:E.
    + split; [discriminate |]. intros H. exfalso.
      apply (H w); [now left | now apply contains_occurs].
    + rewrite IH. split.
      * intros H t [<- | Hin]; [now apply contains_not_occurs | now apply H].
      * intros H t Hin. apply H. now right.
Qed.

(** A detected theme is always the capitalised form of a vocabulary word
    that occurs in the lower-cased prompt, hence one of nine fixed words; no
    theme is detected exactly when no vocabulary word occurs. *)
Theorem detected_theme_is_sound :
  forall prompt,
    (forall th, snd (GeneratePpt.parse_user_intent prompt) = Some th ->
                In th ["Corporate"; "Modern"; "Minimal"; "Professional"; "Dark";
                       "Light"; "Colorful"; "Gradient"; "Flat"]
                /\ exists t, In t GeneratePpt.theme_words
                             /\ th = Str.capitalize t
                             /\ occurs t (Str.lower prompt))
    /\ (snd (GeneratePpt.parse_user_intent prompt) = None <->
        forall t, In t GeneratePpt.theme_words -> ~ occurs t (Str.lower prompt)).
Proof.
  intros prompt. unfold GeneratePpt.parse_user_intent. cbn [snd]. split.
  - intros th H. apply detect_theme_sound in H as (t & Hin & -> & Ho).
    split; [| now exists t].
    cbn in Hin. cbn.
    repeat (destruct Hin as [<- | Hin]; [tauto |]). destruct Hin.
  - apply detect_theme_none.
Qed.

Lemma detected_theme_is_sound_witness :
  snd (GeneratePpt.parse_user_intent "A FLAT look, please") = Some "Flat"
  /\ In "Flat" ["Corporate"; "Modern"; "Minimal"; "Professional"; "Dark";
                "Light"; "Colorful"; "Gradient"; "Flat"].
Proof.
  assert (E : snd (GeneratePpt.parse_user_intent "A FLAT look, please") = Some "Flat")
    by reflexivity.
  split; [exact E |].
  exact (proj1 (proj1 (detected_theme_is_sound _) "Flat" E)).
Defined.

(** ** Paths and names *)

Lemma rev_app_acc (s acc : string) :
  String.rev_app s acc = String.rev_app s "" +:+ acc.
Proof.
  revert acc; induction s as [|c s IH]; intros acc; cbn [String.rev_app]; [reflexivity |].
  rewrite (IH (String c acc)), (IH (String c "")), app_assoc_s. reflexivity.
Qed.

Lemma rev_cons (c : ascii) (s : string) :
  String.rev (String c s) = String.rev s +:+ String c "".
Proof. unfold String.rev. cbn [String.rev_app]. apply rev_app_acc. Qed.

Lemma rev_app_distr_s (a b : string) :
  String.rev (a +:+ b) = String.rev b +:+ String.rev a.
Proof.
  induction a as [|c a IH].
  - rewrite app_nil_l_s. unfold String.rev at 3. cbn. now rewrite app_nil_r_s.
  - now rewrite app_cons_s, !rev_cons, IH, app_assoc_s.
Qed.

Lemma rev_involutive_s (s : string) : String.rev (String.rev s) = s.
Proof.
  induction s as [|c s IH]; [reflexivity |].
  now rewrite rev_cons, rev_app_distr_s, IH.
Qed.

Lemma endswith_inv (p s : string) :
  Str.endswith p s = true -> exists q, s = q +:+ p.
Proof.
  unfold Str.endswith. intros H. apply startswith_inv in H as [t Ht].
  exists (String.rev t).
  rewrite <- (rev_involutive_s s), Ht, rev_app_distr_s, rev_involutive_s. reflexivity.
Qed.

Lemma basename_id (b : string) : Str.contains "/" b = false -> Path.basename b = b.
Proof. destruct b as [|c b]; [reflexivity |]. cbn [Path.basename]. now intros ->. Qed.

Lemma basename_after_slash (q b : string) :
  Str.contains "/" b = false -> Path.basename ((q +:+ "/") +:+ b) = b.
Proof.
  intros Hb. induction q as [|c q IH].
  - change (("" +:+ "/") +:+ b) with (String "/" b). cbn [Path.basename].
    assert (E : Str.contains "/" (String "/" b) = true) by reflexivity.
    rewrite E. now apply basename_id.
  - rewrite !app_cons_s. cbn [Path.basename].
    assert (E : Str.contains "/" (String c ((q +:+ "/") +:+ b)) = true).
    { apply contains_occurs. exists (String c q), b. now rewrite app_assoc_s. }
    rewrite E. exact IH.
Qed.

Lemma basename_join (a b : string) :
  Str.contains "/" b = false -> Path.basename (Path.join a b) = b.
Proof.
  intros Hb. unfold Path.join.
  assert (Hs : Str.startswith "/" b = false).
  { destruct b as [|c b]; [reflexivity |]. cbn [Str.contains] in Hb.
    now destruct (Str.startswith "/" (String c b)). }
  rewrite Hs.
  destruct a as [|c a]; [cbn; now apply basename_id |].
  cbn [truthy string_truthy negb orb].
  destruct (Str.endswith "/" (String c a)) eqn:E.
  - apply endswith_inv in E as [q ->]. now apply basename_after_slash.
  - rewrite <- app_assoc_s. now apply basename_after_slash.
Qed.

Lemma replace_char_length (a b : ascii) (s : string) :
  String.length (Str.replace_char a b s) = String.length s.
Proof. induction s as [|c s IH]; cbn; congruence. Qed.

Lemma replace_slash_none (s : string) :
  Str.contains "/" (Str.replace_char "/" "_" s) = false.
Proof.
  induction s as [|c s IH]; [reflexivity |].
  cbn [Str.replace_char Str.contains Str.startswith].
  destruct (Ascii.eqb_spec c "/") as [->|Hc]; [exact IH |].
  destruct (Ascii.eqb_spec "/" c) as [<-|_]; [contradiction | exact IH].
Qed.

Lemma contains_slash_cons (c : ascii) (s : string) :
  Str.contains "/" (String c s) = (Ascii.eqb "/" c || Str.contains "/" s)%bool.
Proof. cbn [Str.contains Str.startswith]. now destruct (Ascii.eqb "/" c). Qed.

Lemma contains_slash_app (a b : string) :
  Str.contains "/" a = false -> Str.contains "/" b = false ->
  Str.contains "/" (a +:+ b) = false.
Proof.
  intros Ha Hb. induction a as [|c a IH]; [exact Hb |].
  rewrite app_cons_s, contains_slash_cons. rewrite contains_slash_cons in Ha.
  apply orb_false_elim in Ha as [-> Ha]. cbn [orb]. now apply IH.
Qed.

(** The local copy of a blob lies directly in the temporary directory: its
    file name is the blob name with every slash turned into an underscore,
    of the same length as the blob name; and the cache file of a deck lies
    directly in [design_jsons], named after the last component of the blob
    name. *)
Theorem working_paths_are_flat :
  forall (tmpdir blob_name : string),
    Path.basename (Path.join tmpdir (Str.replace_char "/" "_" blob_name))
    = Str.replace_char "/" "_" blob_name
    /\ String.length (Str.replace_char "/" "_" blob_name) = String.length blob_name
    /\ Str.contains "/" (Str.replace_char "/" "_" blob_name) = false
    /\ Path.basename (Path.join DesignExtractor.OUTPUT_DIR
                        (Path.basename blob_name +:+ ".json"))
       = Path.basename blob_name +:+ ".json".
Proof.
  intros tmpdir blob_name.
  split; [apply basename_join, replace_slash_none |].
  split; [apply replace_char_length |].
  split; [apply replace_slash_none |].
  apply basename_join, contains_slash_app; [apply basename_no_slash | reflexivity].
Qed.

(** ** The guessed title *)

Lemma split_first_spec (c : ascii) (s : string) :
  Str.contains (String c "") (Str.split_first c s) = false
  /\ (s = Str.split_first c s \/ exists rest, s = Str.split_first c s +:+ String c rest).
Proof.
  induction s as [|d s [IH1 IH2]]; [split; [reflexivity | now left] |].
  cbn [Str.split_first]. destruct (Ascii.eqb_spec d c) as [->|Hd].
  - split; [reflexivity |]. right. now exists s.
  - split.
    + cbn [Str.contains Str.startswith].
      destruct (Ascii.eqb_spec c d) as [->|_]; [contradiction | exact IH1].
    + destruct IH2 as [IH2 | [rest IH2]].
      * left. now rewrite <- IH2.
      * right. exists rest. now rewrite app_cons_s, <- IH2.
Qed.

(** The metadata of an indexed slide: the composite id is the deck base
    name, [_Slide_] and the decimal index; the title is the text up to the
    first line feed, so it has no line feed in it and the text is the title
    alone or the title, a line feed and more. *)
Theorem slide_metadata_shape :
  forall (blob_name ppt_base : string) (s : IngestionChroma.slide_text),
  exists title,
    field "title" (IngestionChroma.meta_of blob_name ppt_base s) = Some (VStr title)
    /\ Str.contains GeneratePpt.nl title = false
    /\ (IngestionChroma.text_ s = title
        \/ exists rest, IngestionChroma.text_ s = title +:+ GeneratePpt.nl +:+ rest)
    /\ field "slide_id" (IngestionChroma.meta_of blob_name ppt_base s)
       = Some (VStr (ppt_base +:+ "_Slide_" +:+ Str.of_nat (IngestionChroma.index s)))
    /\ field "slide_index" (IngestionChroma.meta_of blob_name ppt_base s)
       = Some (VInt (Z.of_nat (IngestionChroma.index s)))
    /\ field "ppt_name" (IngestionChroma.meta_of blob_name ppt_base s)
       = Some (VStr blob_name).
Proof.
  intros blob_name ppt_base s. eexists. split; [reflexivity |].
  destruct (IngestionChroma.text_ s) as [|c t] eqn:E.
  - cbn. repeat split; try reflexivity. now left.
  - cbn [truthy string_truthy].
    destruct (split_first_spec (ascii_of_nat 10) (String c t)) as [H1 H2].
    split; [exact H1 |]. split; [exact H2 |]. repeat split; reflexivity.
Qed.

(** ** More on the generation pipeline *)

Lemma wp_ok {A} (m : M A) (w : world) (P : A -> world -> Prop) :
  wp m w (fun r w' => exists a, r = Ok a /\ P a w') ->
  exists a w', m w = (Ok a, w') /\ P a w'.
Proof.
  unfold wp. intros (a & Hr & HP). exists a, (snd (m w)). split; [| exact HP].
  rewrite <- Hr. apply surjective_pairing.
Qed.

(** Image generation never raises and touches neither the container nor the
    collection.  When the image call or the download of the image raises,
    the slide gets no image and no file is written; when both answer and
    an image path is returned, that path is the fresh temporary name and the
    file holds the downloaded bytes. *)
Theorem visual_failure_is_isolated :
  forall (e : env) (prompt : value) (w : world),
  exists o w',
    GeneratePpt.generate_visual_image e prompt w = (Ok o, w')
    /\ generated w' = generated w
    /\ collection w' = collection w
    /\ match images_generate e (clock w) (IMAGE_MODEL e) prompt "1024x1024" with
       | Raise _ => o = None /\ fs w' = fs w
       | Ok url =>
           match requests_get e (S (clock w)) url 20 with
           | Raise _ => o = None /\ fs w' = fs w
           | Ok bytes =>
               match o with
               | Some path => path = mktemp e (S (S (clock w))) ".png"
                              /\ fs w' !! path = Some (RawFile bytes)
               | None => True
               end
           end
       end.
Proof.
  intros e prompt w. apply wp_ok.
  unfold GeneratePpt.generate_visual_image. apply wp_try. do 2 wp_step.
  cbn [clock set_trace set_clock]. wp_step.
  destruct (images_generate e (clock w) (IMAGE_MODEL e) prompt "1024x1024") as [url|ex].
  2:{ do 2 wp_step. eexists; split; [reflexivity |]. cbn. tauto. }
  wp_step. cbn [clock set_trace set_clock]. wp_step.
  destruct (requests_get e (S (clock w)) url 20) as [bytes|ex].
  2:{ do 2 wp_step. eexists; split; [reflexivity |]. cbn. tauto. }
  wp_step. cbn [clock set_trace set_clock].
  apply wp_bind, wp_write_file; intros _.
  2:{ do 2 wp_step. eexists; split; [reflexivity |]. cbn. tauto. }
  apply wp_bind, wp_write_file; intros _.
  2:{ do 2 wp_step. eexists; split; [reflexivity |]. cbn. tauto. }
  wp_step. eexists; split; [reflexivity |]. cbn.
  split; [reflexivity |]. split; [reflexivity |]. split; [reflexivity |].
  apply lookup_insert_eq.
Qed.

Lemma add_bullets_head (bs : list value) (body : list paragraph) (p : paragraph) :
  hd_error body = Some p -> hd_error (GeneratePpt.add_bullets bs body) = Some p.
Proof.
  revert body; induction bs as [|b bs IH]; intros body H; [exact H |].
  assert (Happ : forall x, hd_error (body ++ [x]) = Some p).
  { intros x. destruct body; [discriminate | exact H]. }
  destruct b; cbn [GeneratePpt.add_bullets]; try apply Happ.
  apply IH, Happ.
Qed.

Lemma build_slide_built (e : env) (s : GeneratePpt.gen_slide) (w : world) d w' :
  GeneratePpt.build_slide e s w = (Ok d, w') -> built_slide d.
Proof.
  intros H.
  assert (S : wp (GeneratePpt.build_slide e s) w
                 (fun r _ => forall d, r = Ok d -> built_slide d)).
  { unfold GeneratePpt.build_slide.
    assert (Hbody : hd_error (match py_iter (GeneratePpt.bullets s) with
                              | Ok bs => GeneratePpt.add_bullets bs [GeneratePpt.empty_paragraph]
                              | Raise _ => [GeneratePpt.empty_paragraph]
                              end) = Some GeneratePpt.empty_paragraph).
    { destruct (py_iter _); [now apply add_bullets_head | reflexivity]. }
    apply wp_bind. destruct (truthy (GeneratePpt.image_path s)).
    - wp_step. destruct (image_ok e _ _).
      + do 2 wp_step. intros ? [= <-]. repeat split; cbn; [lia | exact Hbody].
      + do 3 wp_step. intros ? [= <-]. repeat split; cbn; [lia | exact Hbody].
    - do 2 wp_step. intros ? [= <-]. repeat split; cbn; [lia | exact Hbody]. }
  exact (wp_elim _ _ _ _ _ S H d eq_refl).
Qed.

Lemma mapM_Forall {A B} (f : A -> M B) (P : B -> Prop) (l : list A) :
  (forall a w b w', f a w = (Ok b, w') -> P b) ->
  forall w bs w', mapM f l w = (Ok bs, w') -> Forall P bs /\ length bs = length l.
Proof.
  intros Hf. induction l as [|a l IH]; intros w bs w'; cbn [mapM].
  - intros [= <- _]. now split.
  - unfold bind at 1. destruct (f a w) as [[b|ex] w1] eqn:Ea; [| discriminate].
    unfold bind at 1. destruct (mapM f l w1) as [[bs'|ex] w2] eqn:El; [| discriminate].
    intros [= <- _]. destruct (IH _ _ _ El) as [HF HL].
    split; [constructor; [exact (Hf _ _ _ _ Ea) | exact HF] | cbn; now rewrite HL].
Qed.

(** In a run that succeeds, the log describes the deck that was saved:
    [slides_generated] is the number of slides of the file at the returned
    path, every slide of which uses layout 1, carries at most one picture and
    has the cleared first paragraph in its body; [prompt] and [style] are the
    arguments, and the resolved slide count and theme are recorded. *)
Theorem log_describes_the_deck :
  forall (e : env) prompt style requested theme tags w path log w',
    GeneratePpt.generate_presentation e prompt style requested theme tags w
    = (Ok (path, log), w') ->
    exists prs,
      fs w' !! path = Some (PptxFile prs)
      /\ Forall built_slide prs
      /\ field "slides_generated" log = Some (VInt (Z.of_nat (length prs)))
      /\ field "prompt" log = Some (VStr prompt)
      /\ field "style" log = Some (VStr style)
      /\ field "requested_num_slides" log
         = Some (opt_value VInt (fst (GeneratePpt.resolve_intent prompt requested theme)))
      /\ field "theme" log
         = Some (opt_value VStr (snd (GeneratePpt.resolve_intent prompt requested theme))).
Proof.
  intros e prompt style requested theme tags w path log w' Hrun.
  pose proof (generate_presentation_spec e prompt style requested theme tags w) as S.
  apply (wp_elim _ _ _ _ _ S) in Hrun as [_ P].
  destruct P as (t1 & t2 & ts & prs & slides & plan & entries & dc & rt
                 & wa & wb & wc & wd & _ & _ & _ & _ & Hdoc
                 & _ & Hfile & _ & ->).
  exists prs. split; [exact Hfile |].
  destruct (mapM_Forall (GeneratePpt.build_slide e) built_slide slides
              (build_slide_built e) _ _ _ Hdoc) as [HF HL].
  split; [exact HF |]. rewrite HL. repeat split; reflexivity.
Qed.

Lemma log_describes_the_deck_witness :
  exists path log w' prs,
    GeneratePpt.generate_presentation sample_env
      "Create a 5 slide modern deck" "Any" None (Some "Dark") (Some []) empty_world
    = (Ok (path, log), w')
    /\ fs w' !! path = Some (PptxFile prs)
    /\ field "slides_generated" log = Some (VInt (Z.of_nat (length prs)))
    /\ field "theme" log = Some (VStr "Dark")
    /\ field "requested_num_slides" log = Some (VInt 5).
Proof.
  destruct (GeneratePpt.generate_presentation sample_env
              "Create a 5 slide modern deck" "Any" None (Some "Dark") (Some []) empty_world)
    as [[[path log]|ex] w'] eqn:Hrun.
  - destruct (log_describes_the_deck _ _ _ _ _ _ _ _ _ _ Hrun)
      as (prs & Hf & _ & Hs & _ & _ & Hn & Ht).
    exists path, log, w', prs. repeat split; assumption.
  - exfalso. vm_compute in Hrun. discriminate.
Defined.

(** No run of the pipeline touches the vector collection or turns the
    clock back. *)
Lemma generation_frame (e : env) prompt style requested theme tags (w : world) :
  wp (GeneratePpt.generate_presentation e prompt style requested theme tags) w
     (fun r w' => collection w' = collection w /\ (clock w <= clock w')%nat).
Proof.
  unfold GeneratePpt.generate_presentation.
  destruct (GeneratePpt.resolve_intent prompt requested theme) as [n th].
  wp_step. wp_step.
  destruct (semantic_search e (clock w) prompt 10 tags) as [found|ex]; [| frame].
  apply wp_bind. eapply wp_conseq; [apply gather_spec |].
  intros [[dc rt]|ex] w1 _ ->; [| frame].
  wp_step.
  apply wp_bind. eapply wp_conseq; [apply call_llm_plan_spec |].
  intros r w2 _ [Hq2 (plan & -> & _)].
  wp_step. destruct (py_iter plan) as [entries|ex]; [| frame].
  apply wp_bind. eapply wp_conseq.
  { apply (mapM_spec (GeneratePpt.make_slide e) local_only). intros a w0.
    apply make_slide_spec. }
  intros [slides|ex] w3 _ [Hl3 _]; [| frame].
  apply wp_bind. eapply wp_conseq; [apply build_ppt_spec |].
  intros [out|ex] w4 _ [Hl4 _]; [| frame].
  wp_step.
  apply wp_bind. eapply wp_conseq; [apply upload_ppt_to_blob_spec |].
  intros [remote|ex] w5 _ [Hr5 _]; [| frame].
  wp_step.
  apply wp_bind. eapply wp_conseq; [apply upload_json_to_blob_spec |].
  intros [remote'|ex] w6 _ [Hr6 _]; [wp_step |]; frame.
Qed.

(** The fallback replaces only a falsy plan.  When the model's answer
    parses to a non-empty JSON object instead of an array, the loop over the
    plan meets its keys, which have no [get]: [generate_presentation] raises
    and nothing is published. *)
Theorem object_plan_is_not_replaced :
  forall (e : env) (d : list (string * value)) prompt style requested theme tags w,
    d <> [] ->
    (forall t messages, GeneratePpt.plan_attempt e t messages = Ok (VDict d)) ->
    (exists ex, fst (GeneratePpt.generate_presentation e prompt style
                       requested theme tags w) = Raise ex)
    /\ generated (snd (GeneratePpt.generate_presentation e prompt style
                         requested theme tags w)) = generated w.
Proof.
  intros e d prompt style requested theme tags w Hd Hplan.
  change (wp (GeneratePpt.generate_presentation e prompt style requested theme tags) w
             (fun r w' => (exists ex, r = Raise ex) /\ generated w' = generated w)).
  unfold GeneratePpt.generate_presentation.
  destruct (GeneratePpt.resolve_intent prompt requested theme) as [n th].
  wp_step. wp_step.
  destruct (semantic_search e (clock w) prompt 10 tags) as [found|ex];
    [| split; [eauto | reflexivity]].
  apply wp_bind. eapply wp_conseq; [apply gather_spec |].
  intros [[dc rt]|ex] w1 _ ->; [| split; [eauto | reflexivity]].
  wp_step.
  apply wp_bind. eapply wp_conseq; [apply call_llm_plan_spec |].
  intros r w2 _ [Hq2 (plan & -> & _ & Hgood)].
  rewrite (Hgood (VDict d)); [| apply Hplan | now destruct d].
  wp_step. destruct d as [|[k v] d]; [congruence |].
  cbn [py_iter map mapM fst]. apply wp_bind, wp_bind.
  unfold GeneratePpt.make_slide. cbn [py_get]. wp_step.
  split; [eauto | frame].
Qed.

Lemma object_plan_is_not_replaced_witness :
  let e := with_plan (VDict [("title", VStr "Roadmap")]) sample_env in
  (forall t messages,
      GeneratePpt.plan_attempt e t messages = Ok (VDict [("title", VStr "Roadmap")]))
  /\ (exists ex, fst (GeneratePpt.generate_presentation e "Roadmap deck" "Plan"
                        None None (Some ["Plan"]) empty_world) = Raise ex)
  /\ generated (snd (GeneratePpt.generate_presentation e "Roadmap deck" "Plan"
                       None None (Some ["Plan"]) empty_world)) = ∅.
Proof.
  intros e.
  assert (H : forall t messages,
             GeneratePpt.plan_attempt e t messages = Ok (VDict [("title", VStr "Roadmap")]))
    by reflexivity.
  split; [exact H |].
  exact (object_plan_is_not_replaced e [("title", VStr "Roadmap")] "Roadmap deck" "Plan"
           None None (Some ["Plan"]) empty_world ltac:(discriminate) H).
Defined.

(** What retrieval gathers from the hits is bounded by their number: at most
    one design document and one snippet per hit.  A text snippet is never
    empty and never longer than 500 characters; every design document is
    the content of a JSON file of the local cache; and gathering changes
    nothing in the world. *)
Theorem gathered_context_is_bounded :
  forall (refs dc rt : list value) (w w' : world),
    GeneratePpt.gather refs ([], []) w = (Ok (dc, rt), w') ->
    w' = w
    /\ (length dc <= length refs)%nat
    /\ (length rt <= length refs)%nat
    /\ (forall s, In (VStr s) rt -> s <> "" /\ (String.length s <= 500)%nat)
    /\ (forall v, In v dc -> exists p, fs w !! p = Some (JsonFile v)).
Proof.
  intros refs dc rt w w' Hrun.
  assert (G : forall refs dc0 rt0,
             wp (GeneratePpt.gather refs (dc0, rt0)) w
                (fun r w' =>
                   w' = w /\
                   forall dc rt, r = Ok (dc, rt) ->
                     (length dc <= length dc0 + length refs)%nat
                     /\ (length rt <= length rt0 + length refs)%nat
                     /\ (forall s, In (VStr s) rt ->
                                   In (VStr s) rt0
                                   \/ (s <> "" /\ (String.length s <= 500)%nat))
                     /\ (forall v, In v dc ->
                                   In v dc0 \/ exists p, fs w !! p = Some (JsonFile v)))).
  { clear. intros refs. induction refs as [|r refs IH]; intros dc0 rt0;
      cbn [GeneratePpt.gather].
    - wp_step. split; [reflexivity |]. intros dc rt [= <- <-].
      repeat split; try lia; auto.
    - assert (K : forall dc1 rt1,
                 (length dc1 <= S (length dc0))%nat ->
                 (length rt1 <= S (length rt0))%nat ->
                 (forall s, In (VStr s) rt1 ->
                            In (VStr s) rt0 \/ (s <> "" /\ (String.length s <= 500)%nat)) ->
                 (forall v, In v dc1 ->
                            In v dc0 \/ exists p, fs w !! p = Some (JsonFile v)) ->
                 wp (GeneratePpt.gather refs (dc1, rt1)) w
                    (fun res w' =>
                       w' = w /\
                       forall dc rt, res = Ok (dc, rt) ->
                         (length dc <= length dc0 + length (r :: refs))%nat
                         /\ (length rt <= length rt0 + length (r :: refs))%nat
                         /\ (forall s, In (VStr s) rt ->
                                       In (VStr s) rt0
                                       \/ (s <> "" /\ (String.length s <= 500)%nat))
                         /\ (forall v, In v dc ->
                                       In v dc0
                                       \/ exists p, fs w !! p = Some (JsonFile v)))).
      { intros dc1 rt1 L1 L2 S1 D1. eapply wp_conseq; [apply IH |].
        intros res w1 _ [-> H]. split; [reflexivity |].
        intros dc rt ->. destruct (H dc rt eq_refl) as (A & B & C & D).
        cbn [length]. split; [lia |]. split; [lia |]. split.
        - intros s Hs. destruct (C s Hs) as [Hin | Hnew]; [now apply S1 | now right].
        - intros v Hv. destruct (D v Hv) as [Hin | Hnew]; [now apply D1 | now right]. }
      apply wp_bind. unfold GeneratePpt.gather_ref.
      wp_step. destruct (py_get r "ppt_name" VNone) as [ppt_name|];
        [| split; [reflexivity | discriminate]].
      wp_step. destruct (py_get r "text" VNone) as [txt|];
        [| split; [reflexivity | discriminate]].
      wp_step. destruct (py_slice_to 500 (py_or txt (VStr ""))) as [snip|] eqn:Es;
        [| split; [reflexivity | discriminate]].
      assert (Hsnip : forall s, In (VStr s)
                        (if truthy snip then rt0 ++ [snip] else rt0) ->
                      In (VStr s) rt0 \/ (s <> "" /\ (String.length s <= 500)%nat)).
      { intros s. destruct (truthy snip) eqn:T; [| now left].
        rewrite in_app_iff. intros [Hin | [-> | []]]; [now left |]. right.
        split; [intros ->; discriminate |].
        unfold py_slice_to in Es. destruct (py_or txt (VStr "")); try discriminate.
        assert (E' : s = Str.take 500 s0) by congruence.
        rewrite E', length_take. lia. }
      assert (Hlen : (length (if truthy snip then rt0 ++ [snip] else rt0)
                      <= S (length rt0))%nat).
      { destruct (truthy snip); [rewrite length_app; cbn; lia | lia]. }
      apply wp_bind.
      destruct ppt_name; try (apply wp_raise; split; [reflexivity | discriminate]).
      apply wp_ret. wp_step.
      destruct (bool_decide _).
      + apply wp_try, wp_bind, wp_read_file.
        * intros f Hf.
          destruct f; try (apply wp_raise, wp_ret, K; auto).
          apply wp_ret, K; auto.
          -- rewrite length_app. cbn. lia.
          -- intros v0. rewrite in_app_iff. intros [Hin | [<- | []]]; [now left |].
             right. eauto.
        * intros _. apply wp_ret, K; auto.
      + wp_step. apply K; auto. }
  destruct (wp_elim _ _ _ _ _ (G refs [] []) Hrun) as [-> H].
  split; [reflexivity |].
  destruct (H dc rt eq_refl) as (A & B & C & D). cbn in A, B.
  split; [exact A |]. split; [exact B |]. split.
  - intros s Hs. destruct (C s Hs) as [[] | Hnew]. exact Hnew.
  - intros v Hv. destruct (D v Hv) as [[] | Hnew]. exact Hnew.
Qed.

Lemma gathered_context_is_bounded_witness :
  let w := set_fs {[ "design_jsons/deck.pptx.json" := JsonFile (VStr "design") ]}
             empty_world in
  let refs := [VDict [("ppt_name", VStr "decks/deck.pptx"); ("text", VStr "Results")];
               VDict [("ppt_name", VStr "other.pptx"); ("text", VStr "")]] in
  GeneratePpt.gather refs ([], []) w = (Ok ([VStr "design"], [VStr "Results"]), w)
  /\ (length [VStr "design"] <= length refs)%nat
  /\ "Results" <> "".
Proof.
  intros w refs.
  assert (Hrun : GeneratePpt.gather refs ([], []) w
                 = (Ok ([VStr "design"], [VStr "Results"]), w)) by (vm_compute; reflexivity).
  split; [exact Hrun |].
  destruct (gathered_context_is_bounded _ _ _ _ _ Hrun) as (_ & Hd & _ & Hs & _).
  split; [exact Hd |]. exact (proj1 (Hs "Results" ltac:(now left))).
Defined.

(** The system message has a bounded size: whatever the amount of retrieved
    context, it is never longer than the fixed instructions, the theme and
    6071 further characters, because the design context is cut at 4000
    characters and the reference snippets at 2000. *)
Theorem system_prompt_is_bounded :
  forall (e : env) (design_context references_text : list value) (theme : option string),
    Z.of_nat (String.length
                (GeneratePpt.system_prompt e design_context references_text theme))
    <= 403 + Z.of_nat (String.length (default "" theme)) + 6071
    /\ 403 <= Z.of_nat (String.length
                          (GeneratePpt.system_prompt e design_context references_text
                             theme)).
Proof.
  intros e dc rt th. unfold GeneratePpt.system_prompt.
  assert (Hh : String.length GeneratePpt.sys_prompt_head = 403%nat) by reflexivity.
  assert (Hn : String.length GeneratePpt.nl = 1%nat) by reflexivity.
  pose proof (length_take 4000 (json_dumps e (VList dc))) as H1.
  pose proof (length_take 2000 (json_dumps e (VList rt))) as H2.
  destruct (truthy th); rewrite !length_app_s, ?Hh, ?Hn, H1, H2; cbn [String.length]; lia.
Qed.

(** ** The storage gateway *)

(** Uploading under a name that is already taken replaces the object: after
    two uploads under one name the container holds the second payload there,
    every other name is as it was before the first upload, the local files
    are untouched, and the call answers with [container/name]; an upload
    that raises leaves the container as it was. *)
Theorem upload_overwrites_by_name :
  forall (e : env) (a b : file) (name : string) (w w1 w2 : world) r1 r2,
    AzureBlobUtils.upload_json_to_blob e a name w = (Ok r1, w1) ->
    AzureBlobUtils.upload_json_to_blob e b name w1 = (r2, w2) ->
    match r2 with
    | Ok path =>
        path = GENERATED_CONTAINER e +:+ "/" +:+ name
        /\ generated w2 !! name = Some b
    | Raise _ => generated w2 !! name = Some a
    end
    /\ (forall other, other <> name -> generated w2 !! other = generated w !! other)
    /\ fs w2 = fs w.
Proof.
  intros e a b name w w1 w2 r1 r2 H1 H2.
  assert (S : forall d w0,
             wp (AzureBlobUtils.upload_json_to_blob e d name) w0
                (fun r w' =>
                   fs w' = fs w0 /\
                   match r with
                   | Ok path => path = GENERATED_CONTAINER e +:+ "/" +:+ name
                                /\ generated w' = <[name := d]> (generated w0)
                   | Raise _ => generated w' = generated w0
                   end)).
  { intros d w0. unfold AzureBlobUtils.upload_json_to_blob, AzureBlobUtils.upload_blob.
    apply wp_bind. do 2 wp_step. cbn [clock set_clock set_trace].
    destruct (upload_ok e (clock w0) name).
    - unfold wp at 1. cbn [fst snd]. do 2 wp_step. cbn. now repeat split.
    - wp_step. cbn. now split. }
  destruct (wp_elim _ _ _ _ _ (S a w) H1) as (F1 & _ & G1).
  pose proof (wp_elim _ _ _ _ _ (S b w1) H2) as (F2 & G2).
  split; [| split].
  - destruct r2 as [path|ex].
    + destruct G2 as [-> G2]. split; [reflexivity |]. rewrite G2. apply lookup_insert_eq.
    + rewrite G2, G1. apply lookup_insert_eq.
  - intros other Hne.
    destruct r2 as [path|ex]; [destruct G2 as [_ G2] |]; rewrite G2.
    + rewrite lookup_insert_ne by congruence. rewrite G1.
      now rewrite lookup_insert_ne by congruence.
    + rewrite G1. now rewrite lookup_insert_ne by congruence.
  - congruence.
Qed.

Lemma upload_overwrites_by_name_witness :
  exists w1 w2 r1,
    AzureBlobUtils.upload_json_to_blob sample_env (RawFile "A") "x.pptx" empty_world
    = (Ok r1, w1)
    /\ AzureBlobUtils.upload_json_to_blob sample_env (RawFile "B") "x.pptx" w1
       = (Ok "generated-presentations/x.pptx", w2)
    /\ generated w2 !! "x.pptx" = Some (RawFile "B")
    /\ generated w2 !! "y.pptx" = None.
Proof.
  destruct (AzureBlobUtils.upload_json_to_blob sample_env (RawFile "A") "x.pptx"
              empty_world) as [[r1|ex] w1] eqn:H1; [| vm_compute in H1; discriminate].
  destruct (AzureBlobUtils.upload_json_to_blob sample_env (RawFile "B") "x.pptx" w1)
    as [r2 w2] eqn:H2.
  pose proof (upload_overwrites_by_name _ _ _ _ _ _ _ _ _ H1 H2) as (Hr & Ho & _).
  assert (E : r2 = Ok "generated-presentations/x.pptx").
  { unfold AzureBlobUtils.upload_json_to_blob, AzureBlobUtils.upload_blob in H2.
    vm_compute in H1. injection H1 as _ <-. vm_compute in H2. congruence. }
  subst r2. exists w1, w2, r1. split; [reflexivity |]. split; [exact H2 |].
  split; [exact (proj2 Hr) |].
  rewrite (Ho "y.pptx") by discriminate. reflexivity.
Defined.

Lemma list_generated_presentations_spec (list_ok : nat -> bool) (w : world) :
  wp (list_generated_presentations (Ok tt) list_ok) w
     (fun r w' =>
        exists names,
          r = Ok names
          /\ (fs w' = fs w /\ generated w' = generated w /\ collection w' = collection w
              /\ if list_ok (clock w)
                 then NoDup names /\ forall n, n ∈ names <-> is_Some (generated w !! n)
                 else names = [])).
Proof.
  unfold list_generated_presentations. wp_step. apply wp_try. wp_step.
  cbn [clock set_clock].
  destruct (list_ok (clock w)).
  - unfold wp. cbn [fst snd]. eexists; split; [reflexivity |]. cbn.
    repeat split; try reflexivity.
    + apply NoDup_fst_map_to_list.
    + intros Hn. apply list_elem_of_fmap in Hn as ([k v] & -> & Hkv).
      apply elem_of_map_to_list in Hkv. now exists v.
    + intros [v Hv]. apply list_elem_of_fmap. exists (n, v). split; [reflexivity |].
      now apply elem_of_map_to_list.
  - do 3 wp_step. eexists; split; [reflexivity |]. cbn. tauto.
Qed.

(** Listing the generated artifacts raises exactly when the client cannot
    be built from the connection string, which happens before the [try];
    that exception leaves the function and nothing has changed.  With a
    client, listing does not raise and changes nothing but the clock and the
    log: when the store answers, the list holds exactly the names of the
    objects in the container, each once; when it does not, the list is
    empty. *)
Theorem listing_fails_only_at_the_client :
  forall (client : result unit) (list_ok : nat -> bool) (w : world),
    match client with
    | Raise ex => list_generated_presentations client list_ok w = (Raise ex, w)
    | Ok _ =>
        exists names w',
          list_generated_presentations client list_ok w = (Ok names, w')
          /\ fs w' = fs w /\ generated w' = generated w
          /\ collection w' = collection w
          /\ if list_ok (clock w)
             then NoDup names /\ forall n, n ∈ names <-> is_Some (generated w !! n)
             else names = []
    end.
Proof.
  intros [[]|ex] list_ok w; [| reflexivity].
  apply (wp_ok (list_generated_presentations (Ok tt) list_ok) w
           (fun names w' =>
              fs w' = fs w /\ generated w' = generated w /\ collection w' = collection w
              /\ if list_ok (clock w)
                 then NoDup names /\ forall n, n ∈ names <-> is_Some (generated w !! n)
                 else names = [])).
  apply list_generated_presentations_spec.
Qed.

(** After a run that succeeds, a listing that the store answers shows both
    the deck and its log: the side panel lists the log objects as well.
    (The client of the listing is built from the connection string the
    uploads of the run were made with.) *)
Theorem listing_shows_deck_and_log :
  forall (e : env) prompt style requested theme tags w path log w' list_ok,
    GeneratePpt.generate_presentation e prompt style requested theme tags w
    = (Ok (path, log), w') ->
    list_ok (clock w') = true ->
    exists fname names,
      field "ppt_file" log = Some (VStr fname)
      /\ fst (list_generated_presentations (Ok tt) list_ok w') = Ok names
      /\ fname ∈ names
      /\ ("logs/" +:+ fname +:+ ".json") ∈ names.
Proof.
  intros e prompt style requested theme tags w path log w' list_ok Hrun Hok.
  pose proof (generate_presentation_spec e prompt style requested theme tags w) as S.
  apply (wp_elim _ _ _ _ _ S) in Hrun as [_ P].
  destruct P as (t1 & t2 & ts & prs & slides & plan & entries & dc & rt
                 & wa & wb & wc & wd & _ & _ & _ & _ & _ & _ & _ & Hgen & ->).
  pose proof (list_generated_presentations_spec list_ok w') as L. unfold wp in L.
  destruct L as (names & Hl & _ & _ & _ & Hn).
  rewrite Hok in Hn. destruct Hn as [_ Hn].
  eexists _, names. split; [reflexivity |]. split; [now rewrite Hl |].
  split; apply Hn; rewrite Hgen.
  - rewrite lookup_insert_ne by apply log_key_not_deck.
    rewrite lookup_insert_eq. eauto.
  - rewrite lookup_insert_eq. eauto.
Qed.

Lemma listing_shows_deck_and_log_witness :
  exists path log w' names,
    GeneratePpt.generate_presentation sample_env
      "Create a 5 slide modern deck" "Any" None None (Some []) empty_world
    = (Ok (path, log), w')
    /\ fst (list_generated_presentations (Ok tt) (fun _ => true) w') = Ok names
    /\ "generated_1715609f.pptx" ∈ names
    /\ "logs/generated_1715609f.pptx.json" ∈ names.
Proof.
  destruct (GeneratePpt.generate_presentation sample_env
              "Create a 5 slide modern deck" "Any" None None (Some []) empty_world)
    as [[[path log]|ex] w'] eqn:Hrun; [| exfalso; vm_compute in Hrun; discriminate].
  destruct (listing_shows_deck_and_log _ _ _ _ _ _ _ _ _ _ (fun _ => true) Hrun eq_refl)
    as (fname & names & Hf & Hl & H1 & H2).
  exists path, log, w', names. split; [reflexivity |]. split; [exact Hl |].
  assert (E : fname = "generated_1715609f.pptx").
  { vm_compute in Hrun. injection Hrun as _ <- _. cbn in Hf. congruence. }
  subst fname. split; [exact H1 | exact H2].
Defined.

(** ** The submit handler *)

Lemma ishex_not_slash (s : string) : Str.all ishex s = true -> Str.contains "/" s = false.
Proof.
  induction s as [|c s IH]; [reflexivity |].
  cbn [Str.all]. intros H. apply andb_prop in H as [Hc Hs].
  rewrite contains_slash_cons, (IH Hs).
  destruct (Ascii.eqb_spec "/" c) as [<-|_]; [discriminate Hc | reflexivity].
Qed.

(** The submit handler never raises, never touches the vector collection
    and always ends with the error banner.  When the pipeline raises, the
    banner carries the pipeline's exception.  When the pipeline returns, the
    deck at the returned path is offered for download under its base name
    [generated_presentation_<8 hex>.pptx], the success status and the
    heading of the previews are shown; then slicing the slide collection
    raises, so no preview is shown, the
    failure is logged as a failed generation and the banner carries the
    message of the attribute error.  Either way the handler leaves files
    and container as the pipeline left them. *)
Theorem submit_always_ends_with_the_error_banner :
  forall (e : env) (prompt : string) (ph : App.phase) (w : world),
    let w0 := set_trace (EvProgress 20 :: EvStatus "Generating presentation..."
                         :: EvProgress 0 :: trace w) w in
    let run := App.on_submit e prompt ph w in
    fst run = Ok tt
    /\ collection (snd run) = collection w
    /\ match GeneratePpt.generate_presentation e prompt (App.label ph) None None
               (Some (App.tags_of (App.label ph))) w0 with
       | (Raise ex, w1) =>
           trace (snd run)
           = EvError ("Error: " +:+ exn_msg ex)
             :: EvLog EXCEPTION "Generation failed" :: trace w1
           /\ fs (snd run) = fs w1 /\ generated (snd run) = generated w1
       | (Ok (path, _), w1) =>
           exists prs t1,
             fs w1 !! path = Some (PptxFile prs)
             /\ Path.basename path = "generated_presentation_" +:+ hex8 e t1 +:+ ".pptx"
             /\ trace (snd run)
                = EvError "Error: 'list' object has no attribute 'rId'"
                  :: EvLog EXCEPTION "Generation failed"
                  :: EvSubheader "Slide previews"
                  :: EvStatus "Presentation generated successfully."
                  :: EvProgress 100
                  :: EvDownloadButton (Path.basename path) (PptxFile prs)
                  :: EvStatus "Done. Preparing preview..."
                  :: EvProgress 90
                  :: trace w1
             /\ fs (snd run) = fs w1 /\ generated (snd run) = generated w1
       end.
Proof.
  intros e prompt ph w w0 run. subst run.
  change (wp (App.on_submit e prompt ph) w
            (fun r w' =>
               r = Ok tt /\ collection w' = collection w
               /\ match GeneratePpt.generate_presentation e prompt (App.label ph) None None
                          (Some (App.tags_of (App.label ph))) w0 with
                  | (Raise ex, w1) =>
                      trace w'
                      = EvError ("Error: " +:+ exn_msg ex)
                        :: EvLog EXCEPTION "Generation failed" :: trace w1
                      /\ fs w' = fs w1 /\ generated w' = generated w1
                  | (Ok (path, _), w1) =>
                      exists prs t1,
                        fs w1 !! path = Some (PptxFile prs)
                        /\ Path.basename path
                           = "generated_presentation_" +:+ hex8 e t1 +:+ ".pptx"
                        /\ trace w'
                           = EvError "Error: 'list' object has no attribute 'rId'"
                             :: EvLog EXCEPTION "Generation failed"
                             :: EvSubheader "Slide previews"
                             :: EvStatus "Presentation generated successfully."
                             :: EvProgress 100
                             :: EvDownloadButton (Path.basename path) (PptxFile prs)
                             :: EvStatus "Done. Preparing preview..."
                             :: EvProgress 90
                             :: trace w1
                        /\ fs w' = fs w1 /\ generated w' = generated w1
                  end)).
  unfold App.on_submit. wp_step. apply wp_try. do 2 wp_step.
  change (set_trace _ (set_trace _ (set_trace _ w))) with w0.
  apply wp_bind.
  pose proof (generation_frame e prompt (App.label ph) None None
                (Some (App.tags_of (App.label ph))) w0) as F.
  eapply wp_conseq; [apply generate_presentation_spec |].
  intros r w1 Hrun [_ P]. rewrite Hrun.
  apply (wp_elim _ _ _ _ _ F) in Hrun as [Hcol _].
  assert (Hc0 : collection w0 = collection w) by reflexivity.
  destruct r as [[path log]|ex].
  - destruct P as (t1 & t2 & ts & prs & slides & plan & entries & dc & rt
                   & wa & wb & wc & wd & _ & _ & _ & _ & _ & Hpath & Hfile & _ & _).
    do 2 wp_step. apply wp_bind, wp_read_file; [| intros Hn; cbn in Hn; congruence].
    intros f Hf. cbn in Hf. rewrite Hfile in Hf. injection Hf as <-.
    do 6 wp_step. unfold App.slides_slice. do 2 wp_step.
    split; [reflexivity |]. split; [cbn; congruence |].
    exists prs, t1. split; [exact Hfile |]. split.
    { rewrite Hpath. apply basename_join, contains_slash_app; [reflexivity |].
      apply contains_slash_app; [apply ishex_not_slash, hex8_ishex | reflexivity]. }
    split; [reflexivity |]. split; reflexivity.
  - do 2 wp_step. cbn. split; [reflexivity |]. split; [congruence |]. now repeat split.
Qed.

(** ** More on design extraction *)
Section MoreExtraction.
Import DesignExtractor.

Lemma extract_shape_fields (ty : MSO_SHAPE_TYPE) (sh : shape) (d : slide_data) :
  shape_type sh = Ok ty ->
  let d' := fst (extract_shape ty sh d) in
  images d' = images d ++ map name (of_type PICTURE [sh])
  /\ tables d' = tables d ++ map name (of_type TABLE [sh])
  /\ charts d' = charts d ++ map chart_label (of_type CHART [sh])
  /\ shapes_ d' = shapes_ d ++ map auto_shape_type (of_type AUTO_SHAPE [sh])
  /\ accent_colors d' = accent_colors d ++ accents_of sh
  /\ text_fonts d' = text_fonts d ++ fonts_of sh
  /\ layout d' = layout d /\ background_color d' = background_color d.
Proof.
  intros Hty.
  unfold extract_shape, classify, of_type, has_type, accents_of, fonts_of, chart_label.
  cbn [List.filter]. rewrite Hty.
  destruct ty, (chart_type sh) eqn:Ec, (fill_rgb sh), (line_rgb sh),
    (run_fonts sh), (Str.contains "icon" (Str.lower (name sh)));
    cbn; rewrite ?Ec, ?app_nil_r, <- ?app_assoc; repeat split; reflexivity.
Qed.

Lemma of_type_cons (ty : MSO_SHAPE_TYPE) (sh : shape) (shs : list shape) :
  of_type ty (sh :: shs) = of_type ty [sh] ++ of_type ty shs.
Proof. unfold of_type. cbn. now destruct (has_type ty sh). Qed.

Lemma extract_shapes_fields (shs : list shape) (d : slide_data) (w : world) :
  forallb typed shs = true ->
  wp (extract_shapes shs d) w
     (fun r w' =>
        quiet w w' /\
        exists d', r = Ok d'
          /\ images d' = images d ++ map name (of_type PICTURE shs)
          /\ tables d' = tables d ++ map name (of_type TABLE shs)
          /\ charts d' = charts d ++ map chart_label (of_type CHART shs)
          /\ shapes_ d' = shapes_ d ++ map auto_shape_type (of_type AUTO_SHAPE shs)
          /\ accent_colors d' = accent_colors d ++ flat_map accents_of shs
          /\ text_fonts d' = text_fonts d ++ flat_map fonts_of shs
          /\ layout d' = layout d /\ background_color d' = background_color d).
Proof.
  revert d w; induction shs as [|sh shs IH]; intros d w Hall;
    cbn [extract_shapes forallb] in *.
  - wp_step. split; [reflexivity |]. exists d. cbn. rewrite !app_nil_r.
    repeat split; reflexivity.
  - apply andb_prop in Hall as [Hsh Hall]. unfold typed in Hsh.
    destruct (shape_type sh) as [ty|] eqn:Hty; [| discriminate].
    wp_step.
    pose proof (extract_shape_fields ty sh d Hty) as F. cbv zeta in F.
    destruct (extract_shape ty sh d) as [d1 fine]. cbn [fst] in F.
    destruct F as (F1 & F2 & F3 & F4 & F5 & F6 & F7 & F8).
    apply wp_bind.
    assert (Hgo : forall w1, quiet w w1 ->
              wp (extract_shapes shs d1) w1
                 (fun r w' =>
                    quiet w w' /\
                    exists d', r = Ok d'
                      /\ images d' = images d ++ map name (of_type PICTURE (sh :: shs))
                      /\ tables d' = tables d ++ map name (of_type TABLE (sh :: shs))
                      /\ charts d' = charts d ++ map chart_label (of_type CHART (sh :: shs))
                      /\ shapes_ d' = shapes_ d
                                      ++ map auto_shape_type (of_type AUTO_SHAPE (sh :: shs))
                      /\ accent_colors d' = accent_colors d ++ flat_map accents_of (sh :: shs)
                      /\ text_fonts d' = text_fonts d ++ flat_map fonts_of (sh :: shs)
                      /\ layout d' = layout d
                      /\ background_color d' = background_color d)).
    { intros w1 Hq. eapply wp_conseq; [apply (IH d1 w1 Hall) |].
      intros r w' _ [Hq' (d' & -> & G1 & G2 & G3 & G4 & G5 & G6 & G7 & G8)].
      split; [now transitivity w1 |]. exists d'. split; [reflexivity |].
      rewrite G1, G2, G3, G4, G5, G6, G7, G8, F1, F2, F3, F4, F5, F6, F7, F8.
      rewrite !(of_type_cons _ sh shs), !map_app, <- !app_assoc. cbn [flat_map].
      repeat split; reflexivity. }
    destruct fine; wp_step; apply Hgo; frame.
Qed.

Lemma extract_slide_elements_full (slide : src_slide) (w : world) :
  forallb typed (shapes slide) = true ->
  wp (extract_slide_elements slide) w
     (fun r w' =>
        quiet w w' /\
        exists d, r = Ok d
          /\ images d = map name (of_type PICTURE (shapes slide))
          /\ tables d = map name (of_type TABLE (shapes slide))
          /\ charts d = map chart_label (of_type CHART (shapes slide))
          /\ shapes_ d = map auto_shape_type (of_type AUTO_SHAPE (shapes slide))
          /\ accent_colors d = list_set (flat_map accents_of (shapes slide))
          /\ text_fonts d = list_set (flat_map fonts_of (shapes slide))).
Proof.
  intros Hall. unfold extract_slide_elements. apply wp_bind.
  eapply wp_conseq; [apply (extract_shapes_fields _ _ _ Hall) |].
  intros r w' _ [Hq (d' & -> & G1 & G2 & G3 & G4 & G5 & G6 & _)]. wp_step.
  split; [exact Hq |]. eexists; split; [reflexivity |]. cbn.
  rewrite G1, G2, G3, G4, G5, G6. repeat split; reflexivity.
Qed.

End MoreExtraction.

(** Shape-failure isolation, for the buckets.  Extracting a slide changes
    no file, container or collection.  When the type of every shape can be
    read it returns a record: pictures and tables are listed by name,
    auto-shapes by their shape kind and charts by their chart type (or
    [Chart] when it cannot be read), each bucket in shape order and whether
    or not the colours and fonts of the shape can be read.  The type of a
    shape is read outside the [try]: when it cannot be read the extraction
    raises and there is no record. *)
Theorem shapes_are_classified_despite_failures :
  forall (slide : src_slide) (w : world),
    (forallb typed (shapes slide) = true ->
     exists d w',
       DesignExtractor.extract_slide_elements slide w = (Ok d, w')
       /\ fs w' = fs w /\ generated w' = generated w /\ collection w' = collection w
       /\ DesignExtractor.images d = map name (of_type PICTURE (shapes slide))
       /\ DesignExtractor.tables d = map name (of_type TABLE (shapes slide))
       /\ DesignExtractor.charts d = map chart_label (of_type CHART (shapes slide))
       /\ DesignExtractor.shapes_ d
          = map auto_shape_type (of_type AUTO_SHAPE (shapes slide)))
    /\ (forallb typed (shapes slide) = false ->
        exists ex w',
          DesignExtractor.extract_slide_elements slide w = (Raise ex, w')
          /\ fs w' = fs w /\ generated w' = generated w
          /\ collection w' = collection w).
Proof.
  intros slide w. split; intros Hall.
  - apply wp_ok.
    eapply wp_conseq; [apply (extract_slide_elements_full _ _ Hall) |].
    intros r w' _ [Hq (d & -> & G1 & G2 & G3 & G4 & _)].
    exists d. split; [reflexivity |]. unfold quiet in Hq. tauto.
  - pose proof (extract_slide_elements_spec slide w) as S. unfold wp in S.
    rewrite Hall in S. destruct S as [Hq (ex & Hr)].
    exists ex, (snd (DesignExtractor.extract_slide_elements slide w)).
    split; [rewrite <- Hr; apply surjective_pairing |].
    unfold quiet in Hq. tauto.
Qed.

Lemma shapes_are_classified_despite_failures_witness :
  (exists d w',
      DesignExtractor.extract_slide_elements
        (slide_of [broken_fill_shape PICTURE "Logo"; plain_shape TABLE "Figures"])
        empty_world = (Ok d, w')
      /\ DesignExtractor.images d = ["Logo"]
      /\ DesignExtractor.tables d = ["Figures"])
  /\ exists ex w',
      DesignExtractor.extract_slide_elements
        (slide_of [plain_shape PICTURE "Logo"; unknown_shape "Ink 3"]) empty_world
      = (Raise ex, w').
Proof.
  split.
  - destruct (proj1 (shapes_are_classified_despite_failures
                       (slide_of [broken_fill_shape PICTURE "Logo";
                                  plain_shape TABLE "Figures"]) empty_world) eq_refl)
      as (d & w' & Hr & _ & _ & _ & Hi & Ht & _).
    exists d, w'. split; [exact Hr |]. split; [exact Hi | exact Ht].
  - destruct (proj2 (shapes_are_classified_despite_failures
                       (slide_of [plain_shape PICTURE "Logo"; unknown_shape "Ink 3"])
                       empty_world) eq_refl)
      as (ex & w' & Hr & _).
    exists ex, w'. exact Hr.
Defined.

(** Shape-failure isolation, for colours and fonts, on a slide the type of
    whose shapes can be read: the accent colours of the slide record hold
    every colour once; a colour is among them exactly when it is the
    readable fill of a shape, or the readable outline of a shape whose fill
    could be probed without raising.  The text fonts hold every font once,
    and only fonts with a non-empty name. *)
Theorem accent_colours_skip_failed_shapes :
  forall (slide : src_slide) (w : world),
    forallb typed (shapes slide) = true ->
    exists d,
      fst (DesignExtractor.extract_slide_elements slide w) = Ok d
      /\ NoDup (DesignExtractor.accent_colors d)
      /\ NoDup (DesignExtractor.text_fonts d)
      /\ (forall c,
             In c (DesignExtractor.accent_colors d) <->
             exists sh x,
               In sh (shapes slide) /\ c = "#" +:+ x
               /\ (fill_rgb sh = Found x
                   \/ (fill_rgb sh <> Broken /\ line_rgb sh = Found x)))
      /\ (forall f, In f (DesignExtractor.text_fonts d) -> f <> "").
Proof.
  intros slide w Hall.
  pose proof (extract_slide_elements_full slide w Hall) as S. unfold wp in S.
  destruct S as [_ (d & Hr & _ & _ & _ & _ & Ha & Hf)].
  exists d. split; [exact Hr |].
  rewrite Ha, Hf. unfold DesignExtractor.list_set.
  split; [apply NoDup_remove_dups |].
  split; [apply NoDup_remove_dups |].
  split.
  - intros c. rewrite <- list_elem_of_In, elem_of_remove_dups, list_elem_of_In, in_flat_map.
    split.
    + intros (sh & Hin & Hc). unfold accents_of in Hc.
      destruct (fill_rgb sh) as [|x|] eqn:Ef, (line_rgb sh) as [|y|] eqn:El;
        cbn in Hc; try contradiction;
        repeat (destruct Hc as [<- | Hc]; [eexists sh, _; split; [exact Hin |];
                                            split; [reflexivity |] |]);
        try contradiction.
      * right. split; [congruence | exact El].
      * now left.
      * now left.
      * right. split; [congruence | exact El].
      * now left.
    + intros (sh & x & Hin & -> & Hx). exists sh. split; [exact Hin |].
      unfold accents_of. destruct Hx as [-> | [Hnb ->]]; [now left |].
      destruct (fill_rgb sh); [now left | right; now left | contradiction].
  - intros f. rewrite <- list_elem_of_In, elem_of_remove_dups, list_elem_of_In, in_flat_map.
    intros (sh & _ & Hin). unfold fonts_of in Hin.
    assert (Hs : forall runs, In f (DesignExtractor.set_fonts runs) -> f <> "").
    { intros runs. unfold DesignExtractor.set_fonts.
      rewrite <- list_elem_of_In, list_elem_of_omap.
      intros ([n|] & _ & Hn); [| discriminate].
      destruct n; cbn in Hn; [discriminate |]. injection Hn as <-. discriminate. }
    destruct (fill_rgb sh) as [|?|], (line_rgb sh) as [|?|], (run_fonts sh) as [|runs|];
      try contradiction; exact (Hs runs Hin).
Qed.

Lemma accent_colours_skip_failed_shapes_witness :
  exists d,
    fst (DesignExtractor.extract_slide_elements
           (slide_of [coloured_shape (Found "FF0000") (Found "00FF00");
                      coloured_shape Broken (Found "0000FF");
                      coloured_shape (Found "FF0000") Broken]) empty_world) = Ok d
    /\ In "#FF0000" (DesignExtractor.accent_colors d)
    /\ In "#00FF00" (DesignExtractor.accent_colors d)
    /\ ~ In "#0000FF" (DesignExtractor.accent_colors d).
Proof.
  destruct (accent_colours_skip_failed_shapes
              (slide_of [coloured_shape (Found "FF0000") (Found "00FF00");
                         coloured_shape Broken (Found "0000FF");
                         coloured_shape (Found "FF0000") Broken]) empty_world eq_refl)
    as (d & Hr & _ & _ & Hc & _).
  exists d. split; [exact Hr |].
  split; [| split].
  - apply Hc. eexists _, "FF0000". split; [left; reflexivity |].
    split; [reflexivity | now left].
  - apply Hc. eexists _, "00FF00". split; [left; reflexivity |].
    split; [reflexivity |]. right. split; [discriminate | reflexivity].
  - intros Hin. apply Hc in Hin as (sh & x & Hsh & Hx & Hcol).
    change ("#" +:+ x) with (String "#" x) in Hx. injection Hx as <-.
    cbn in Hsh. destruct Hsh as [<- | [<- | [<- | []]]]; cbn in Hcol;
      destruct Hcol as [Hf | [Hnb Hl]]; congruence.
Defined.

(** ** The design record and the batch *)

Lemma wp_and {A} (m : M A) (w : world) (Q1 Q2 : result A -> world -> Prop) :
  wp m w Q1 -> wp m w Q2 -> wp m w (fun r w' => Q1 r w' /\ Q2 r w').
Proof. unfold wp. now split. Qed.

Section DesignRecord.
Variable e : env.
Import DesignExtractor.

Lemma extract_shapes_fetches (shs : list shape) (d : slide_data) (w : world) :
  wp (extract_shapes shs d) w (fun _ w' => fetches (trace w') = fetches (trace w)).
Proof.
  revert d w; induction shs as [|sh shs IH]; intros d w; cbn [extract_shapes].
  - now wp_step.
  - wp_step. destruct (shape_type sh) as [ty|ex]; [| reflexivity].
    destruct (extract_shape ty sh d) as [d1 [|]]; wp_step;
      (eapply wp_conseq; [apply IH | intros r w' _ H; exact H]).
Qed.

Lemma extract_slide_elements_fetches (slide : src_slide) (w : world) :
  wp (extract_slide_elements slide) w
     (fun _ w' => fetches (trace w') = fetches (trace w)).
Proof.
  unfold extract_slide_elements. apply wp_bind.
  eapply wp_conseq; [apply extract_shapes_fetches |].
  intros [d0|ex] w0 _ H; [wp_step |]; exact H.
Qed.

(** The loop over the slides stops, with the exception, at the first slide
    that has a shape whose type cannot be read. *)
Lemma extract_slides_from_spec (i : nat) (sls : list src_slide) (w : world) :
  wp (extract_slides_from i sls) w
     (fun r w' =>
        quiet w w' /\ fetches (trace w') = fetches (trace w) /\
        if forallb (fun sl => forallb typed (shapes sl)) sls
        then exists vs, r = Ok vs /\ length vs = length sls
               /\ forall k v, vs !! k = Some v ->
                    field "index" v = Some (VInt (Z.of_nat (i + k)))
                    /\ field "slide_number" v = Some (VInt (Z.of_nat (i + k) + 1))
        else exists ex, r = Raise ex).
Proof.
  revert i w; induction sls as [|sl sls IH]; intros i w;
    cbn [extract_slides_from forallb].
  - wp_step. split; [reflexivity |]. split; [reflexivity |].
    exists []. split; [reflexivity |]. split; [reflexivity |]. intros k v Hv. discriminate Hv.
  - apply wp_bind. eapply wp_conseq.
    { apply wp_and; [apply extract_slide_elements_spec |].
      apply extract_slide_elements_fetches. }
    intros r w1 _ [[Hq1 H1] Hf1].
    destruct (forallb typed (shapes sl)); cbn [andb].
    2:{ destruct H1 as (ex & ->). split; [exact Hq1 |]. split; [exact Hf1 | eauto]. }
    destruct H1 as (d & -> & _).
    apply wp_bind. eapply wp_conseq; [apply IH |].
    intros r w2 _ (Hq2 & Hf2 & H2).
    destruct (forallb _ sls).
    2:{ destruct H2 as (ex & ->). split; [now transitivity w1 |].
        split; [congruence | eauto]. }
    destruct H2 as (vs & -> & Hl & Hk).
    wp_step. split; [now transitivity w1 |]. split; [congruence |].
    eexists; split; [reflexivity |]. split; [cbn; now rewrite Hl |].
    intros [|k] v Hv; cbn in Hv.
    + injection Hv as <-. rewrite Nat.add_0_r. split; reflexivity.
    + replace (i + S k)%nat with (S i + k)%nat by lia. now apply Hk.
Qed.

Lemma extract_design_elements_spec (local_path : string) (w : world) :
  wp (extract_design_elements e local_path) w
     (fun r w' =>
        fs w' = fs w /\ generated w' = generated w /\ collection w' = collection w
        /\ (clock w <= clock w')%nat
        /\ fetches (trace w') = S (fetches (trace w))
        /\ match fs w !! local_path with
           | Some (DeckFile deck) =>
               if readable deck
               then exists rec vs,
                      r = Ok rec
                      /\ field "ppt_name" rec = Some (VStr (Path.basename local_path))
                      /\ field "slides" rec = Some (VList vs)
                      /\ length vs = length (slides deck)
                      /\ forall k v, vs !! k = Some v ->
                           field "index" v = Some (VInt (Z.of_nat k))
                           /\ field "slide_number" v = Some (VInt (Z.of_nat k + 1))
               else exists ex, r = Raise ex
           | _ => exists ex, r = Raise ex
           end).
Proof.
  unfold extract_design_elements. wp_step. apply wp_bind, wp_read_file.
  2:{ intros Hn. cbn in Hn |- *. rewrite Hn. repeat split; try lia. eauto. }
  intros f Hf. cbn [fs set_trace] in Hf. rewrite Hf.
  apply wp_bind.
  destruct f as [d|deck|v|b];
    try (apply wp_raise; cbn; repeat split; try lia; eauto).
  apply wp_ret.
  destruct (extract_fonts_and_layouts deck) as [fonts layouts].
  wp_step. apply wp_bind.
  eapply wp_conseq; [apply extract_slides_from_spec |].
  intros r w1 _ (Hq & Hfe & H). fold (readable deck) in H.
  unfold quiet in Hq. cbn in Hq, Hfe. destruct Hq as (Q1 & Q2 & Q3 & Q4).
  destruct (readable deck).
  - destruct H as (vs & -> & Hl & Hk). wp_step.
    split; [exact Q1 |]. split; [exact Q2 |]. split; [exact Q3 |]. split; [lia |].
    split; [exact Hfe |].
    eexists _, vs. split; [reflexivity |]. repeat split; try reflexivity; try exact Hl;
      apply (Hk k v H).
  - destruct H as (ex & ->).
    split; [exact Q1 |]. split; [exact Q2 |]. split; [exact Q3 |]. split; [lia |].
    split; [exact Hfe | eauto].
Qed.

End DesignRecord.

(** The design record of a deck the type of whose shapes can be read has
    one slide record per slide, in order, the k-th with [index] k and
    [slide_number] k + 1, and carries the base name of the file it was read
    from.  A deck with a shape whose type cannot be read gives no record:
    the exception leaves [extract_design_elements].  Either way no file,
    container or collection changes. *)
Theorem design_record_numbers_slides :
  forall (e : env) (local_path : string) (deck : src_deck) (w : world),
    fs w !! local_path = Some (DeckFile deck) ->
    (readable deck = true ->
     exists rec vs w',
       DesignExtractor.extract_design_elements e local_path w = (Ok rec, w')
       /\ fs w' = fs w /\ generated w' = generated w /\ collection w' = collection w
       /\ field "ppt_name" rec = Some (VStr (Path.basename local_path))
       /\ field "slides" rec = Some (VList vs)
       /\ length vs = length (slides deck)
       /\ forall k v, vs !! k = Some v ->
            field "index" v = Some (VInt (Z.of_nat k))
            /\ field "slide_number" v = Some (VInt (Z.of_nat k + 1)))
    /\ (readable deck = false ->
        exists ex w',
          DesignExtractor.extract_design_elements e local_path w = (Raise ex, w')
          /\ fs w' = fs w /\ generated w' = generated w
          /\ collection w' = collection w).
Proof.
  intros e local_path deck w Hf.
  pose proof (extract_design_elements_spec e local_path w) as S. unfold wp in S.
  rewrite Hf in S. destruct S as (F & G & C & _ & _ & S).
  split; intros Hrd; rewrite Hrd in S.
  - destruct S as (rec & vs & Hr & H1 & H2 & H3 & H4).
    exists rec, vs, (snd (DesignExtractor.extract_design_elements e local_path w)).
    split; [rewrite <- Hr; apply surjective_pairing |]. tauto.
  - destruct S as (ex & Hr).
    exists ex, (snd (DesignExtractor.extract_design_elements e local_path w)).
    split; [rewrite <- Hr; apply surjective_pairing |]. tauto.
Qed.

Lemma design_record_numbers_slides_witness :
  (let w := set_fs {[ "/tmp/decks_two.pptx" := DeckFile two_slide_deck ]} empty_world in
   exists rec vs w',
     DesignExtractor.extract_design_elements sample_env "/tmp/decks_two.pptx" w
     = (Ok rec, w')
     /\ field "ppt_name" rec = Some (VStr "decks_two.pptx")
     /\ length vs = 2%nat
     /\ field "slides" rec = Some (VList vs))
  /\ (let w := set_fs {[ "/tmp/ink.pptx" := DeckFile unreadable_deck ]} empty_world in
      exists ex w',
        DesignExtractor.extract_design_elements sample_env "/tmp/ink.pptx" w
        = (Raise ex, w')).
Proof.
  split; intros w.
  - destruct (proj1 (design_record_numbers_slides sample_env "/tmp/decks_two.pptx"
                       two_slide_deck w eq_refl) eq_refl)
      as (rec & vs & w' & Hr & _ & _ & _ & Hn & Hs & Hl & _).
    exists rec, vs, w'. split; [exact Hr |]. split; [exact Hn |].
    split; [exact Hl | exact Hs].
  - destruct (proj2 (design_record_numbers_slides sample_env "/tmp/ink.pptx"
                       unreadable_deck w eq_refl) eq_refl)
      as (ex & w' & Hr & _).
    exists ex, w'. exact Hr.
Defined.

Section Batch.
Variable e : env.
Import DesignExtractor.

Lemma download_to_frame (blob_name path : string) (w : world) :
  wp (download_to e blob_name path) w
     (fun _ w' => local_only w w'
                  /\ (fetches (trace w') <= S (fetches (trace w)))%nat).
Proof.
  unfold download_to. apply wp_bind, wp_write_file; intros _; [| split; [frame | cbn; lia]].
  do 3 wp_step. cbn [clock set_clock set_fs set_trace].
  destruct (download_blob e _ blob_name) as [data|ex]; [| split; [frame | cbn; lia]].
  apply wp_write_file; intros _; (split; [frame | cbn; lia]).
Qed.

Lemma process_blob_total (blob_name : string) (w : world) :
  wp (process_blob e blob_name) w
     (fun r w' => r = Ok tt /\ local_only w w'
                  /\ (fetches (trace w') <= fetches (trace w) + 2)%nat).
Proof.
  unfold process_blob, ppt_already_processed. wp_step.
  destruct (bool_decide _); [wp_step; split; [reflexivity | split; [frame | cbn in *; lia]] |].
  wp_step. apply wp_bind, wp_try, wp_bind.
  eapply wp_conseq; [apply download_to_frame |].
  intros [[]|ex] w1 _ [Hl1 Hf1]; cbn [trace set_trace] in Hf1.
  - wp_step. cbv beta iota. apply wp_try, wp_bind.
    eapply wp_conseq; [apply extract_design_elements_spec |].
    intros [rec|ex] w2 _ (F2 & G2 & C2 & K2 & T2 & _).
    + apply wp_bind, wp_write_file; intros _;
        [| wp_step; split; [reflexivity | split; [frame | cbn in *; lia]]].
      apply wp_bind, wp_write_file; intros _;
        [| wp_step; split; [reflexivity | split; [frame | cbn in *; lia]]].
      wp_step. split; [reflexivity | split; [frame | cbn in *; lia]].
    + wp_step. split; [reflexivity | split; [frame | cbn in *; lia]].
  - do 2 wp_step. cbv beta iota. wp_step.
    split; [reflexivity | split; [frame | cbn in *; lia]].
Qed.

Lemma forM_spec {A} (f : A -> M unit) (R : world -> world -> Prop) `{!PreOrder R}
      (l : list A) (w : world) :
  (forall a w0, wp (f a) w0 (fun r w' => r = Ok tt /\ R w0 w')) ->
  wp (forM_ l f) w (fun r w' => r = Ok tt /\ R w w').
Proof.
  intros Hf. revert w; induction l as [|a l IH]; intros w; cbn [forM_].
  - wp_step. now split.
  - apply wp_bind. eapply wp_conseq; [apply Hf |].
    intros r w1 _ [-> H1]. eapply wp_conseq; [apply IH |].
    intros r w2 _ [-> H2]. split; [reflexivity | now transitivity w1].
Qed.

End Batch.

(** One deck cannot stop the batch: the design extraction of a deck returns
    normally whatever fails (the disk, the download, the parsing, the
    write), touches neither the container nor the collection, and downloads
    and extracts at most once. *)
Theorem extraction_of_a_deck_never_raises :
  forall (e : env) (blob_name : string) (w : world),
    fst (DesignExtractor.process_blob e blob_name w) = Ok tt
    /\ generated (snd (DesignExtractor.process_blob e blob_name w)) = generated w
    /\ collection (snd (DesignExtractor.process_blob e blob_name w)) = collection w
    /\ (fetches (trace (snd (DesignExtractor.process_blob e blob_name w)))
        <= fetches (trace w) + 2)%nat.
Proof.
  intros e blob_name w.
  pose proof (process_blob_total e blob_name w) as S. unfold wp in S.
  destruct S as (Hr & Hl & Hf). unfold local_only in Hl. tauto.
Qed.

(** The batch entry point never raises, whether listing the container
    fails or any deck does, and it touches neither the container nor the
    collection; objects whose names end in neither [.pptx] nor [.ppt] are
    not downloaded: a listing made of such names only leaves the file system
    as it was and fetches nothing. *)
Theorem extraction_batch_never_raises :
  forall (e : env) (w : world),
    fst (DesignExtractor.main e w) = Ok tt
    /\ generated (snd (DesignExtractor.main e w)) = generated w
    /\ collection (snd (DesignExtractor.main e w)) = collection w
    /\ forall names,
        list_blobs e (clock w) = Ok names ->
        Forall (fun b => Str.endswith ".pptx" b = false /\ Str.endswith ".ppt" b = false)
               names ->
        fs (snd (DesignExtractor.main e w)) = fs w
        /\ fetches (trace (snd (DesignExtractor.main e w))) = fetches (trace w).
Proof.
  intros e w.
  assert (S : wp (DesignExtractor.main e) w
                 (fun r w' => r = Ok tt /\ local_only w w')).
  { unfold DesignExtractor.main. wp_step. apply wp_bind, wp_try. do 2 wp_step.
    cbn [clock set_trace set_clock].
    destruct (list_blobs e (clock w)) as [blobs|ex].
    - eapply wp_conseq.
      { apply (forM_spec _ local_only). intros b w0.
        destruct (_ || _)%bool.
        - eapply wp_conseq; [apply process_blob_total |].
          intros r w' _ (H1 & H2 & _). now split.
        - wp_step. now split. }
      intros r w1 _ [-> H]. wp_step. split; [reflexivity | frame].
    - do 2 wp_step. split; [reflexivity | frame]. }
  unfold wp in S. destruct S as [Hr Hl]. unfold local_only in Hl.
  split; [exact Hr |]. split; [tauto |]. split; [tauto |].
  intros names Hlist Hnone.
  change (wp (DesignExtractor.main e) w
             (fun r w' => fs w' = fs w /\ fetches (trace w') = fetches (trace w))).
  unfold DesignExtractor.main. wp_step. apply wp_bind, wp_try. do 2 wp_step.
  cbn [clock set_trace set_clock]. rewrite Hlist.
  assert (L : forall w0,
             wp (forM_ names
                   (fun b => if (Str.endswith ".pptx" b || Str.endswith ".ppt" b)%bool
                             then DesignExtractor.process_blob e b else ret tt)) w0
                (fun r w' => r = Ok tt /\ w' = w0)).
  { clear -Hnone. induction Hnone as [|b names [H1 H2] _ IH]; intros w0; cbn [forM_].
    - wp_step. now split.
    - rewrite H1, H2. cbn [orb]. wp_step. apply IH. }
  eapply wp_conseq; [apply L |].
  intros r w1 _ [-> ->]. wp_step. now split.
Qed.

Lemma extraction_batch_never_raises_witness :
  let e := with_listing ["notes/readme.txt"; "logo.png"] sample_env in
  list_blobs e 0 = Ok ["notes/readme.txt"; "logo.png"]
  /\ fs (snd (DesignExtractor.main e empty_world)) = ∅
  /\ fetches (trace (snd (DesignExtractor.main e empty_world))) = 0%nat.
Proof.
  intros e. split; [reflexivity |].
  apply (proj2 (proj2 (proj2 (extraction_batch_never_raises e empty_world)))
           ["notes/readme.txt"; "logo.png"] eq_refl).
  repeat constructor.
Defined.

Lemma process_blob_fresh_spec (e : env) (blob_name : string) (deck : src_deck)
      (w : world) :
  (forall t p, disk_ok e t p = true) ->
  (forall t, download_blob e t blob_name = Ok (DeckFile deck)) ->
  fs w !! ("design_jsons/" +:+ Path.basename blob_name +:+ ".json") = None ->
  readable deck = true ->
  wp (DesignExtractor.process_blob e blob_name) w
     (fun r w1 =>
        r = Ok tt
        /\ (exists rec,
               fs w1 !! ("design_jsons/" +:+ Path.basename blob_name +:+ ".json")
               = Some (JsonFile rec)
               /\ field "ppt_name" rec
                  = Some (VStr (Str.replace_char "/" "_" blob_name)))
        /\ fetches (trace w1) = (fetches (trace w) + 2)%nat).
Proof.
  intros Hdisk Hfetch Hnew Hrd.
  unfold DesignExtractor.process_blob, DesignExtractor.ppt_already_processed.
  rewrite cache_path_eq. wp_step. rewrite Hnew.
  rewrite bool_decide_eq_false_2 by (intros [x Hx]; discriminate).
  wp_step. apply wp_bind, wp_try, wp_bind.
  unfold DesignExtractor.download_to.
  apply wp_bind, wp_write_file; intros Hd; [| rewrite Hdisk in Hd; discriminate].
  do 3 wp_step. cbn [clock set_clock set_fs set_trace]. rewrite Hfetch.
  apply wp_write_file; intros Hd'; [| rewrite Hdisk in Hd'; discriminate].
  wp_step. cbv beta iota. apply wp_try, wp_bind.
  eapply wp_conseq; [apply extract_design_elements_spec |].
  intros r w2 _ (F2 & G2 & C2 & K2 & T2 & Hrec).
  cbn [fs set_fs set_clock set_trace] in Hrec. rewrite lookup_insert_eq, Hrd in Hrec.
  destruct Hrec as (rec & vs & -> & Hname & _).
  apply wp_bind, wp_write_file; intros Hd2; [| rewrite Hdisk in Hd2; discriminate].
  apply wp_bind, wp_write_file; intros Hd3; [| rewrite Hdisk in Hd3; discriminate].
  wp_step. split; [reflexivity |]. split.
  - exists rec. split; [cbn; apply lookup_insert_eq |].
    rewrite Hname. do 2 f_equal. apply basename_join, replace_slash_none.
  - cbn in T2 |- *. lia.
Qed.

(** The run on a deck with a shape whose type cannot be read: the deck is
    downloaded, the extraction raises, the failure is logged and no design
    record is written. *)
Lemma process_blob_unreadable_spec (e : env) (blob_name : string) (deck : src_deck)
      (w : world) :
  (forall t p, disk_ok e t p = true) ->
  (forall t, download_blob e t blob_name = Ok (DeckFile deck)) ->
  fs w !! ("design_jsons/" +:+ Path.basename blob_name +:+ ".json") = None ->
  readable deck = false ->
  wp (DesignExtractor.process_blob e blob_name) w
     (fun r w1 =>
        r = Ok tt
        /\ fs w1
           = <[Path.join (gettempdir e) (Str.replace_char "/" "_" blob_name)
               := DeckFile deck]>
               (<[Path.join (gettempdir e) (Str.replace_char "/" "_" blob_name)
                  := RawFile ""]> (fs w))
        /\ fetches (trace w1) = (fetches (trace w) + 2)%nat
        /\ exists msg, hd_error (trace w1) = Some (EvLog EXCEPTION msg)).
Proof.
  intros Hdisk Hfetch Hnew Hrd.
  unfold DesignExtractor.process_blob, DesignExtractor.ppt_already_processed.
  rewrite cache_path_eq. wp_step. rewrite Hnew.
  rewrite bool_decide_eq_false_2 by (intros [x Hx]; discriminate).
  wp_step. apply wp_bind, wp_try, wp_bind.
  unfold DesignExtractor.download_to.
  apply wp_bind, wp_write_file; intros Hd; [| rewrite Hdisk in Hd; discriminate].
  do 3 wp_step. cbn [clock set_clock set_fs set_trace]. rewrite Hfetch.
  apply wp_write_file; intros Hd'; [| rewrite Hdisk in Hd'; discriminate].
  wp_step. cbv beta iota. apply wp_try, wp_bind.
  eapply wp_conseq; [apply extract_design_elements_spec |].
  intros r w2 _ (F2 & G2 & C2 & K2 & T2 & Hrec).
  cbn [fs set_fs set_clock set_trace] in Hrec. rewrite lookup_insert_eq, Hrd in Hrec.
  destruct Hrec as (ex & ->).
  wp_step. split; [reflexivity |].
  split; [cbn [fs set_trace]; rewrite F2; reflexivity |].
  split; [cbn in T2 |- *; lia |].
  eexists. reflexivity.
Qed.

(** Extraction followed by extraction, when the disk works, the deck
    arrives and it has no cache file yet.  If the type of every shape of the
    deck can be read, the first run downloads and extracts once and leaves
    the design record, named after the flattened blob name, in the cache
    file; a second run then finds the file, fetches nothing and leaves every
    file as it is.  If some shape's type cannot be read, the first run
    downloads and tries, writes no cache file, and so does every run after
    it: the deck is fetched again each time. *)
Theorem extraction_then_skip :
  forall (e : env) (blob_name : string) (deck : src_deck) (w : world),
    (forall t p, disk_ok e t p = true) ->
    (forall t, download_blob e t blob_name = Ok (DeckFile deck)) ->
    fs w !! ("design_jsons/" +:+ Path.basename blob_name +:+ ".json") = None ->
    (readable deck = true ->
     exists w1 rec w2,
       DesignExtractor.process_blob e blob_name w = (Ok tt, w1)
       /\ fs w1 !! ("design_jsons/" +:+ Path.basename blob_name +:+ ".json")
          = Some (JsonFile rec)
       /\ field "ppt_name" rec = Some (VStr (Str.replace_char "/" "_" blob_name))
       /\ fetches (trace w1) = (fetches (trace w) + 2)%nat
       /\ DesignExtractor.process_blob e blob_name w1 = (Ok tt, w2)
       /\ fs w2 = fs w1
       /\ fetches (trace w2) = fetches (trace w1))
    /\ (readable deck = false ->
        Path.join (gettempdir e) (Str.replace_char "/" "_" blob_name)
        <> "design_jsons/" +:+ Path.basename blob_name +:+ ".json" ->
        exists w1 w2,
          DesignExtractor.process_blob e blob_name w = (Ok tt, w1)
          /\ fs w1 !! ("design_jsons/" +:+ Path.basename blob_name +:+ ".json") = None
          /\ fetches (trace w1) = (fetches (trace w) + 2)%nat
          /\ DesignExtractor.process_blob e blob_name w1 = (Ok tt, w2)
          /\ fs w2 !! ("design_jsons/" +:+ Path.basename blob_name +:+ ".json") = None
          /\ fetches (trace w2) = (fetches (trace w1) + 2)%nat).
Proof.
  intros e blob_name deck w Hdisk Hfetch Hnew. split.
  - intros Hrd.
    pose proof (process_blob_fresh_spec e blob_name deck w Hdisk Hfetch Hnew Hrd) as S.
    unfold wp in S. destruct S as (Hr & (rec & Hfile & Hname) & Hf).
    set (w1 := snd (DesignExtractor.process_blob e blob_name w)) in *.
    exists w1, rec. eexists.
    split; [rewrite <- Hr; apply surjective_pairing |].
    split; [exact Hfile |]. split; [exact Hname |]. split; [exact Hf |].
    split.
    + unfold DesignExtractor.process_blob, DesignExtractor.ppt_already_processed.
      rewrite cache_path_eq. unfold bind at 1. unfold exists_file. rewrite Hfile.
      rewrite bool_decide_eq_true_2 by (now exists (JsonFile rec)).
      reflexivity.
    + split; reflexivity.
  - intros Hrd Hne.
    assert (Again : forall w0,
               fs w0 !! ("design_jsons/" +:+ Path.basename blob_name +:+ ".json") = None ->
               fst (DesignExtractor.process_blob e blob_name w0) = Ok tt
               /\ fs (snd (DesignExtractor.process_blob e blob_name w0))
                  !! ("design_jsons/" +:+ Path.basename blob_name +:+ ".json") = None
               /\ fetches (trace (snd (DesignExtractor.process_blob e blob_name w0)))
                  = (fetches (trace w0) + 2)%nat).
    { intros w0 H0.
      pose proof (process_blob_unreadable_spec e blob_name deck w0 Hdisk Hfetch H0 Hrd)
        as S.
      unfold wp in S. destruct S as (Hr & Hfs & Hf & _).
      split; [exact Hr |]. split; [| exact Hf].
      rewrite Hfs, !lookup_insert_ne by exact Hne. exact H0. }
    destruct (Again w Hnew) as (R1 & N1 & F1).
    set (w1 := snd (DesignExtractor.process_blob e blob_name w)) in *.
    destruct (Again w1 N1) as (R2 & N2 & F2).
    exists w1, (snd (DesignExtractor.process_blob e blob_name w1)).
    split; [rewrite <- R1; apply surjective_pairing |].
    split; [exact N1 |]. split; [exact F1 |].
    split; [rewrite <- R2; apply surjective_pairing |].
    split; [exact N2 | exact F2].
Qed.

Lemma extraction_then_skip_witness :
  (let e := ingest_env two_slide_deck (fun _ => Ok []) in
   exists w1 rec w2,
     DesignExtractor.process_blob e "decks/2024/two.pptx" empty_world = (Ok tt, w1)
     /\ fs w1 !! "design_jsons/two.pptx.json" = Some (JsonFile rec)
     /\ field "ppt_name" rec = Some (VStr "decks_2024_two.pptx")
     /\ DesignExtractor.process_blob e "decks/2024/two.pptx" w1 = (Ok tt, w2)
     /\ fetches (trace w2) = 2%nat)
  /\ (let e := ingest_env unreadable_deck (fun _ => Ok []) in
      exists w1 w2,
        DesignExtractor.process_blob e "decks/ink.pptx" empty_world = (Ok tt, w1)
        /\ fs w1 !! "design_jsons/ink.pptx.json" = None
        /\ DesignExtractor.process_blob e "decks/ink.pptx" w1 = (Ok tt, w2)
        /\ fetches (trace w2) = 4%nat).
Proof.
  split; intros e.
  - destruct (proj1 (extraction_then_skip e "decks/2024/two.pptx" two_slide_deck
                       empty_world (fun _ _ => eq_refl) (fun _ => eq_refl) eq_refl)
                eq_refl)
      as (w1 & rec & w2 & H1 & Hf & Hn & Ht & H2 & _ & Ht2).
    exists w1, rec, w2. split; [exact H1 |]. split; [exact Hf |]. split; [exact Hn |].
    split; [exact H2 |]. rewrite Ht2, Ht. reflexivity.
  - destruct (proj2 (extraction_then_skip e "decks/ink.pptx" unreadable_deck
                       empty_world (fun _ _ => eq_refl) (fun _ => eq_refl) eq_refl)
                eq_refl ltac:(discriminate))
      as (w1 & w2 & H1 & N1 & F1 & H2 & _ & F2).
    exists w1, w2. split; [exact H1 |]. split; [exact N1 |]. split; [exact H2 |].
    rewrite F2, F1. reflexivity.
Defined.

(** The extractor and the retrieval agree on the cache: after a deck the
    type of whose shapes can be read was extracted, a search hit that names
    the deck by its blob name (the name the ingestion records as
    [ppt_name]) makes the pipeline load exactly the design record of that
    deck, whatever directories the blob name has. *)
Theorem extracted_design_reaches_retrieval :
  forall (e : env) (blob_name : string) (deck : src_deck) (w : world)
         (hit : list (string * value)) (text : string),
    (forall t p, disk_ok e t p = true) ->
    (forall t, download_blob e t blob_name = Ok (DeckFile deck)) ->
    fs w !! ("design_jsons/" +:+ Path.basename blob_name +:+ ".json") = None ->
    readable deck = true ->
    dict_get "ppt_name" hit = Some (VStr blob_name) ->
    dict_get "text" hit = Some (VStr text) ->
    let w1 := snd (DesignExtractor.process_blob e blob_name w) in
    exists rec rt,
      GeneratePpt.gather [VDict hit] ([], []) w1 = (Ok ([rec], rt), w1)
      /\ fs w1 !! ("design_jsons/" +:+ Path.basename blob_name +:+ ".json")
         = Some (JsonFile rec)
      /\ field "ppt_name" rec = Some (VStr (Str.replace_char "/" "_" blob_name))
      /\ rt = (if String.eqb text "" then [] else [VStr (Str.take 500 text)]).
Proof.
  intros e blob_name deck w hit text Hdisk Hfetch Hnew Hrd Hname Htext w1.
  pose proof (process_blob_fresh_spec e blob_name deck w Hdisk Hfetch Hnew Hrd) as S.
  unfold wp in S. destruct S as (_ & (rec & Hfile & Hrec) & _). fold w1 in Hfile.
  exists rec. eexists. split; [| split; [exact Hfile | split; [exact Hrec | reflexivity]]].
  cbn [GeneratePpt.gather]. unfold GeneratePpt.gather_ref.
  unfold py_get. rewrite Hname, Htext. cbn [default].
  change (Path.join "design_jsons" (?b +:+ ".json"))
    with (Path.join DesignExtractor.OUTPUT_DIR (b +:+ ".json")).
  assert (Hthere : is_Some (fs w1 !! ("design_jsons/" +:+ Path.basename blob_name
                                        +:+ ".json"))) by eauto.
  destruct text as [|c text];
    unfold bind, lift, ret, exists_file, read_file, try_except, id;
    cbn [py_or py_slice_to truthy Str.take]; rewrite cache_path_eq;
    cbv beta iota zeta; rewrite (bool_decide_eq_true_2 _ Hthere);
    cbv beta iota zeta; rewrite Hfile; reflexivity.
Qed.

Lemma extracted_design_reaches_retrieval_witness :
  let e := ingest_env two_slide_deck (fun _ => Ok []) in
  let w1 := snd (DesignExtractor.process_blob e "decks/2024/two.pptx" empty_world) in
  exists rec,
    GeneratePpt.gather
      [VDict [("ppt_name", VStr "decks/2024/two.pptx"); ("text", VStr "Agenda")]]
      ([], []) w1
    = (Ok ([rec], [VStr "Agenda"]), w1)
    /\ field "ppt_name" rec = Some (VStr "decks_2024_two.pptx").
Proof.
  intros e w1.
  destruct (extracted_design_reaches_retrieval e "decks/2024/two.pptx" two_slide_deck
              empty_world
              [("ppt_name", VStr "decks/2024/two.pptx"); ("text", VStr "Agenda")]
              "Agenda" (fun _ _ => eq_refl) (fun _ => eq_refl) eq_refl eq_refl
              eq_refl eq_refl)
    as (rec & rt & Hg & _ & Hn & ->).
  exists rec. split; [exact Hg | exact Hn].
Defined.

(** ** More on ingestion *)
Section MoreIngestion.
Variable e : env.
Import IngestionChroma.

Lemma slides_from_lookup (i : nat) (sls : list src_slide) (k : nat) (sl : src_slide) :
  sls !! k = Some sl ->
  slides_from i sls !! k
  = Some {| index := (i + k)%nat;
            text_ := Str.join GeneratePpt.nl (shape_texts (shapes sl)) |}.
Proof.
  revert i k; induction sls as [|s sls IH]; intros i [|k] H;
    try discriminate.
  - injection H as ->. cbn [slides_from]. now rewrite Nat.add_0_r.
  - cbn [slides_from].
    change (slides_from (S i) sls !! k
            = Some {| index := (i + S k)%nat;
                      text_ := Str.join GeneratePpt.nl (shape_texts (shapes sl)) |}).
    rewrite (IH (S i) k H). now replace (S i + k)%nat with (i + S k)%nat by lia.
Qed.

Lemma shape_texts_blank (shs : list shape) :
  Forall (fun sh => match text sh with
                    | Some t => Str.strip t = ""
                    | None => True
                    end) shs ->
  shape_texts shs = [].
Proof.
  induction 1 as [|sh shs H _ IH]; [reflexivity |].
  unfold shape_texts in *. cbn. destruct (text sh) as [t|]; [| exact IH].
  rewrite H. exact IH.
Qed.

Lemma process_blob_clock (blob_name : string) (deck : src_deck) (w : world) :
  (forall t p, disk_ok e t p = true) ->
  (forall t, download_blob e t blob_name = Ok (DeckFile deck)) ->
  slides deck <> [] ->
  wp (process_blob e blob_name) w
     (fun _ w' => (clock w + 3 + length (slides deck) <= clock w')%nat).
Proof.
  intros Hdisk Hfetch Hsl. unfold process_blob, DesignExtractor.download_to.
  wp_step. apply wp_bind, wp_bind.
  apply wp_write_file; intros Hd; [| rewrite Hdisk in Hd; discriminate].
  do 3 wp_step. cbn [clock set_clock set_trace set_fs]. rewrite Hfetch.
  apply wp_write_file; intros Hd'; [| rewrite Hdisk in Hd'; discriminate].
  unfold extract_slides. apply wp_bind, wp_bind, wp_read_file.
  2:{ cbn. rewrite lookup_insert_eq. discriminate. }
  intros f Hf. cbn in Hf. rewrite lookup_insert_eq in Hf. injection Hf as <-.
  wp_step.
  assert (Htr : truthy (slides_from 0 (slides deck)) = true).
  { destruct (slides deck); [congruence | reflexivity]. }
  rewrite Htr. cbn [negb].
  apply wp_bind. eapply wp_conseq; [apply build_batch_spec |].
  intros r w1 _ (_ & _ & _ & _ & F5 & b & -> & _).
  cbn in F5. rewrite slides_from_length in F5.
  unfold azure_embed_func. apply wp_bind, wp_try. do 2 wp_step.
  cbn [clock set_trace set_clock]. wp_step.
  destruct (embeddings_create e _ _ _) as [[|v vs]|ex].
  - cbn [truthy list_truthy negb]. wp_step. cbn. lia.
  - cbn [truthy list_truthy negb]. unfold collection_add. apply wp_bind. wp_step.
    destruct (_ && _)%bool.
    + unfold wp at 1. cbn [fst snd]. wp_step. cbn. lia.
    + wp_step. cbn. lia.
  - do 2 wp_step. cbn [truthy list_truthy negb]. wp_step. cbn. lia.
Qed.

End MoreIngestion.

(** Reading the slides of a deck gives one entry per slide, the k-th with
    index k and with the stripped, non-blank shape texts joined by line
    feeds; a slide none of whose shapes has a non-blank text still gets its
    entry, with the empty text.  A file that is not a deck raises. *)
Theorem every_slide_gets_an_entry :
  forall (local_path : string) (deck : src_deck) (w : world),
    fs w !! local_path = Some (DeckFile deck) ->
    exists sls,
      IngestionChroma.extract_slides local_path w = (Ok sls, w)
      /\ length sls = length (slides deck)
      /\ (forall k sl,
             slides deck !! k = Some sl ->
             exists s,
               sls !! k = Some s
               /\ IngestionChroma.index s = k
               /\ IngestionChroma.text_ s
                  = Str.join GeneratePpt.nl (IngestionChroma.shape_texts (shapes sl))
               /\ (Forall (fun sh => match text sh with
                                     | Some t => Str.strip t = ""
                                     | None => True
                                     end) (shapes sl) ->
                   IngestionChroma.text_ s = "")).
Proof.
  intros local_path deck w Hf.
  exists (IngestionChroma.slides_from 0 (slides deck)). split.
  - unfold IngestionChroma.extract_slides, bind, read_file. now rewrite Hf.
  - split; [apply slides_from_length |].
    intros k sl Hk. eexists. split; [apply slides_from_lookup, Hk |].
    cbn. split; [reflexivity |]. split; [reflexivity |].
    intros Hb. now rewrite shape_texts_blank.
Qed.

Lemma every_slide_gets_an_entry_witness :
  let deck := {| theme_rgbs := Missing;
                 slides := [slide_of [text_shape " Welcome "];
                            slide_of [text_shape nbsp; plain_shape PICTURE "Picture 1"]] |} in
  let w := set_fs {[ "/tmp/two.pptx" := DeckFile deck ]} empty_world in
  exists sls s,
    IngestionChroma.extract_slides "/tmp/two.pptx" w = (Ok sls, w)
    /\ length sls = 2%nat
    /\ sls !! 1%nat = Some s
    /\ IngestionChroma.text_ s = "".
Proof.
  intros deck w.
  destruct (every_slide_gets_an_entry "/tmp/two.pptx" deck w eq_refl)
    as (sls & Hr & Hl & Hk).
  destruct (Hk 1%nat (slide_of [text_shape nbsp; plain_shape PICTURE "Picture 1"])
              eq_refl)
    as (s & Hs & _ & _ & Hb).
  exists sls, s. split; [exact Hr |]. split; [exact Hl |]. split; [exact Hs |].
  apply Hb. repeat constructor.
Defined.

(** Unlike the design extraction, the ingestion does not catch a failed
    download: the exception leaves [process_blob], nothing is added to the
    collection and [collection.add] is not called. *)
Theorem ingestion_download_failure_raises :
  forall (e : env) (blob_name : string) (w : world) (ex : exn),
    disk_ok e (clock w)
      (Path.join (gettempdir e) (Str.replace_char "/" "_" blob_name)) = true ->
    download_blob e (S (clock w)) blob_name = Raise ex ->
    fst (IngestionChroma.process_blob e blob_name w) = Raise ex
    /\ collection (snd (IngestionChroma.process_blob e blob_name w)) = collection w
    /\ adds (trace (snd (IngestionChroma.process_blob e blob_name w))) = adds (trace w).
Proof.
  intros e blob_name w ex Hdisk Hdown.
  change (wp (IngestionChroma.process_blob e blob_name) w
             (fun r w' => r = Raise ex /\ collection w' = collection w
                          /\ adds (trace w') = adds (trace w))).
  unfold IngestionChroma.process_blob, DesignExtractor.download_to.
  wp_step. apply wp_bind, wp_bind.
  apply wp_write_file; intros Hd; [| cbn in Hd; congruence].
  do 3 wp_step. cbn [clock set_clock set_trace set_fs]. rewrite Hdown.
  cbn. now repeat split.
Qed.

Lemma ingestion_download_failure_raises_witness :
  fst (IngestionChroma.process_blob sample_env "decks/gone.pptx" empty_world)
  = Raise (Exn "ResourceNotFoundError" "decks/gone.pptx")
  /\ collection (snd (IngestionChroma.process_blob sample_env "decks/gone.pptx"
                        empty_world)) = [].
Proof.
  destruct (ingestion_download_failure_raises sample_env "decks/gone.pptx" empty_world
              (Exn "ResourceNotFoundError" "decks/gone.pptx") eq_refl eq_refl)
    as (Hr & Hc & _).
  split; [exact Hr | exact Hc].
Defined.

(** Ingestion is not idempotent: ingesting a deck twice stores its slides
    twice.  After the second run the collection holds the old records, then
    one record per slide from the first run, then one per slide from the
    second, with the same documents and with identifiers taken from later
    draws. *)
Theorem ingesting_twice_stores_twice :
  forall (e : env) (blob_name : string) (deck : src_deck) (vs : list (list Q)) (w : world),
    (forall t p, disk_ok e t p = true) ->
    (forall t, download_blob e t blob_name = Ok (DeckFile deck)) ->
    (forall t, embeddings_create e t (EMBEDDING_MODEL e) (deck_texts deck) = Ok vs) ->
    slides deck <> [] ->
    length vs = length (slides deck) ->
    let n := length (slides deck) in
    let w1 := snd (IngestionChroma.process_blob e blob_name w) in
    let w2 := snd (IngestionChroma.process_blob e blob_name w1) in
    exists first second,
      collection w2 = collection w ++ first ++ second
      /\ length first = n /\ length second = n
      /\ map e_document first = deck_texts deck
      /\ map e_document second = deck_texts deck
      /\ map e_id first = fresh_ids e (clock w + 3) n
      /\ map e_id second = fresh_ids e (clock w1 + 3) n
      /\ (clock w + 3 + n <= clock w1 + 3)%nat.
Proof.
  intros e blob_name deck vs w Hdisk Hfetch Hembed Hsl Hlen n w1 w2. subst n.
  assert (Run : forall w0,
             exists es,
               collection (snd (IngestionChroma.process_blob e blob_name w0))
               = collection w0 ++ es
               /\ length es = length (slides deck)
               /\ map e_document es = deck_texts deck
               /\ map e_id es = fresh_ids e (clock w0 + 3) (length (slides deck))).
  { intros w0.
    pose proof (process_blob_spec e blob_name deck w0 Hdisk Hfetch) as S.
    unfold wp in S. destruct S as [_ S]. cbv zeta in S.
    destruct (slides deck) as [|s0 sls] eqn:Esl; [congruence |].
    rewrite Hembed in S. rewrite <- Esl in *.
    destruct vs as [|v vs]; [destruct (slides deck); [congruence | discriminate] |].
    destruct S as (_ & _ & S). rewrite Hlen, Nat.eqb_refl in S.
    destruct S as [_ Hcol]. eexists. split; [exact Hcol |].
    destruct (zip_entries_spec (deck_texts deck) (v :: vs)
                (map (IngestionChroma.meta_of blob_name
                        (Path.splitext_root (Path.basename blob_name)))
                     (IngestionChroma.slides_from 0 (slides deck)))
                (fresh_ids e (clock w0 + 3) (length (slides deck))))
      as (L & D & _ & _ & I).
    - now rewrite deck_texts_length, fresh_ids_length.
    - now rewrite fresh_ids_length.
    - now rewrite length_map, slides_from_length, fresh_ids_length.
    - rewrite fresh_ids_length in L. repeat split; assumption. }
  destruct (Run w) as (es1 & C1 & L1 & D1 & I1).
  destruct (Run w1) as (es2 & C2 & L2 & D2 & I2).
  exists es1, es2. fold w1 in C1. fold w2 in C2.
  split; [rewrite C2, C1, <- app_assoc; reflexivity |].
  repeat split; try assumption.
  pose proof (process_blob_clock e blob_name deck w Hdisk Hfetch Hsl) as K.
  unfold wp in K. fold w1 in K. lia.
Qed.

Lemma ingesting_twice_stores_twice_witness :
  let e := ingest_env two_slide_deck (fun ts => Ok (map (fun _ => [1 # 2]) ts)) in
  let w1 := snd (IngestionChroma.process_blob e "decks/two.pptx" empty_world) in
  let w2 := snd (IngestionChroma.process_blob e "decks/two.pptx" w1) in
  length (collection w1) = 2%nat /\ length (collection w2) = 4%nat.
Proof.
  intros e w1 w2.
  destruct (ingesting_twice_stores_twice e "decks/two.pptx" two_slide_deck
              [[1 # 2]; [1 # 2]] empty_world
              (fun _ _ => eq_refl) (fun _ => eq_refl) (fun _ => eq_refl)
              ltac:(discriminate) eq_refl)
    as (es1 & es2 & Hc & L1 & L2 & _).
  fold e in Hc. fold w1 in Hc. fold w2 in Hc.
  split; [vm_compute; reflexivity |].
  rewrite Hc. cbn [collection empty_world app]. rewrite length_app, L1, L2. reflexivity.
Defined.
